(** * GreenHEART iron modules: capacity sizing, cost estimation, orchestration

    A shallow embedding of
    [greenheart/simulation/technologies/iron/iron_win.py] (and of
    [iron_ore.py], which repeats it line for line under other names) together
    with the properties the specification states about the three-stage
    pipeline.

    Conventions of the embedding.
    - Python numbers are kept abstract behind the interface [PyFloat]: the
      stage functions are written once, over any carrier with the arithmetic
      operators the source uses.  Structural facts (which fields add up to
      which total) are proved for every carrier, so they hold for binary64
      arithmetic as well; algebraic facts are proved for the carrier [R] of
      exact real arithmetic, and the carrier [float] of binary64 shows, at
      the sample configuration, where rounding makes the code differ from
      them.
    - Python dictionaries live in a store ([heap]) and are referred to by
      location, so that aliasing and in-place update are visible.
    - A Python function is a computation in the monad [M]: it threads the
      store and either returns a value or raises an exception. *)

From Stdlib Require Import QArith Qreals Reals Lra.
From Stdlib Require Import Floats.PrimFloat.
From stdpp Require Import gmap strings pretty.

Set Warnings "-clear-no-such-hyp".
Set Warnings "-inexact-float".
Set Default Proof Using "Type".

Local Open Scope string_scope.

(** ** Numbers *)

(** The arithmetic interface the source relies on.  [f_lit] reads a numeric
    literal of the program text, [f_truthy] is [bool(x)] (that is [x != 0]) and
    [f_eqb] is [==]. *)
Class PyFloat (F : Type) := {
  f_lit : Q → F;
  f_add : F → F → F;
  f_sub : F → F → F;
  f_mul : F → F → F;
  f_div : F → F → F;
  f_pow : F → F → F;
  f_truthy : F → bool;
  f_eqb : F → F → bool
}.

Declare Scope py_scope.
Delimit Scope py_scope with py.
Notation "x + y" := (f_add x y) : py_scope.
Notation "x - y" := (f_sub x y) : py_scope.
Notation "x * y" := (f_mul x y) : py_scope.
Notation "x / y" := (f_div x y) : py_scope.
Notation "x ** y" := (f_pow x y) (at level 30, right associativity) : py_scope.
Notation "# q" := (f_lit q%Q) (at level 9, q at level 9, format "# q") : py_scope.

(** Exact real arithmetic.  [Rpower] agrees with Python's [**] on a positive
    base, which is where the theorems over [R] use it. *)
#[export] Instance R_PyFloat : PyFloat R := {|
  f_lit := Q2R;
  f_add := Rplus;
  f_sub := Rminus;
  f_mul := Rmult;
  f_div := Rdiv;
  f_pow := Rpower;
  f_truthy := λ x, if Req_dec_T x 0 then false else true;
  f_eqb := λ x y, if Req_dec_T x y then true else false
|}.

(** Binary64, the arithmetic the code runs in.  A literal of the program
    text is read as the double nearest to it: numerator and denominator of
    every literal of this program are below 2^53, so both convert exactly and
    the one division rounds once, to nearest. *)
Fixpoint float_of_pos (p : positive) : float :=
  match p with
  | xH => 1%float
  | xO p => (2 * float_of_pos p)%float
  | xI p => (2 * float_of_pos p + 1)%float
  end.

Definition float_of_Q (q : Q) : float :=
  match Qnum q with
  | Z0 => 0%float
  | Zpos p => (float_of_pos p / float_of_pos (Qden q))%float
  | Zneg p => (- (float_of_pos p / float_of_pos (Qden q)))%float
  end.

(** Python's [**] on two floats is the C library's [pow], which is not part
    of this program.  [pow_values] records it at the arguments the sample
    configurations reach (a plant capacity of 100000.0; an inflation of 0.02
    over 30 years): base, exponent and the double [pow] returns, which in
    each line is the double nearest to the real power.  [pow 1.0 y] is
    [1.0]; at any other argument [binary64_pow] is [nan], and nothing is
    proved there. *)
Definition pow_values : list (float * float * float) :=
  [ (100000.0, 0.456, 190.54607179632475);
    (100000.0, 0.88741, 27355.8365388478);
    (100000.0, 0.64574, 1693.1677975100088);
    (100000.0, 0.86564, 21291.19315929503);
    (100000.0, 0.63325, 1466.3917209737156);
    (100000.0, 0.59983, 998.0447167327113);
    (100000.0, 0.8, 10000.000000000005);
    (273972.602739726, 0.25242, 23.582293226133938);
    (3183772.602739726, 0.25242, 43.79985069049952);
    (1.02, 30.0, 1.8113615841033548) ]%float.

Definition binary64_pow (x y : float) : float :=
  if (x =? 1)%float then 1%float
  else
    match list_find (λ e, (e.1.1 =? x)%float && (e.1.2 =? y)%float) pow_values with
    | Some (_, e) => e.2
    | None => nan
    end.

Definition binary64 : PyFloat float := {|
  f_lit := float_of_Q;
  f_add := PrimFloat.add;
  f_sub := PrimFloat.sub;
  f_mul := PrimFloat.mul;
  f_div := PrimFloat.div;
  f_pow := binary64_pow;
  f_truthy := λ x, negb (x =? 0)%float;
  f_eqb := PrimFloat.eqb
|}.

(** ** Exceptions and results *)

Inductive value_error :=
  | QuantityRequired      (* "`hydrogen_amount_kgpy` or `desired_iron_win_mtpy` is a required input." *)
  | OnlyOneQuantity       (* "can only select one input: ..." *)
  | LcohMismatch          (* "... cost LCOH and ... finance LCOH are not equal. ..." *)
  | UnpackMismatch.       (* a tuple assignment with the wrong number of values *)

Inductive exn :=
  | KeyError
  | TypeError
  | ValueError (why : value_error)
  | ZeroDivisionError
  | UnboundLocalError
  | ExternalFailure.      (* raised inside a delegated model or the solver *)

Inductive result (A : Type) :=
  | Ok (a : A)
  | Raise (e : exn).
Arguments Ok {A} a.
Arguments Raise {A} e.

#[export] Instance result_ret : MRet result := @Ok.
#[export] Instance result_bind : MBind result := λ A B k r,
  match r with Ok a => k a | Raise e => Raise e end.

(** The pipeline stages, recorded in a ghost trace when they are invoked. *)
Inductive stage := CapacityStage | CostStage | FinanceStage.

Abbreviation loc := positive.

Section Model.
Context {F : Type} {py_float : PyFloat F}.
Local Open Scope py_scope.

(** Division by a quantity of the configuration: Python raises on a zero
    divisor.  (Divisions by a non-zero literal use [f_div] directly.) *)
Definition py_div (x y : F) : result F :=
  if f_truthy y then Ok (x / y) else Raise ZeroDivisionError.

(** ** Feedstocks *)

(** [natural_gas_prices] is a dict and is held by reference; the other
    attributes are numbers. *)
Record Feedstocks := mkFeedstocks {
  natural_gas_prices : loc;
  excess_oxygen : F;
  lime_unitcost : F;
  carbon_unitcost : F;
  electricity_cost : F;
  iron_ore_pellet_unitcost : F;
  oxygen_market_price : F;
  raw_water_unitcost : F;
  iron_ore_consumption : F;
  raw_water_consumption : F;
  lime_consumption : F;
  carbon_consumption : F;
  hydrogen_consumption : F;
  natural_gas_consumption : F;
  electricity_consumption : F;
  slag_disposal_unitcost : F;
  slag_production : F;
  maintenance_materials_unitcost : F
}.

(** ** Values and the store *)

Inductive val :=
  | VNone
  | VBool (b : bool)
  | VInt (z : Z)
  | VNum (x : F)
  | VStr (s : string)
  | VRef (l : loc)                   (* a dict, by identity *)
  | VFeedstocks (fs : Feedstocks).   (* a [Feedstocks] instance; never mutated *)

Abbreviation dict := (gmap string val).
Abbreviation heap := (gmap loc (gmap string val)).

(** The state a call runs in: the store of dicts and the ghost trace of the
    stages invoked so far (most recent last). *)
Record state := mkState { st_heap : heap; st_trace : list stage }.

Definition M (A : Type) : Type := state → result A * state.

#[export] Instance M_ret : MRet M := λ A a σ, (Ok a, σ).
#[export] Instance M_bind : MBind M := λ A B k m σ,
  match m σ with
  | (Ok a, σ') => k a σ'
  | (Raise e, σ') => (Raise e, σ')
  end.

Definition raise {A} (e : exn) : M A := λ σ, (Raise e, σ).
Definition lift {A} (r : result A) : M A := λ σ, (r, σ).
Definition invoke (s : stage) : M unit :=
  λ σ, (Ok tt, mkState (st_heap σ) (st_trace σ ++ [s])).

(** A call out of the repository: it reads the store and returns or fails. *)
Definition external {A} (call : heap → option A) : M A := λ σ,
  match call (st_heap σ) with
  | Some a => (Ok a, σ)
  | None => (Raise ExternalFailure, σ)
  end.

(** [v[k]]: only dicts are subscriptable by a string. *)
Definition subscript (v : val) (k : string) : M val := λ σ,
  match v with
  | VRef l =>
      match st_heap σ !! l with
      | Some d => match d !! k with
                  | Some x => (Ok x, σ)
                  | None => (Raise KeyError, σ)
                  end
      | None => (Raise TypeError, σ)
      end
  | _ => (Raise TypeError, σ)
  end.

(** [v[k] = x]: updates the dict in place. *)
Definition store_item (v : val) (k : string) (x : val) : M unit := λ σ,
  match v with
  | VRef l =>
      match st_heap σ !! l with
      | Some d => (Ok tt, mkState (<[l := <[k := x]> d]> (st_heap σ)) (st_trace σ))
      | None => (Raise TypeError, σ)
      end
  | _ => (Raise TypeError, σ)
  end.

(** The number a value stands for in arithmetic ([bool] is a subclass of
    [int]); anything else is a [TypeError] at its first arithmetic use. *)
Definition as_float (v : val) : result F :=
  match v with
  | VNum x => Ok x
  | VInt z => Ok (f_lit (inject_Z z))
  | VBool b => Ok (f_lit (inject_Z (if b then 1 else 0)))
  | _ => Raise TypeError
  end.

Definition as_int (v : val) : option Z :=
  match v with
  | VBool b => Some (if b then 1 else 0)%Z
  | VInt z => Some z
  | _ => None
  end.

(** The [__eq__] that [attrs] generates compares attribute by attribute. *)
Definition fs_eqb (f g : Feedstocks) : bool :=
  bool_decide (natural_gas_prices f = natural_gas_prices g)
  && f_eqb (excess_oxygen f) (excess_oxygen g)
  && f_eqb (lime_unitcost f) (lime_unitcost g)
  && f_eqb (carbon_unitcost f) (carbon_unitcost g)
  && f_eqb (electricity_cost f) (electricity_cost g)
  && f_eqb (iron_ore_pellet_unitcost f) (iron_ore_pellet_unitcost g)
  && f_eqb (oxygen_market_price f) (oxygen_market_price g)
  && f_eqb (raw_water_unitcost f) (raw_water_unitcost g)
  && f_eqb (iron_ore_consumption f) (iron_ore_consumption g)
  && f_eqb (raw_water_consumption f) (raw_water_consumption g)
  && f_eqb (lime_consumption f) (lime_consumption g)
  && f_eqb (carbon_consumption f) (carbon_consumption g)
  && f_eqb (hydrogen_consumption f) (hydrogen_consumption g)
  && f_eqb (natural_gas_consumption f) (natural_gas_consumption g)
  && f_eqb (electricity_consumption f) (electricity_consumption g)
  && f_eqb (slag_disposal_unitcost f) (slag_disposal_unitcost g)
  && f_eqb (slag_production f) (slag_production g)
  && f_eqb (maintenance_materials_unitcost f) (maintenance_materials_unitcost g).

(** [a == b].  Numbers compare by value across [bool], [int] and [float].
    Dicts are compared by identity here, where Python compares their
    contents; the pipeline only compares the two LCOH entries, which are
    declared [float]. *)
Definition py_eq (a b : val) : bool :=
  match as_int a, as_int b with
  | Some x, Some y => bool_decide (x = y)
  | _, _ =>
      match as_float a, as_float b with
      | Ok x, Ok y => f_eqb x y
      | _, _ =>
          match a, b with
          | VNone, VNone => true
          | VStr s, VStr t => bool_decide (s = t)
          | VRef l, VRef m => bool_decide (l = m)
          | VFeedstocks f, VFeedstocks g => fs_eqb f g
          | _, _ => false
          end
      end
  end.

(** *** copy.deepcopy *)

(** The library function builds a copy of the object graph reachable from
    its argument, at addresses not in use, preserving sharing; immutable
    scalars are returned as they are.  Here the copy of the dict at [l] is
    placed at [top h + l], above every address of the store [h]. *)
Definition val_refs (v : val) : gset loc :=
  match v with
  | VRef l => {[ l ]}
  | VFeedstocks fs => {[ natural_gas_prices fs ]}
  | _ => ∅
  end.

Definition dict_refs (d : dict) : gset loc :=
  ⋃ ((λ kv, val_refs kv.2) <$> map_to_list d).

Definition reach_step (h : heap) (S : gset loc) : gset loc :=
  S ∪ ⋃ ((λ l, from_option dict_refs ∅ (h !! l)) <$> elements S).

Definition reachable (h : heap) (roots : gset loc) : gset loc :=
  Nat.iter (size h) (reach_step h) roots.

Definition top (h : heap) : loc := map_fold (λ l _ acc, Pos.max l acc) 1%positive h.

Definition relocate (b l : loc) : loc := (b + l)%positive.

Definition fs_relocate (b : loc) (fs : Feedstocks) : Feedstocks :=
  mkFeedstocks (relocate b (natural_gas_prices fs))
    (excess_oxygen fs) (lime_unitcost fs) (carbon_unitcost fs)
    (electricity_cost fs) (iron_ore_pellet_unitcost fs)
    (oxygen_market_price fs) (raw_water_unitcost fs) (iron_ore_consumption fs)
    (raw_water_consumption fs) (lime_consumption fs) (carbon_consumption fs)
    (hydrogen_consumption fs) (natural_gas_consumption fs)
    (electricity_consumption fs) (slag_disposal_unitcost fs)
    (slag_production fs) (maintenance_materials_unitcost fs).

Definition val_relocate (b : loc) (v : val) : val :=
  match v with
  | VRef l => VRef (relocate b l)
  | VFeedstocks fs => VFeedstocks (fs_relocate b fs)
  | _ => v
  end.

#[export] Instance relocate_inj (b : loc) : Inj (=) (=) (relocate b).
Proof. intros l1 l2. unfold relocate. lia. Qed.

Definition copy_objects (h : heap) (S : gset loc) : heap :=
  kmap (M2:=gmap loc) (relocate (top h))
       (fmap (M:=gmap string) (val_relocate (top h))
          <$> filter (λ ld, ld.1 ∈ S) h).

Definition deepcopy (v : val) : M val := λ σ,
  let h := st_heap σ in
  (Ok (val_relocate (top h) v),
   mkState (h ∪ copy_objects h (reachable h (val_refs v))) (st_trace σ)).

(** ** Externals *)

(** [model_locs] is read from [model_locations.yaml] when the module is
    imported: model kind, then model name, then the file path under one of
    ["model"], ["inputs"], ["coeffs"].  The file is not part of the sources
    and is kept as a parameter. *)
Variable model_locs : gmap string (gmap string (gmap string string)).

Definition model_locs_lookup (kind : string) (name : val) (entry : string)
  : result val :=
  match name with
  | VStr n =>
      match model_locs !! kind with
      | Some by_name =>
          match by_name !! n with
          | Some paths =>
              match paths !! entry with
              | Some p => Ok (VStr p)
              | None => Raise KeyError
              end
          | None => Raise KeyError
          end
      | None => Raise KeyError
      end
  | VRef _ => Raise TypeError        (* a dict is not hashable *)
  | _ => Raise KeyError
  end.

(** A model descriptor that selects the built-in formulas. *)
Definition placeholder_named (descr : val) (σ : state) : Prop :=
  ∃ l d, descr = VRef l ∧ st_heap σ !! l = Some d
         ∧ d !! "name" = Some (VStr "placeholder").

(** ** Capacity sizing *)

Record IronWinCapacityModelConfig := mkCapacityConfig {
  input_capacity_factor_estimate : F;
  feedstocks : Feedstocks;
  hydrogen_amount_kgpy : option F;
  desired_iron_win_mtpy : option F;
  performance_model : val            (* Optional[dict] *)
}.

(** [bool(x)] for [x : Optional[float]]. *)
Definition opt_truthy (x : option F) : bool :=
  match x with
  | Some v => f_truthy v
  | None => false
  end.

Definition is_none (x : option F) : bool :=
  match x with
  | Some _ => false
  | None => true
  end.

Definition attrs_post_init (self : IronWinCapacityModelConfig) : result unit :=
  if is_none (hydrogen_amount_kgpy self) && is_none (desired_iron_win_mtpy self)
  then Raise (ValueError QuantityRequired)
  else if opt_truthy (hydrogen_amount_kgpy self)
          && opt_truthy (desired_iron_win_mtpy self)
  then Raise (ValueError OnlyOneQuantity)
  else Ok tt.

(** Constructing an instance: the generated [__init__] stores the attributes
    and then runs [__attrs_post_init__]; when that raises there is no
    object. *)
Definition new_IronWinCapacityModelConfig
    (input_capacity_factor_estimate : F) (feedstocks : Feedstocks)
    (hydrogen_amount_kgpy desired_iron_win_mtpy : option F)
    (performance_model : val) : result IronWinCapacityModelConfig :=
  let self := mkCapacityConfig input_capacity_factor_estimate feedstocks
                hydrogen_amount_kgpy desired_iron_win_mtpy performance_model in
  _ ← attrs_post_init self; Ok self.

Record IronWinCapacityModelOutputs := mkCapacityOutputs {
  iron_win_plant_capacity_mtpy : F;
  hydrogen_amount_kgpy_out : F       (* attribute [hydrogen_amount_kgpy] *)
}.

(** The delegated performance model, [importlib.import_module(fp).main(config)]:
    the sequence of numbers it returns, or [None] when the import or the call
    raises.  It sees the store and is taken not to write to it. *)
Variable performance_model_main :
  val → IronWinCapacityModelConfig → heap → option (list F).

(** When the entry [entry_fp] of the model descriptor is blank, it is
    overwritten, in place, with the path the registry holds. *)
Definition resolve_path (descr : val) (kind : string) (name : val)
    (entry_fp entry : string) : M unit :=
  fp ← subscript descr entry_fp;
  if py_eq fp (VStr EmptyString) then
    p ← lift (model_locs_lookup kind name entry);
    store_item descr entry_fp p
  else mret tt.

(** The two locals of the placeholder branch, [None] while unbound. *)
Definition size_locals : Type := option F * option F.

(** The body of the placeholder branch: two independent [if] statements,
    each binding both locals, and the [return] that reads them. *)
Definition placeholder_capacity (config : IronWinCapacityModelConfig)
  : result IronWinCapacityModelOutputs :=
  let fs := feedstocks config in
  let cf := input_capacity_factor_estimate config in
  let unbound : size_locals := (None, None) in
  after_supply ←
    match hydrogen_amount_kgpy config with
    | Some supply =>
        if f_truthy supply then
          q ← py_div (supply / #1000) (hydrogen_consumption fs);
          Ok (Some (q * cf), Some supply)
        else Ok unbound
    | None => Ok unbound
    end;
  after_demand ←
    match desired_iron_win_mtpy config with
    | Some demand =>
        if f_truthy demand then
          hyd ← py_div (demand * #1000 * hydrogen_consumption fs) cf;
          cap ← py_div demand cf;
          Ok (Some cap, Some hyd)
        else Ok after_supply
    | None => Ok after_supply
    end;
  match after_demand with
  | (Some cap, Some hyd) => Ok (mkCapacityOutputs cap hyd)
  | _ => Raise UnboundLocalError
  end.

Definition run_size_iron_win_plant_capacity (config : IronWinCapacityModelConfig)
  : M IronWinCapacityModelOutputs :=
  name ← subscript (performance_model config) "name";
  if py_eq name (VStr "placeholder") then
    lift (placeholder_capacity config)
  else
    perf_model ← subscript (performance_model config) "name";
    resolve_path (performance_model config) "performance" perf_model "model_fp" "model";;
    resolve_path (performance_model config) "performance" perf_model "inputs_fp" "inputs";;
    resolve_path (performance_model config) "performance" perf_model "coeffs_fp" "coeffs";;
    fp ← subscript (performance_model config) "model_fp";
    model_outputs ← external (performance_model_main fp config);
    match model_outputs with
    | [cap; hyd] => mret (mkCapacityOutputs cap hyd)
    | _ => raise (ValueError UnpackMismatch)
    end.

Definition run_iron_win_model (plant_capacity_mtpy plant_capacity_factor : F) : F :=
  plant_capacity_mtpy * plant_capacity_factor.

(** ** Cost estimation *)

Record IronWinCostModelConfig := mkCostConfig {
  operational_year : Z;
  plant_capacity_mtpy : F;
  lcoh : F;
  capex_misc_in : F;                 (* attribute [capex_misc] *)
  cost_feedstocks : Feedstocks;      (* attribute [feedstocks] *)
  o2_heat_integration : bool;
  co2_fuel_emissions : F;
  co2_carbon_emissions : F;
  surface_water_discharge : F;
  cost_model : val                   (* Optional[dict] *)
}.

(** [IronWinCostModelOutputs], with the attributes it inherits from
    [IronWinCosts] first. *)
Record IronWinCostModelOutputs := mkCostOutputs {
  capex_eaf_casting : F;
  capex_shaft_furnace : F;
  capex_oxygen_supply : F;
  capex_h2_preheating : F;
  capex_cooling_tower : F;
  capex_piping : F;
  capex_elec_instr : F;
  capex_buildings_storage_water : F;
  capex_misc : F;
  labor_cost_annual_operation : F;
  labor_cost_maintenance : F;
  labor_cost_admin_support : F;
  property_tax_insurance : F;
  land_cost : F;
  installation_cost : F;
  total_plant_cost : F;
  total_fixed_operating_cost : F;
  labor_cost_fivemonth : F;
  maintenance_materials_onemonth : F;
  non_fuel_consumables_onemonth : F;
  waste_disposal_onemonth : F;
  monthly_energy_cost : F;
  spare_parts_cost : F;
  misc_owners_costs : F
}.

(** The delegated cost model; see [performance_model_main]. *)
Variable cost_model_main :
  val → IronWinCostModelConfig → heap → option (list F).

(** The weighted unit cost of the non-fuel consumables, which the source
    writes out twice (one-month cost and 60-day supply). *)
Definition consumables_unit_cost (fs : Feedstocks) : F :=
  raw_water_consumption fs * raw_water_unitcost fs
  + lime_consumption fs * lime_unitcost fs
  + carbon_consumption fs * carbon_unitcost fs
  + iron_ore_consumption fs * iron_ore_pellet_unitcost fs.

Definition fuel_consumables_60day_supply_cost (config : IronWinCostModelConfig) : F :=
  plant_capacity_mtpy config * consumables_unit_cost (cost_feedstocks config)
  / #365 * #60.

(** The body of the placeholder branch, given the gas price
    [feedstocks.natural_gas_prices[str(config.operational_year)]] it reads. *)
Definition placeholder_costs (config : IronWinCostModelConfig) (gas_price : F)
  : IronWinCostModelOutputs :=
  let feedstocks := cost_feedstocks config in
  let capacity := plant_capacity_mtpy config in
  let model_year_CEPCI := #596.2 in
  let equation_year_CEPCI := #708.8 in
  let capex_eaf_casting :=
    model_year_CEPCI / equation_year_CEPCI * #352191.5237 * capacity ** #0.456 in
  let capex_shaft_furnace :=
    model_year_CEPCI / equation_year_CEPCI * #489.68061 * capacity ** #0.88741 in
  let capex_oxygen_supply :=
    model_year_CEPCI / equation_year_CEPCI * #1715.21508 * capacity ** #0.64574 in
  let capex_h2_preheating :=
    if o2_heat_integration config then
      model_year_CEPCI / equation_year_CEPCI * (#1 - #0.4)
      * (#45.69123 * capacity ** #0.86564)
    else
      model_year_CEPCI / equation_year_CEPCI * #45.69123 * capacity ** #0.86564 in
  let capex_cooling_tower :=
    if o2_heat_integration config then
      model_year_CEPCI / equation_year_CEPCI * (#1 - #0.3)
      * (#2513.08314 * capacity ** #0.63325)
    else
      model_year_CEPCI / equation_year_CEPCI * #2513.08314 * capacity ** #0.63325 in
  let capex_piping :=
    model_year_CEPCI / equation_year_CEPCI * #11815.72718 * capacity ** #0.59983 in
  let capex_elec_instr :=
    model_year_CEPCI / equation_year_CEPCI * #7877.15146 * capacity ** #0.59983 in
  let capex_buildings_storage_water :=
    model_year_CEPCI / equation_year_CEPCI * #1097.81876 * capacity ** #0.8 in
  let capex_misc := capex_misc_in config in
  let total_plant_cost :=
    capex_eaf_casting + capex_shaft_furnace + capex_oxygen_supply
    + capex_h2_preheating + capex_cooling_tower + capex_piping
    + capex_elec_instr + capex_buildings_storage_water + capex_misc in
  (* Fixed O&M costs *)
  let labor_cost_annual_operation :=
    #69375996.9 * ((capacity / #365 * #1000) ** #0.25242)
    / ((#1162077 / #365 * #1000) ** #0.25242) in
  let labor_cost_maintenance := #0.00863 * total_plant_cost in
  let labor_cost_admin_support :=
    #0.25 * (labor_cost_annual_operation + labor_cost_maintenance) in
  let property_tax_insurance := #0.02 * total_plant_cost in
  let total_fixed_operating_cost :=
    labor_cost_annual_operation + labor_cost_maintenance
    + labor_cost_admin_support + property_tax_insurance in
  (* Owner's (installation) costs *)
  let labor_cost_fivemonth :=
    #5 / #12 * (labor_cost_annual_operation + labor_cost_maintenance
                + labor_cost_admin_support) in
  let maintenance_materials_onemonth :=
    maintenance_materials_unitcost feedstocks * capacity / #12 in
  let non_fuel_consumables_onemonth :=
    capacity * consumables_unit_cost feedstocks / #12 in
  let waste_disposal_onemonth :=
    capacity * slag_disposal_unitcost feedstocks * slag_production feedstocks
    / #12 in
  let monthly_energy_cost :=
    capacity
    * (hydrogen_consumption feedstocks * lcoh config * #1000
       + natural_gas_consumption feedstocks * gas_price
       + electricity_consumption feedstocks * electricity_cost feedstocks)
    / #12 in
  let two_percent_tpc := #0.02 * total_plant_cost in
  let spare_parts_cost := #0.005 * total_plant_cost in
  let land_cost := #0.775 * capacity in
  let misc_owners_costs := #0.15 * total_plant_cost in
  let installation_cost :=
    labor_cost_fivemonth + two_percent_tpc
    + fuel_consumables_60day_supply_cost config
    + spare_parts_cost + misc_owners_costs in
  {|
    capex_eaf_casting := capex_eaf_casting;
    capex_shaft_furnace := capex_shaft_furnace;
    capex_oxygen_supply := capex_oxygen_supply;
    capex_h2_preheating := capex_h2_preheating;
    capex_cooling_tower := capex_cooling_tower;
    capex_piping := capex_piping;
    capex_elec_instr := capex_elec_instr;
    capex_buildings_storage_water := capex_buildings_storage_water;
    capex_misc := capex_misc;
    total_plant_cost := total_plant_cost;
    labor_cost_annual_operation := labor_cost_annual_operation;
    labor_cost_maintenance := labor_cost_maintenance;
    labor_cost_admin_support := labor_cost_admin_support;
    property_tax_insurance := property_tax_insurance;
    total_fixed_operating_cost := total_fixed_operating_cost;
    labor_cost_fivemonth := labor_cost_fivemonth;
    maintenance_materials_onemonth := maintenance_materials_onemonth;
    non_fuel_consumables_onemonth := non_fuel_consumables_onemonth;
    waste_disposal_onemonth := waste_disposal_onemonth;
    monthly_energy_cost := monthly_energy_cost;
    spare_parts_cost := spare_parts_cost;
    land_cost := land_cost;
    misc_owners_costs := misc_owners_costs;
    installation_cost := installation_cost
  |}.

Definition run_iron_win_cost_model (config : IronWinCostModelConfig)
  : M IronWinCostModelOutputs :=
  name ← subscript (cost_model config) "name";
  if py_eq name (VStr "placeholder") then
    gas ← subscript (VRef (natural_gas_prices (cost_feedstocks config)))
                    (pretty (operational_year config));
    gas_price ← lift (as_float gas);
    mret (placeholder_costs config gas_price)
  else
    cost_model_name ← subscript (cost_model config) "name";
    resolve_path (cost_model config) "cost" cost_model_name "model_fp" "model";;
    resolve_path (cost_model config) "cost" cost_model_name "inputs_fp" "inputs";;
    resolve_path (cost_model config) "cost" cost_model_name "coeffs_fp" "coeffs";;
    fp ← subscript (cost_model config) "model_fp";
    model_outputs ← external (cost_model_main fp config);
    match model_outputs with
    | [capex_eaf_casting; capex_shaft_furnace; capex_oxygen_supply;
       capex_h2_preheating; capex_cooling_tower; capex_piping; capex_elec_instr;
       capex_buildings_storage_water; capex_misc; total_plant_cost;
       labor_cost_annual_operation; labor_cost_maintenance;
       labor_cost_admin_support; property_tax_insurance;
       total_fixed_operating_cost; labor_cost_fivemonth;
       maintenance_materials_onemonth; non_fuel_consumables_onemonth;
       waste_disposal_onemonth; monthly_energy_cost; spare_parts_cost;
       land_cost; misc_owners_costs; installation_cost] =>
        mret {|
          capex_eaf_casting := capex_eaf_casting;
          capex_shaft_furnace := capex_shaft_furnace;
          capex_oxygen_supply := capex_oxygen_supply;
          capex_h2_preheating := capex_h2_preheating;
          capex_cooling_tower := capex_cooling_tower;
          capex_piping := capex_piping;
          capex_elec_instr := capex_elec_instr;
          capex_buildings_storage_water := capex_buildings_storage_water;
          capex_misc := capex_misc;
          total_plant_cost := total_plant_cost;
          labor_cost_annual_operation := labor_cost_annual_operation;
          labor_cost_maintenance := labor_cost_maintenance;
          labor_cost_admin_support := labor_cost_admin_support;
          property_tax_insurance := property_tax_insurance;
          total_fixed_operating_cost := total_fixed_operating_cost;
          labor_cost_fivemonth := labor_cost_fivemonth;
          maintenance_materials_onemonth := maintenance_materials_onemonth;
          non_fuel_consumables_onemonth := non_fuel_consumables_onemonth;
          waste_disposal_onemonth := waste_disposal_onemonth;
          monthly_energy_cost := monthly_energy_cost;
          spare_parts_cost := spare_parts_cost;
          land_cost := land_cost;
          misc_owners_costs := misc_owners_costs;
          installation_cost := installation_cost
        |}
    | _ => raise (ValueError UnpackMismatch)
    end.

(** ** Financial breakeven *)

Record IronWinFinanceModelConfig := mkFinanceConfig {
  plant_life : Z;
  fin_plant_capacity_mtpy : F;       (* attribute [plant_capacity_mtpy] *)
  plant_capacity_factor : F;
  iron_win_production_mtpy : F;
  fin_lcoh : F;                      (* attribute [lcoh] *)
  grid_prices : loc;
  fin_feedstocks : Feedstocks;       (* attribute [feedstocks] *)
  costs : IronWinCostModelOutputs;
  fin_o2_heat_integration : bool;    (* attribute [o2_heat_integration] *)
  financial_assumptions : option loc;  (* [None]: the empty dict of the factory *)
  install_years : Z;
  gen_inflation : F;
  save_plots : bool;
  show_plots : bool;
  output_dir : string;
  design_scenario_id : Z
}.

Record IronWinFinanceModelOutputs := mkFinanceOutputs {
  sol : gmap string F;
  summary : gmap string F;
  price_breakdown : list (string * F)
}.

(** [run_iron_win_finance_model] hands the configuration, item by item, to
    the ProFAST solver and returns the solver's three results as they are;
    the solver, the plots and the directories it writes are outside the
    repository. *)
Variable profast_solve :
  IronWinFinanceModelConfig → heap → option IronWinFinanceModelOutputs.

Definition run_iron_win_finance_model (config : IronWinFinanceModelConfig)
  : M IronWinFinanceModelOutputs :=
  external (profast_solve config).

(** ** Keyword arguments *)

(** A call [C( ** v)]: [v] has to be a mapping; its entries become keyword
    arguments.  A keyword that names no attribute, a keyword given twice and
    a missing required attribute are each a [TypeError].  The records above
    are typed, so an entry of another type than its attribute is refused
    here, where Python would fail at its first use. *)
Definition kwargs_of (v : val) : M dict := λ σ,
  match v with
  | VRef l =>
      match st_heap σ !! l with
      | Some d => (Ok d, σ)
      | None => (Raise TypeError, σ)
      end
  | _ => (Raise TypeError, σ)
  end.

Definition kwargs_allowed (attributes : list string) (kw : dict) : bool :=
  bool_decide (dom kw ⊆ list_to_set attributes).

Definition kw_float (kw : dict) (k : string) (default : option F) : result F :=
  match kw !! k, default with
  | Some v, _ => as_float v
  | None, Some x => Ok x
  | None, None => Raise TypeError
  end.

Definition kw_optional_float (kw : dict) (k : string) : result (option F) :=
  match kw !! k with
  | Some VNone | None => Ok None
  | Some v => x ← as_float v; Ok (Some x)
  end.

Definition kw_int (kw : dict) (k : string) (default : option Z) : result Z :=
  match kw !! k, default with
  | Some (VInt z), _ => Ok z
  | Some _, _ => Raise TypeError
  | None, Some z => Ok z
  | None, None => Raise TypeError
  end.

Definition kw_bool (kw : dict) (k : string) (default : bool) : result bool :=
  match kw !! k with
  | Some (VBool b) => Ok b
  | Some _ => Raise TypeError
  | None => Ok default
  end.

Definition kw_dict (kw : dict) (k : string) : result loc :=
  match kw !! k with
  | Some (VRef l) => Ok l
  | _ => Raise TypeError
  end.

Definition new_Feedstocks (kw : dict) : result Feedstocks :=
  if negb (kwargs_allowed
       ["natural_gas_prices"; "excess_oxygen"; "lime_unitcost"; "carbon_unitcost";
        "electricity_cost"; "iron_ore_pellet_unitcost"; "oxygen_market_price";
        "raw_water_unitcost"; "iron_ore_consumption"; "raw_water_consumption";
        "lime_consumption"; "carbon_consumption"; "hydrogen_consumption";
        "natural_gas_consumption"; "electricity_consumption";
        "slag_disposal_unitcost"; "slag_production";
        "maintenance_materials_unitcost"] kw)
  then Raise TypeError else
  natural_gas_prices ← kw_dict kw "natural_gas_prices";
  excess_oxygen ← kw_float kw "excess_oxygen" (Some #395);
  lime_unitcost ← kw_float kw "lime_unitcost" (Some #122.1);
  carbon_unitcost ← kw_float kw "carbon_unitcost" (Some #236.97);
  electricity_cost ← kw_float kw "electricity_cost" (Some #48.92);
  iron_ore_pellet_unitcost ← kw_float kw "iron_ore_pellet_unitcost" (Some #207.35);
  oxygen_market_price ← kw_float kw "oxygen_market_price" (Some #0.03);
  raw_water_unitcost ← kw_float kw "raw_water_unitcost" (Some #0.59289);
  iron_ore_consumption ← kw_float kw "iron_ore_consumption" (Some #1.62927);
  raw_water_consumption ← kw_float kw "raw_water_consumption" (Some #0.80367);
  lime_consumption ← kw_float kw "lime_consumption" (Some #0.01812);
  carbon_consumption ← kw_float kw "carbon_consumption" (Some #0.0538);
  hydrogen_consumption ← kw_float kw "hydrogen_consumption" (Some #0.06596);
  natural_gas_consumption ← kw_float kw "natural_gas_consumption" (Some #0.71657);
  electricity_consumption ← kw_float kw "electricity_consumption" (Some #0.5502);
  slag_disposal_unitcost ← kw_float kw "slag_disposal_unitcost" (Some #37.63);
  slag_production ← kw_float kw "slag_production" (Some #0.17433);
  maintenance_materials_unitcost ←
    kw_float kw "maintenance_materials_unitcost" (Some #7.72);
  Ok (mkFeedstocks natural_gas_prices excess_oxygen lime_unitcost carbon_unitcost
        electricity_cost iron_ore_pellet_unitcost oxygen_market_price
        raw_water_unitcost iron_ore_consumption raw_water_consumption
        lime_consumption carbon_consumption hydrogen_consumption
        natural_gas_consumption electricity_consumption slag_disposal_unitcost
        slag_production maintenance_materials_unitcost).

(** [IronWinCapacityModelConfig(feedstocks=feedstocks, **kw)] *)
Definition capacity_config_of_kwargs (feedstocks : Feedstocks) (kw : dict)
  : result IronWinCapacityModelConfig :=
  if negb (kwargs_allowed
       ["input_capacity_factor_estimate"; "hydrogen_amount_kgpy";
        "desired_iron_win_mtpy"; "performance_model"] kw)
  then Raise TypeError else
  cf ← kw_float kw "input_capacity_factor_estimate" None;
  hydrogen ← kw_optional_float kw "hydrogen_amount_kgpy";
  desired ← kw_optional_float kw "desired_iron_win_mtpy";
  new_IronWinCapacityModelConfig cf feedstocks hydrogen desired
    (default VNone (kw !! "performance_model")).

(** [IronWinCostModelConfig(plant_capacity_mtpy=capacity, **kw)] *)
Definition cost_config_of_kwargs (capacity : F) (kw : dict)
  : result IronWinCostModelConfig :=
  if negb (kwargs_allowed
       ["operational_year"; "lcoh"; "capex_misc"; "feedstocks";
        "o2_heat_integration"; "co2_fuel_emissions"; "co2_carbon_emissions";
        "surface_water_discharge"; "cost_model"] kw)
  then Raise TypeError else
  operational_year ← kw_int kw "operational_year" None;
  lcoh ← kw_float kw "lcoh" None;
  capex_misc ← kw_float kw "capex_misc" None;
  feedstocks ← match kw !! "feedstocks" with
               | Some (VFeedstocks fs) => Ok fs
               | _ => Raise TypeError
               end;
  o2_heat_integration ← kw_bool kw "o2_heat_integration" true;
  co2_fuel_emissions ← kw_float kw "co2_fuel_emissions" (Some #0.03929);
  co2_carbon_emissions ← kw_float kw "co2_carbon_emissions" (Some #0.17466);
  surface_water_discharge ← kw_float kw "surface_water_discharge" (Some #0.42113);
  Ok (mkCostConfig operational_year capacity lcoh capex_misc feedstocks
        o2_heat_integration co2_fuel_emissions co2_carbon_emissions
        surface_water_discharge (default VNone (kw !! "cost_model"))).

(** [IronWinFinanceModelConfig(plant_capacity_mtpy=..., ..., **kw)] *)
Definition finance_config_of_kwargs (capacity capacity_factor production : F)
    (costs : IronWinCostModelOutputs) (show_plots save_plots : bool)
    (output_dir : string) (design_scenario_id : Z) (kw : dict)
  : result IronWinFinanceModelConfig :=
  if negb (kwargs_allowed
       ["plant_life"; "lcoh"; "grid_prices"; "feedstocks"; "o2_heat_integration";
        "financial_assumptions"; "install_years"; "gen_inflation"] kw)
  then Raise TypeError else
  plant_life ← kw_int kw "plant_life" None;
  lcoh ← kw_float kw "lcoh" None;
  grid_prices ← kw_dict kw "grid_prices";
  feedstocks ← match kw !! "feedstocks" with
               | Some (VFeedstocks fs) => Ok fs
               | _ => Raise TypeError
               end;
  o2_heat_integration ← kw_bool kw "o2_heat_integration" true;
  financial_assumptions ← match kw !! "financial_assumptions" with
                          | Some (VRef l) => Ok (Some l)
                          | Some _ => Raise TypeError
                          | None => Ok None
                          end;
  install_years ← kw_int kw "install_years" (Some 3%Z);
  gen_inflation ← kw_float kw "gen_inflation" (Some #0.00);
  Ok (mkFinanceConfig plant_life capacity capacity_factor production lcoh
        grid_prices feedstocks costs o2_heat_integration financial_assumptions
        install_years gen_inflation save_plots show_plots output_dir
        design_scenario_id).

(** Attribute assignments on the configuration objects. *)
Definition set_performance_model (v : val) (c : IronWinCapacityModelConfig) :=
  mkCapacityConfig (input_capacity_factor_estimate c) (feedstocks c)
    (hydrogen_amount_kgpy c) (desired_iron_win_mtpy c) v.

Definition set_plant_capacity_mtpy (x : F) (c : IronWinCostModelConfig) :=
  mkCostConfig (operational_year c) x (lcoh c) (capex_misc_in c)
    (cost_feedstocks c) (o2_heat_integration c) (co2_fuel_emissions c)
    (co2_carbon_emissions c) (surface_water_discharge c) (cost_model c).

Definition set_cost_model (v : val) (c : IronWinCostModelConfig) :=
  mkCostConfig (operational_year c) (plant_capacity_mtpy c) (lcoh c)
    (capex_misc_in c) (cost_feedstocks c) (o2_heat_integration c)
    (co2_fuel_emissions c) (co2_carbon_emissions c) (surface_water_discharge c) v.

(** ** Orchestration *)

Definition run_iron_win_full_model (greenheart_config : val)
    (save_plots show_plots : bool) (output_dir : string) (design_scenario_id : Z)
  : M (IronWinCapacityModelOutputs * IronWinCostModelOutputs
       * IronWinFinanceModelOutputs) :=
  iron ← subscript greenheart_config "iron";
  iron_win_config ← deepcopy iron;
  cost_entry ← subscript iron_win_config "costs";
  cost_lcoh ← subscript cost_entry "lcoh";
  finance_entry ← subscript iron_win_config "finances";
  finance_lcoh ← subscript finance_entry "lcoh";
  if negb (py_eq cost_lcoh finance_lcoh) then raise (ValueError LcohMismatch) else
  iron_win_costs ← subscript iron_win_config "costs";
  iron_win_capacity ← subscript iron_win_config "capacity";
  feedstock_entry ← subscript iron_win_costs "feedstocks";
  feedstock_kw ← kwargs_of feedstock_entry;
  feedstocks ← lift (new_Feedstocks feedstock_kw);
  (* capacity model *)
  capacity_kw ← kwargs_of iron_win_capacity;
  capacity_config ← lift (capacity_config_of_kwargs feedstocks capacity_kw);
  performance_model ← subscript iron_win_config "performance_model";
  let capacity_config := set_performance_model performance_model capacity_config in
  invoke CapacityStage;;
  iron_win_capacity ← run_size_iron_win_plant_capacity capacity_config;
  (* cost model *)
  store_item iron_win_costs "feedstocks" (VFeedstocks feedstocks);;
  cost_kw ← kwargs_of iron_win_costs;
  iron_win_cost_config ← lift (cost_config_of_kwargs
    (iron_win_plant_capacity_mtpy iron_win_capacity) cost_kw);
  let iron_win_cost_config :=
    set_plant_capacity_mtpy (iron_win_plant_capacity_mtpy iron_win_capacity)
      iron_win_cost_config in
  cost_model ← subscript iron_win_config "cost_model";
  let iron_win_cost_config := set_cost_model cost_model iron_win_cost_config in
  invoke CostStage;;
  iron_win_costs ← run_iron_win_cost_model iron_win_cost_config;
  (* finance model *)
  iron_win_finance ← subscript iron_win_config "finances";
  store_item iron_win_finance "feedstocks" (VFeedstocks feedstocks);;
  finance_kw ← kwargs_of iron_win_finance;
  iron_win_finance_config ← lift (finance_config_of_kwargs
    (iron_win_plant_capacity_mtpy iron_win_capacity)
    (input_capacity_factor_estimate capacity_config)
    (run_iron_win_model (iron_win_plant_capacity_mtpy iron_win_capacity)
       (input_capacity_factor_estimate capacity_config))
    iron_win_costs show_plots save_plots output_dir design_scenario_id
    finance_kw);
  invoke FinanceStage;;
  iron_win_finance ← run_iron_win_finance_model iron_win_finance_config;
  mret (iron_win_capacity, iron_win_costs, iron_win_finance).

(** ** The iron-ore module

    [iron_ore.py] is [iron_win.py] with [iron_win]/[IronWin] renamed to
    [iron_ore]/[IronOre] throughout (and notes added in comments); its
    functions share the embedding above. *)
Definition IronOreCapacityModelConfig : Type := IronWinCapacityModelConfig.
Definition IronOreCapacityModelOutputs : Type := IronWinCapacityModelOutputs.
Definition IronOreCostModelConfig : Type := IronWinCostModelConfig.
Definition IronOreCostModelOutputs : Type := IronWinCostModelOutputs.
Definition IronOreFinanceModelOutputs : Type := IronWinFinanceModelOutputs.

Definition new_IronOreCapacityModelConfig
    (input_capacity_factor_estimate : F) (feedstocks : Feedstocks)
    (hydrogen_amount_kgpy desired_iron_ore_mtpy : option F)
    (performance_model : val) : result IronOreCapacityModelConfig :=
  new_IronWinCapacityModelConfig input_capacity_factor_estimate feedstocks
    hydrogen_amount_kgpy desired_iron_ore_mtpy performance_model.

Definition run_size_iron_ore_plant_capacity (config : IronOreCapacityModelConfig)
  : M IronOreCapacityModelOutputs :=
  run_size_iron_win_plant_capacity config.

Definition run_iron_ore_cost_model (config : IronOreCostModelConfig)
  : M IronOreCostModelOutputs :=
  run_iron_win_cost_model config.

Definition run_iron_ore_full_model (greenheart_config : val)
    (save_plots show_plots : bool) (output_dir : string) (design_scenario_id : Z)
  : M (IronOreCapacityModelOutputs * IronOreCostModelOutputs
       * IronOreFinanceModelOutputs) :=
  run_iron_win_full_model greenheart_config save_plots show_plots output_dir
    design_scenario_id.

(** The class defaults of [Feedstocks], for a given price table. *)
Definition default_feedstocks (natural_gas_prices : loc) : Feedstocks :=
  mkFeedstocks natural_gas_prices #395 #122.1 #236.97 #48.92 #207.35 #0.03
    #0.59289 #1.62927 #0.80367 #0.01812 #0.0538 #0.06596 #0.71657 #0.5502
    #37.63 #0.17433 #7.72.

(** The sums a caller rebuilds from the returned line items. *)
Definition capital_items_sum (out : IronWinCostModelOutputs) : F :=
  capex_eaf_casting out + capex_shaft_furnace out + capex_oxygen_supply out
  + capex_h2_preheating out + capex_cooling_tower out + capex_piping out
  + capex_elec_instr out + capex_buildings_storage_water out + capex_misc out.

Definition fixed_items_sum (out : IronWinCostModelOutputs) : F :=
  labor_cost_annual_operation out + labor_cost_maintenance out
  + labor_cost_admin_support out + property_tax_insurance out.

(** Two cost configurations with the same inputs to the installation cost:
    capacity, integration flag, miscellaneous capex and the four non-fuel
    consumables.  Every other attribute may differ. *)
Definition same_installation_inputs (c1 c2 : IronWinCostModelConfig) : Prop :=
  plant_capacity_mtpy c1 = plant_capacity_mtpy c2
  ∧ o2_heat_integration c1 = o2_heat_integration c2
  ∧ capex_misc_in c1 = capex_misc_in c2
  ∧ raw_water_consumption (cost_feedstocks c1) = raw_water_consumption (cost_feedstocks c2)
  ∧ raw_water_unitcost (cost_feedstocks c1) = raw_water_unitcost (cost_feedstocks c2)
  ∧ lime_consumption (cost_feedstocks c1) = lime_consumption (cost_feedstocks c2)
  ∧ lime_unitcost (cost_feedstocks c1) = lime_unitcost (cost_feedstocks c2)
  ∧ carbon_consumption (cost_feedstocks c1) = carbon_consumption (cost_feedstocks c2)
  ∧ carbon_unitcost (cost_feedstocks c1) = carbon_unitcost (cost_feedstocks c2)
  ∧ iron_ore_consumption (cost_feedstocks c1) = iron_ore_consumption (cost_feedstocks c2)
  ∧ iron_ore_pellet_unitcost (cost_feedstocks c1)
    = iron_ore_pellet_unitcost (cost_feedstocks c2).

(** What a call may do to the store through a model descriptor [descr]:
    every dict is still there, and an entry differs from what it was only if
    it is one of the three path entries of [descr] and was blank. *)
Definition path_entries : list string := ["model_fp"; "inputs_fp"; "coeffs_fp"].

Definition blank_entry (o : option val) : Prop :=
  ∃ v, o = Some v ∧ py_eq v (VStr EmptyString) = true.

Definition patched (descr : val) (σ σ' : state) : Prop :=
  st_trace σ' = st_trace σ
  ∧ dom (st_heap σ') = dom (st_heap σ)
  ∧ ∀ l d, st_heap σ !! l = Some d →
      ∃ d', st_heap σ' !! l = Some d'
            ∧ ∀ k, d' !! k = d !! k
                   ∨ (descr = VRef l ∧ k ∈ path_entries ∧ blank_entry (d !! k)).

(** What the descriptor [d] holds once the registry's [paths] have been
    filled in: a path entry that is blank gets the path the registry holds
    under the matching key, any other entry is left as it is. *)
Definition path_keys : list (string * string) :=
  [("model_fp", "model"); ("inputs_fp", "inputs"); ("coeffs_fp", "coeffs")].

Definition resolve_entry (paths : gmap string string) (entry_fp key : string)
    (d : dict) : dict :=
  match d !! entry_fp, paths !! key with
  | Some v, Some p =>
      if py_eq v (VStr EmptyString) then <[entry_fp := VStr p]> d else d
  | _, _ => d
  end.

Definition resolved (paths : gmap string string) (d : dict) : dict :=
  resolve_entry paths "coeffs_fp" "coeffs"
    (resolve_entry paths "inputs_fp" "inputs"
       (resolve_entry paths "model_fp" "model" d)).

(** A computation all of whose runs relate the state before to the state
    after by [R]. *)
Definition steps (R : state → state → Prop) {A} (m : M A) : Prop :=
  ∀ σ, R σ (m σ).2.

(** Isolation of a caller's store [h0]: the dicts of [h0] are as they were,
    and the dicts made since hold no reference into [h0]. *)
Definition fresh_in (h0 : heap) (v : val) : Prop :=
  ∀ l, l ∈ val_refs v → h0 !! l = None.

Definition isolated (h0 : heap) (σ : state) : Prop :=
  (∀ l, is_Some (h0 !! l) → st_heap σ !! l = h0 !! l)
  ∧ (∀ l d k v, h0 !! l = None → st_heap σ !! l = Some d → d !! k = Some v →
                fresh_in h0 v).

(** [keeps h0 m Φ]: [m] maintains the isolation of [h0], whether it returns
    or raises, and a value it returns satisfies [Φ]. *)
Definition keeps (h0 : heap) {A} (m : M A) (Φ : A → Prop) : Prop :=
  ∀ σ, isolated h0 σ → isolated h0 (m σ).2 ∧ ∀ a, (m σ).1 = Ok a → Φ a.

(** Reading an entry of a nested configuration without running anything:
    the value of [v[k]] in the store [h], if there is one. *)
Definition entry (h : heap) (v : val) (k : string) : option val :=
  match v with
  | VRef l => d ← h !! l; d !! k
  | _ => None
  end.

(** [config['iron']['costs']['lcoh']] and [config['iron']['finances']['lcoh']] *)
Definition cost_stage_lcoh (h : heap) (greenheart_config : val) : option val :=
  iron ← entry h greenheart_config "iron";
  costs ← entry h iron "costs";
  entry h costs "lcoh".

Definition finance_stage_lcoh (h : heap) (greenheart_config : val) : option val :=
  iron ← entry h greenheart_config "iron";
  finances ← entry h iron "finances";
  entry h finances "lcoh".

(** A result, or a computation, that is not the LCOH consistency error. *)
Definition no_mismatch {A} (r : result A) : Prop :=
  r ≠ Raise (ValueError LcohMismatch).

Definition avoids_mismatch {A} (m : M A) : Prop :=
  ∀ σ, no_mismatch (m σ).1.

(** The same cost configuration with the integration flag set to [flag]. *)
Definition with_o2_heat_integration (flag : bool) (c : IronWinCostModelConfig) :=
  mkCostConfig (operational_year c) (plant_capacity_mtpy c) (lcoh c)
    (capex_misc_in c) (cost_feedstocks c) flag (co2_fuel_emissions c)
    (co2_carbon_emissions c) (surface_water_discharge c) (cost_model c).

(** ** A sample configuration

    A store holding a [greenheart_config] (at 1) the way the YAML loader
    builds it, with the iron section at 2: both model descriptors share the
    dict at 6, which names the placeholder model.  The dict at 10 is a
    descriptor of a named model with blank paths, and [sample_model_locs] a
    registry that knows it. *)
Definition sample_heap : heap :=
  list_to_map [
    (1%positive, list_to_map [("iron", VRef 2)]);
    (2%positive, list_to_map [("costs", VRef 3); ("finances", VRef 4);
                              ("capacity", VRef 5); ("performance_model", VRef 6);
                              ("cost_model", VRef 6)]);
    (3%positive, list_to_map [("lcoh", VNum #4.5); ("feedstocks", VRef 7);
                              ("operational_year", VInt 2035);
                              ("capex_misc", VInt 0)]);
    (4%positive, list_to_map [("lcoh", VNum #4.5); ("plant_life", VInt 30);
                              ("grid_prices", VRef 8)]);
    (5%positive, list_to_map [("input_capacity_factor_estimate", VNum #0.9);
                              ("hydrogen_amount_kgpy", VInt 65960)]);
    (6%positive, list_to_map [("name", VStr "placeholder")]);
    (7%positive, list_to_map [("natural_gas_prices", VRef 9)]);
    (8%positive, list_to_map [("2035", VNum #48.92)]);
    (9%positive, list_to_map [("2035", VNum #3.76)]);
    (10%positive, list_to_map [("name", VStr "regression");
                               ("model_fp", VStr EmptyString);
                               ("inputs_fp", VStr EmptyString);
                               ("coeffs_fp", VStr "coeffs.csv")])
  ].

Definition sample_state : state := mkState sample_heap [].

Definition sample_model_locs : gmap string (gmap string (gmap string string)) :=
  {[ "performance" :=
       {[ "regression" :=
            list_to_map [("model", "models.regression");
                         ("inputs", "regression_inputs.yaml");
                         ("coeffs", "regression_coeffs.csv")] ]} ]}.

(** The descriptor the sample store holds at 10, and what the sample
    registry holds for the model it names. *)
Definition sample_descriptor : dict :=
  list_to_map [("name", VStr "regression");
               ("model_fp", VStr EmptyString);
               ("inputs_fp", VStr EmptyString);
               ("coeffs_fp", VStr "coeffs.csv")].

Definition sample_paths : gmap string string :=
  list_to_map [("model", "models.regression");
               ("inputs", "regression_inputs.yaml");
               ("coeffs", "regression_coeffs.csv")].

Definition sample_capacity_config (supply demand : option F)
  : IronWinCapacityModelConfig :=
  mkCapacityConfig #0.9 (default_feedstocks 9) supply demand (VRef 6).

Definition sample_cost_config : IronWinCostModelConfig :=
  mkCostConfig 2035 #100000 #4.5 #0 (default_feedstocks 9) true
    #0.03929 #0.17466 #0.42113 (VRef 6).

(** The sample cost configuration with another miscellaneous capex. *)
Definition sample_misc_config (capex_misc : F) (flag : bool)
  : IronWinCostModelConfig :=
  mkCostConfig 2035 #100000 #4.5 capex_misc (default_feedstocks 9) flag
    #0.03929 #0.17466 #0.42113 (VRef 6).

Definition sample_named_config : IronWinCapacityModelConfig :=
  mkCapacityConfig #0.9 (default_feedstocks 9) (Some #65960) None (VRef 10).

(** What the placeholder cost model returns for the sample configuration,
    whose price table holds 3.76 for its operational year. *)
Definition sample_cost_outputs (flag : bool) : IronWinCostModelOutputs :=
  placeholder_costs (with_o2_heat_integration flag sample_cost_config) #3.76.

(** Stand-ins for the parameters when the sample is run: an empty registry,
    delegated models that fail, and a solver that returns empty results. *)
Definition no_registry : gmap string (gmap string (gmap string string)) := ∅.

Definition no_model {C : Type} (fp : val) (config : C) (h : heap)
  : option (list F) := None.

Definition sample_solver (config : IronWinFinanceModelConfig) (h : heap)
  : option IronWinFinanceModelOutputs :=
  Some (mkFinanceOutputs ∅ ∅ []).

(** ** Delegated models *)

(** A model descriptor that selects the delegated model [n]: its entry
    [name] is a string other than ["placeholder"]. *)
Definition model_named (descr : val) (n : string) (d : dict) (σ : state) : Prop :=
  ∃ l, descr = VRef l ∧ st_heap σ !! l = Some d
       ∧ d !! "name" = Some (VStr n) ∧ n ≠ "placeholder".

(** An entry of a descriptor that is present and does not compare equal to
    the empty string. *)
Definition explicit_entry (o : option val) : Prop :=
  ∃ v, o = Some v ∧ py_eq v (VStr EmptyString) = false.

(** The values of cost outputs in the order in which the cost function
    unpacks the result of a delegated model. *)
Definition unpack_order (out : IronWinCostModelOutputs) : list F :=
  [capex_eaf_casting out; capex_shaft_furnace out; capex_oxygen_supply out;
   capex_h2_preheating out; capex_cooling_tower out; capex_piping out;
   capex_elec_instr out; capex_buildings_storage_water out; capex_misc out;
   total_plant_cost out; labor_cost_annual_operation out;
   labor_cost_maintenance out; labor_cost_admin_support out;
   property_tax_insurance out; total_fixed_operating_cost out;
   labor_cost_fivemonth out; maintenance_materials_onemonth out;
   non_fuel_consumables_onemonth out; waste_disposal_onemonth out;
   monthly_energy_cost out; spare_parts_cost out; land_cost out;
   misc_owners_costs out; installation_cost out].

(** A store with one descriptor of a delegated model, all of whose paths are
    given. *)
Definition explicit_heap : heap :=
  {[ 1%positive := list_to_map [("name", VStr "regression");
                                ("model_fp", VStr "models.regression");
                                ("inputs_fp", VStr "inputs.yaml");
                                ("coeffs_fp", VStr "coeffs.csv")] ]}.

Definition explicit_state : state := mkState explicit_heap [].

Definition explicit_capacity_config : IronWinCapacityModelConfig :=
  mkCapacityConfig #0.9 (default_feedstocks 9) (Some #65960) None (VRef 1).

Definition explicit_cost_config : IronWinCostModelConfig :=
  mkCostConfig 2035 #100000 #4.5 #0 (default_feedstocks 9) true
    #0.03929 #0.17466 #0.42113 (VRef 1).

(** Delegated models that return a fixed sequence of values. *)
Definition constant_model {C : Type} (vs : list F) (fp : val) (config : C)
    (h : heap) : option (list F) := Some vs.

(** The outputs of the cost function that are capital items, fixed costs or
    fractions of them: everything but the installation cost and the four
    one-month costs. *)
Definition capital_and_fixed_outputs (out : IronWinCostModelOutputs) : list F :=
  [capex_eaf_casting out; capex_shaft_furnace out; capex_oxygen_supply out;
   capex_h2_preheating out; capex_cooling_tower out; capex_piping out;
   capex_elec_instr out; capex_buildings_storage_water out; capex_misc out;
   total_plant_cost out; labor_cost_annual_operation out;
   labor_cost_maintenance out; labor_cost_admin_support out;
   property_tax_insurance out; total_fixed_operating_cost out;
   labor_cost_fivemonth out; spare_parts_cost out; land_cost out;
   misc_owners_costs out].

(** A descriptor's entry [entry_fp] that path resolution leaves as it is:
    it is given, or blank and equal to what the registry holds for it. *)
Definition settled (descr : val) (kind : string) (name : val)
    (entry_fp key : string) (σ : state) : Prop :=
  ∃ fp, entry (st_heap σ) descr entry_fp = Some fp
        ∧ (py_eq fp (VStr EmptyString) = true →
           model_locs_lookup kind name key = Ok fp).

(** The path resolutions of a stage function, one after the other, with the
    rest of its body as [rest]. *)
Fixpoint resolve_all {B} (descr : val) (kind : string) (name : val)
    (entries : list (string * string)) (rest : M B) : M B :=
  match entries with
  | [] => rest
  | (entry_fp, key) :: entries =>
      resolve_path descr kind name entry_fp key;;
      resolve_all descr kind name entries rest
  end.

(** A computation that enters the stages [stages], in this order, when it
    returns, and a prefix of them when it raises. *)
Definition stage_order (stages : list stage) {A} (m : M A) : Prop :=
  ∀ σ, match m σ with
       | (Ok _, σ') => st_trace σ' = (st_trace σ ++ stages)%list
       | (Raise _, σ') =>
           ∃ entered, entered `prefix_of` stages
                      ∧ st_trace σ' = (st_trace σ ++ entered)%list
       end.

(** ** The sample run

    The states the orchestrator passes through on the sample configuration:
    the store with the copy of the iron section (the dict at [l] copied to
    [10 + l]), then with the feedstocks object stored into the copy of the
    cost section and into the copy of the finance section. *)
Definition copied_heap : heap := st_heap (deepcopy (VRef 2) sample_state).2.

Definition sample_feedstocks : Feedstocks := default_feedstocks 19.

Definition costed_heap : heap :=
  st_heap (store_item (VRef 13) "feedstocks" (VFeedstocks sample_feedstocks)
             (mkState copied_heap [])).2.

Definition financed_heap : heap :=
  st_heap (store_item (VRef 14) "feedstocks" (VFeedstocks sample_feedstocks)
             (mkState costed_heap [])).2.

(** The keyword arguments [**d] of the dict at [l]. *)
Definition kwargs_at (h : heap) (l : loc) : dict := default ∅ (h !! l).

Definition financed_state : state :=
  mkState financed_heap [CapacityStage; CostStage; FinanceStage].

(** What the run returns. *)
Definition sample_sized : IronWinCapacityModelOutputs :=
  mkCapacityOutputs (#65960 / #1000 / #0.06596 * #0.9) #65960.

Definition sample_full_cost_config : IronWinCostModelConfig :=
  mkCostConfig 2035 (iron_win_plant_capacity_mtpy sample_sized) #4.5 #0
    sample_feedstocks true #0.03929 #0.17466 #0.42113 (VRef 16).

Definition sample_finance_config (outputs : IronWinCostModelOutputs)
  : IronWinFinanceModelConfig :=
  mkFinanceConfig 30 (iron_win_plant_capacity_mtpy sample_sized) #0.9
    (run_iron_win_model (iron_win_plant_capacity_mtpy sample_sized) #0.9)
    #4.5 18 sample_feedstocks outputs true None 3 #0.00 false false
    "./output/" 0.

Definition sample_full_outputs :
    IronWinCapacityModelOutputs * IronWinCostModelOutputs
    * IronWinFinanceModelOutputs :=
  (sample_sized, placeholder_costs sample_full_cost_config #3.76,
   mkFinanceOutputs ∅ ∅ []).

(** A configuration whose cost and finance sections both leave the LCOH
    out. *)
Definition no_lcoh_heap : heap :=
  list_to_map [
    (1%positive, list_to_map [("iron", VRef 2)]);
    (2%positive, list_to_map [("costs", VRef 3); ("finances", VRef 4)]);
    (3%positive, list_to_map [("operational_year", VInt 2035)]);
    (4%positive, list_to_map [("plant_life", VInt 30)])
  ].

Definition no_lcoh_state : state := mkState no_lcoh_heap [].

(** The sample configuration with a finance-stage LCOH of 5 against the
    cost-stage LCOH of 4.5. *)
Definition mismatched_state : state :=
  mkState (<[4%positive := list_to_map [("lcoh", VNum #5); ("plant_life", VInt 30);
                                        ("grid_prices", VRef 8)]]> sample_heap) [].

(** The sample cost configuration at other prices: LCOH, year and feedstock
    unit costs differ, capacity, flag and miscellaneous capex do not. *)
Definition sample_dear_config : IronWinCostModelConfig :=
  mkCostConfig 2035 #100000 #9 #0
    (mkFeedstocks 9 #395 #200 #300 #60 #250 #0.03 #1 #1.7 #0.9 #0.02 #0.06
       #0.07 #0.8 #0.6 #40 #0.2 #10)
    true #0.03929 #0.17466 #0.42113 (VRef 6).

(** ** The calls of the finance function

    [run_iron_win_finance_model] drives a [ProFAST] object, then the file
    system and the plotting methods.  Above it is one external call; here is
    the sequence of calls it makes, in order, with their arguments.  What
    [ProFAST] does with them is outside the repository. *)

(** Arguments: numbers, strings and booleans, dict literals of those, the
    price tables of the configuration (passed by reference), and values
    passed through from the caller's financial assumptions. *)
Inductive pf_scalar :=
  | PNum (x : F)
  | PInt (z : Z)
  | PBool (b : bool)
  | PStr (s : string).

Inductive pf_value :=
  | PScalar (s : pf_scalar)
  | PDict (items : list (string * pf_scalar))
  | PTable (l : loc)
  | PPassed (v : val).

Inductive pf_call :=
  | set_params (name : string) (value : pf_value)
  | add_capital_item (name : string) (cost : F) (depr_type : string)
      (depr_period : Z) (refurb : list Z)
  | add_fixed_cost (name : string) (usage : F) (unit : string)
      (cost escalation : F)
  | add_feedstock (name : string) (usage : F) (unit : string)
      (cost : pf_value) (escalation : F)
  | add_coproduct (name : string) (usage : F) (unit : string)
      (cost escalation : F)
  | solve_price
  | get_summary_vals
  | get_cost_breakdown
  | makedirs (path : string)
  | plot_capital_expenses (fileout : string) (show_plot : bool)
  | plot_cashflow (fileout : string) (show_plot : bool)
  | to_csv (path : string)
  | plot_costs (fileout : string) (show_plot : bool).

(** What the function raises itself before the solver runs: [IndexError]
    from [list(...)[0]] on an empty price table, [ValueError] from [int] on
    a key that is not a number; [Dangling] marks a reference to no dict,
    which Python cannot hold. *)
Inductive finance_exn := IndexError | InvalidLiteral | Dangling.

(** What the function reads that the store does not hold.  Python dicts
    keep their keys in insertion order, which the store does not record:
    [dict_keys d] is [list(d.keys())].  [py_int s] is [int(s)], or [None]
    when that raises.  [path_exists] is [os.path.exists] when the function
    runs. *)
Record runtime := mkRuntime {
  dict_keys : dict → list string;
  py_int : string → option Z;
  path_exists : string → bool
}.

(** [for param, val in config.financial_assumptions.items():
      pf.set_params(param, val)] *)
Definition assumption_calls (rt : runtime) (d : dict) : list pf_call :=
  (λ param, set_params param (PPassed (default VNone (d !! param))))
    <$> dict_keys rt d.

(** [int(list(config.grid_prices.keys())[0]) - config.install_years] *)
Definition analysis_start (rt : runtime) (config : IronWinFinanceModelConfig)
    (grid : dict) : finance_exn + Z :=
  match dict_keys rt grid with
  | [] => inl IndexError
  | first :: _ =>
      match py_int rt first with
      | Some year => inr (year - install_years config)%Z
      | None => inl InvalidLiteral
      end
  end.

Definition parameter_calls (config : IronWinFinanceModelConfig) (start : Z)
  : list pf_call :=
  let costs := costs config in
  [ set_params "commodity"
      (PDict [("name", PStr "iron electrowinning"); ("unit", PStr "metric tonnes");
              ("initial price", PInt 1000);
              ("escalation", PNum (gen_inflation config))]);
    set_params "capacity" (PScalar (PNum (fin_plant_capacity_mtpy config / #365)));
    set_params "maintenance"
      (PDict [("value", PInt 0); ("escalation", PNum (gen_inflation config))]);
    set_params "analysis start year" (PScalar (PInt start));
    set_params "operating life" (PScalar (PInt (plant_life config)));
    set_params "installation months"
      (PScalar (PInt (12 * install_years config)));
    set_params "installation cost"
      (PDict [("value", PNum (installation_cost costs));
              ("depr type", PStr "Straight line"); ("depr period", PInt 4);
              ("depreciable", PBool false)]);
    set_params "non depr assets" (PScalar (PNum (land_cost costs)));
    set_params "end of proj sale non depr assets"
      (PScalar (PNum (land_cost costs
                      * (#1 + gen_inflation config)
                        ** f_lit (inject_Z (plant_life config)))));
    set_params "demand rampup" (PScalar (PNum #5.3));
    set_params "long term utilization"
      (PScalar (PNum (plant_capacity_factor config)));
    set_params "credit card fees" (PScalar (PInt 0));
    set_params "sales tax" (PScalar (PInt 0));
    set_params "license and permit"
      (PDict [("value", PInt 0); ("escalation", PNum (gen_inflation config))]);
    set_params "rent"
      (PDict [("value", PInt 0); ("escalation", PNum (gen_inflation config))]);
    set_params "property tax and insurance" (PScalar (PInt 0));
    set_params "admin expense" (PScalar (PInt 0));
    set_params "sell undepreciated cap" (PScalar (PBool true));
    set_params "tax losses monetized" (PScalar (PBool true));
    set_params "general inflation rate" (PScalar (PNum (gen_inflation config)));
    set_params "debt type" (PScalar (PStr "Revolving debt"));
    set_params "cash onhand" (PScalar (PInt 1)) ].

Definition capital_item_calls (costs : IronWinCostModelOutputs) : list pf_call :=
  [ add_capital_item "EAF & Casting" (capex_eaf_casting costs) "MACRS" 7 [0%Z];
    add_capital_item "Shaft Furnace" (capex_shaft_furnace costs) "MACRS" 7 [0%Z];
    add_capital_item "Oxygen Supply" (capex_oxygen_supply costs) "MACRS" 7 [0%Z];
    add_capital_item "H2 Pre-heating" (capex_h2_preheating costs) "MACRS" 7 [0%Z];
    add_capital_item "Cooling Tower" (capex_cooling_tower costs) "MACRS" 7 [0%Z];
    add_capital_item "Piping" (capex_piping costs) "MACRS" 7 [0%Z];
    add_capital_item "Electrical & Instrumentation" (capex_elec_instr costs)
      "MACRS" 7 [0%Z];
    add_capital_item "Buildings, Storage, Water Service"
      (capex_buildings_storage_water costs) "MACRS" 7 [0%Z];
    add_capital_item "Other Miscellaneous Costs" (capex_misc costs)
      "MACRS" 7 [0%Z] ].

Definition fixed_cost_calls (config : IronWinFinanceModelConfig) : list pf_call :=
  let costs := costs config in
  [ add_fixed_cost "Annual Operating Labor Cost" #1 "$/year"
      (labor_cost_annual_operation costs) (gen_inflation config);
    add_fixed_cost "Maintenance Labor Cost" #1 "$/year"
      (labor_cost_maintenance costs) (gen_inflation config);
    add_fixed_cost "Administrative & Support Labor Cost" #1 "$/year"
      (labor_cost_admin_support costs) (gen_inflation config);
    add_fixed_cost "Property tax and insurance" #1 "$/year"
      (property_tax_insurance costs) #0 ].

Definition feedstock_calls (config : IronWinFinanceModelConfig) : list pf_call :=
  let feedstocks := fin_feedstocks config in
  let escalation := gen_inflation config in
  [ add_feedstock "Maintenance Materials" #1 "Units per metric tonne of iron"
      (PScalar (PNum (maintenance_materials_unitcost feedstocks))) escalation;
    add_feedstock "Raw Water Withdrawal" (raw_water_consumption feedstocks)
      "metric tonnes of water per metric tonne of iron"
      (PScalar (PNum (raw_water_unitcost feedstocks))) escalation;
    add_feedstock "Lime" (lime_consumption feedstocks)
      "metric tonnes of lime per metric tonne of iron"
      (PScalar (PNum (lime_unitcost feedstocks))) escalation;
    add_feedstock "Carbon" (carbon_consumption feedstocks)
      "metric tonnes of carbon per metric tonne of iron"
      (PScalar (PNum (carbon_unitcost feedstocks))) escalation;
    add_feedstock "Iron Ore" (iron_ore_consumption feedstocks)
      "metric tonnes of iron ore per metric tonne of iron"
      (PScalar (PNum (iron_ore_pellet_unitcost feedstocks))) escalation;
    add_feedstock "Hydrogen" (hydrogen_consumption feedstocks)
      "metric tonnes of hydrogen per metric tonne of iron"
      (PScalar (PNum (fin_lcoh config * #1000))) escalation;
    add_feedstock "Natural Gas" (natural_gas_consumption feedstocks)
      "GJ-LHV per metric tonne of iron"
      (PTable (natural_gas_prices feedstocks)) escalation;
    add_feedstock "Electricity" (electricity_consumption feedstocks)
      "MWh per metric tonne of iron" (PTable (grid_prices config)) escalation;
    add_feedstock "Slag Disposal" (slag_production feedstocks)
      "metric tonnes of slag per metric tonne of iron"
      (PScalar (PNum (slag_disposal_unitcost feedstocks))) escalation;
    add_coproduct "Oxygen sales" (excess_oxygen feedstocks)
      "kg O2 per metric tonne of iron" (oxygen_market_price feedstocks)
      escalation ].

(** The block under [if config.save_plots or config.show_plots:]. *)
Definition savepaths (config : IronWinFinanceModelConfig) : list string :=
  [ output_dir config +:+ "figures/capex/";
    output_dir config +:+ "figures/annual_cash_flow/";
    output_dir config +:+ "figures/lcos_breakdown/";
    output_dir config +:+ "data/" ].

Definition plot_calls (rt : runtime) (config : IronWinFinanceModelConfig)
  : list pf_call :=
  if save_plots config || show_plots config then
    let id := pretty (design_scenario_id config) in
    ((makedirs <$> filter (λ savepath, path_exists rt savepath = false)
                          (savepaths config))
    ++ [ plot_capital_expenses
           (output_dir config +:+ "figures/capex/"
            +:+ "iron_win_capital_expense_" +:+ id +:+ ".pdf")
           (show_plots config);
         plot_cashflow
           (output_dir config +:+ "figures/annual_cash_flow/"
            +:+ "iron_win_cash_flow_" +:+ id +:+ ".png")
           (show_plots config);
         to_csv (output_dir config +:+ "data/"
                 +:+ "iron_win_cash_flow_" +:+ id +:+ ".csv");
         plot_costs
           (output_dir config +:+ "figures/lcos_breakdown/" +:+ "lcos_" +:+ id)
           (show_plots config) ])%list
  else [].

Definition finance_model_calls (rt : runtime)
    (config : IronWinFinanceModelConfig) (h : heap)
  : finance_exn + list pf_call :=
  match match financial_assumptions config with
        | None => Some ∅               (* the empty dict of the factory *)
        | Some l => h !! l
        end, h !! grid_prices config with
  | Some assumptions, Some grid =>
      match analysis_start rt config grid with
      | inr start =>
          inr (assumption_calls rt assumptions
               ++ parameter_calls config start
               ++ capital_item_calls (costs config)
               ++ fixed_cost_calls config
               ++ feedstock_calls config
               ++ [solve_price; get_summary_vals; get_cost_breakdown]
               ++ plot_calls rt config)%list
      | inl e => inl e
      end
  | _, _ => inl Dangling
  end.

(** *** Reading a call sequence *)

(** The value a parameter has after a sequence of calls, [set_params]
    keeping the value of the last call with its name. *)
Fixpoint last_param (calls : list pf_call) (name : string) : option pf_value :=
  match calls with
  | [] => None
  | call :: calls =>
      match last_param calls name with
      | Some value => Some value
      | None =>
          match call with
          | set_params n value => if decide (n = name) then Some value else None
          | _ => None
          end
      end
  end.

(** The parameters the finance function sets itself. *)
Definition own_parameters : list string :=
  ["commodity"; "capacity"; "maintenance"; "analysis start year";
   "operating life"; "installation months"; "installation cost";
   "non depr assets"; "end of proj sale non depr assets"; "demand rampup";
   "long term utilization"; "credit card fees"; "sales tax";
   "license and permit"; "rent"; "property tax and insurance";
   "admin expense"; "sell undepreciated cap"; "tax losses monetized";
   "general inflation rate"; "debt type"; "cash onhand"].

Definition capital_costs (calls : list pf_call) : list F :=
  omap (λ call, match call with
                | add_capital_item _ cost _ _ _ => Some cost
                | _ => None
                end) calls.

Definition fixed_costs (calls : list pf_call) : list F :=
  omap (λ call, match call with
                | add_fixed_cost _ _ _ cost _ => Some cost
                | _ => None
                end) calls.

(** Calls that create directories or write files. *)
Definition writes_files (call : pf_call) : bool :=
  match call with
  | makedirs _ | plot_capital_expenses _ _ | plot_cashflow _ _ | to_csv _
  | plot_costs _ _ => true
  | _ => false
  end.

(** A finance configuration with other values for the attributes the
    finance function does not read: the production, the integration flag,
    the electricity unit cost of the feedstocks, and the totals and
    one-month costs of the cost outputs. *)
Definition with_unread_attributes (production : F) (flag : bool)
    (electricity : F) (totals : IronWinCostModelOutputs)
    (config : IronWinFinanceModelConfig) : IronWinFinanceModelConfig :=
  let fs := fin_feedstocks config in
  let c := costs config in
  mkFinanceConfig (plant_life config) (fin_plant_capacity_mtpy config)
    (plant_capacity_factor config) production (fin_lcoh config)
    (grid_prices config)
    (mkFeedstocks (natural_gas_prices fs) (excess_oxygen fs) (lime_unitcost fs)
       (carbon_unitcost fs) electricity (iron_ore_pellet_unitcost fs)
       (oxygen_market_price fs) (raw_water_unitcost fs)
       (iron_ore_consumption fs) (raw_water_consumption fs)
       (lime_consumption fs) (carbon_consumption fs) (hydrogen_consumption fs)
       (natural_gas_consumption fs) (electricity_consumption fs)
       (slag_disposal_unitcost fs) (slag_production fs)
       (maintenance_materials_unitcost fs))
    {| capex_eaf_casting := capex_eaf_casting c;
       capex_shaft_furnace := capex_shaft_furnace c;
       capex_oxygen_supply := capex_oxygen_supply c;
       capex_h2_preheating := capex_h2_preheating c;
       capex_cooling_tower := capex_cooling_tower c;
       capex_piping := capex_piping c;
       capex_elec_instr := capex_elec_instr c;
       capex_buildings_storage_water := capex_buildings_storage_water c;
       capex_misc := capex_misc c;
       labor_cost_annual_operation := labor_cost_annual_operation c;
       labor_cost_maintenance := labor_cost_maintenance c;
       labor_cost_admin_support := labor_cost_admin_support c;
       property_tax_insurance := property_tax_insurance c;
       land_cost := land_cost c;
       installation_cost := installation_cost c;
       total_plant_cost := total_plant_cost totals;
       total_fixed_operating_cost := total_fixed_operating_cost totals;
       labor_cost_fivemonth := labor_cost_fivemonth totals;
       maintenance_materials_onemonth := maintenance_materials_onemonth totals;
       non_fuel_consumables_onemonth := non_fuel_consumables_onemonth totals;
       waste_disposal_onemonth := waste_disposal_onemonth totals;
       monthly_energy_cost := monthly_energy_cost totals;
       spare_parts_cost := spare_parts_cost totals;
       misc_owners_costs := misc_owners_costs totals |}
    flag
    (financial_assumptions config) (install_years config)
    (gen_inflation config) (save_plots config) (show_plots config)
    (output_dir config) (design_scenario_id config).

(** A store and a configuration for the finance function: the price table of
    the grid at 1, the caller's financial assumptions at 2, the price table
    of natural gas at 3.  Plots are shown, not saved. *)
Definition ledger_heap : heap :=
  list_to_map [
    (1%positive, list_to_map [("2035", VNum #48.92)]);
    (2%positive, list_to_map [("general inflation rate", VNum #0.05);
                              ("total income tax rate", VNum #0.2574)]);
    (3%positive, list_to_map [("2035", VNum #3.76)])
  ].

Definition ledger_config (outputs : IronWinCostModelOutputs)
  : IronWinFinanceModelConfig :=
  mkFinanceConfig 30 #100000 #0.9 #90000 #4.5 1 (default_feedstocks 3) outputs
    true (Some 2%positive) 3 #0.02 false true "./output/" 7.

(** A runtime for it: keys in the order of the map, [int] of the one key
    that is read, and no directory in place. *)
Definition ledger_runtime : runtime :=
  mkRuntime (λ d, (map_to_list d).*1)
    (λ s, if decide (s = "2035") then Some 2035%Z else None)
    (λ _, false).

(** The same configuration with no plot asked for. *)
Definition quiet_config (outputs : IronWinCostModelOutputs)
  : IronWinFinanceModelConfig :=
  mkFinanceConfig 30 #100000 #0.9 #90000 #4.5 1 (default_feedstocks 3) outputs
    true (Some 2%positive) 3 #0.02 false false "./output/" 7.

(** The calls of the finance function on it. *)
Definition ledger_calls (outputs : IronWinCostModelOutputs) : list pf_call :=
  (assumption_calls ledger_runtime (kwargs_at ledger_heap 2)
   ++ parameter_calls (ledger_config outputs) 2032
   ++ capital_item_calls outputs
   ++ fixed_cost_calls (ledger_config outputs)
   ++ feedstock_calls (ledger_config outputs)
   ++ [solve_price; get_summary_vals; get_cost_breakdown]
   ++ plot_calls ledger_runtime (ledger_config outputs))%list.


(** * Properties *)

Lemma subscript_name_placeholder (descr : val) (σ : state) :
  placeholder_named descr σ →
  subscript descr "name" σ = (Ok (VStr "placeholder"), σ).
Proof.
  intros (l & d & -> & Hl & Hn). unfold subscript. by rewrite Hl, Hn.
Qed.

Lemma py_eq_placeholder : py_eq (VStr "placeholder") (VStr "placeholder") = true.
Proof. reflexivity. Qed.

(** *** Capacity sizing *)

Lemma run_size_placeholder (config : IronWinCapacityModelConfig) (σ : state) :
  placeholder_named (performance_model config) σ →
  run_size_iron_win_plant_capacity config σ = (placeholder_capacity config, σ).
Proof.
  intros Hp. unfold run_size_iron_win_plant_capacity.
  unfold mbind at 1, M_bind at 1.
  by rewrite (subscript_name_placeholder _ _ Hp), py_eq_placeholder.
Qed.

Lemma placeholder_capacity_supply (config : IronWinCapacityModelConfig) (supply : F) :
  hydrogen_amount_kgpy config = Some supply →
  f_truthy supply = true →
  opt_truthy (desired_iron_win_mtpy config) = false →
  f_truthy (hydrogen_consumption (feedstocks config)) = true →
  placeholder_capacity config =
    Ok (mkCapacityOutputs
          (supply / #1000 / hydrogen_consumption (feedstocks config)
           * input_capacity_factor_estimate config)
          supply).
Proof.
  intros Hs Ht Hd Hh. unfold placeholder_capacity, py_div.
  rewrite Hs, Ht, Hh. simpl.
  destruct (desired_iron_win_mtpy config) as [d|]; simpl in *; [|done].
  by rewrite Hd.
Qed.

Lemma placeholder_capacity_demand (config : IronWinCapacityModelConfig) (demand : F) :
  desired_iron_win_mtpy config = Some demand →
  f_truthy demand = true →
  opt_truthy (hydrogen_amount_kgpy config) = false →
  f_truthy (input_capacity_factor_estimate config) = true →
  placeholder_capacity config =
    Ok (mkCapacityOutputs
          (demand / input_capacity_factor_estimate config)
          (demand * #1000 * hydrogen_consumption (feedstocks config)
           / input_capacity_factor_estimate config)).
Proof.
  intros Hd Ht Hs Hc. unfold placeholder_capacity, py_div.
  rewrite Hd, Ht, Hc.
  destruct (hydrogen_amount_kgpy config) as [s|]; simpl in *; [|done].
  by rewrite Hs.
Qed.


(** What the validation of the constructor lets through. *)
Lemma attrs_post_init_ok (self : IronWinCapacityModelConfig) :
  attrs_post_init self = Ok tt ↔
  (is_none (hydrogen_amount_kgpy self) && is_none (desired_iron_win_mtpy self) = false
   ∧ opt_truthy (hydrogen_amount_kgpy self)
     && opt_truthy (desired_iron_win_mtpy self) = false).
Proof.
  unfold attrs_post_init.
  destruct (is_none _ && is_none _); [naive_solver|].
  destruct (opt_truthy _ && opt_truthy _); naive_solver.
Qed.

Lemma new_config_neither cf fs pm :
  new_IronWinCapacityModelConfig cf fs None None pm
  = Raise (ValueError QuantityRequired).
Proof. reflexivity. Qed.

Lemma new_config_both_truthy cf fs pm (x y : F) :
  f_truthy x = true → f_truthy y = true →
  new_IronWinCapacityModelConfig cf fs (Some x) (Some y) pm
  = Raise (ValueError OnlyOneQuantity).
Proof.
  intros Hx Hy. unfold new_IronWinCapacityModelConfig, attrs_post_init. simpl.
  by rewrite Hx, Hy.
Qed.

Lemma new_config_exactly_one cf fs pm (x : F) :
  new_IronWinCapacityModelConfig cf fs (Some x) None pm
    = Ok (mkCapacityConfig cf fs (Some x) None pm)
  ∧ new_IronWinCapacityModelConfig cf fs None (Some x) pm
    = Ok (mkCapacityConfig cf fs None (Some x) pm).
Proof.
  unfold new_IronWinCapacityModelConfig, attrs_post_init. simpl.
  rewrite andb_false_r. done.
Qed.

Lemma new_config_falsy_and_set cf fs pm (z x : F) :
  f_truthy z = false →
  new_IronWinCapacityModelConfig cf fs (Some z) (Some x) pm
    = Ok (mkCapacityConfig cf fs (Some z) (Some x) pm)
  ∧ new_IronWinCapacityModelConfig cf fs (Some x) (Some z) pm
    = Ok (mkCapacityConfig cf fs (Some x) (Some z) pm).
Proof.
  intros Hz. unfold new_IronWinCapacityModelConfig, attrs_post_init. simpl.
  rewrite Hz, andb_false_r. done.
Qed.

(** C3.  With both quantities set, one of them to zero, the constructor of
    [IronWinCapacityModelConfig], and that of [IronOreCapacityModelConfig],
    returns an object where the specification has it raise: the second
    check tests truthiness, and zero is falsy. *)
Theorem both_set_one_zero_is_accepted cf fs pm (zero x : F) :
  f_truthy zero = false →
  new_IronWinCapacityModelConfig cf fs (Some zero) (Some x) pm
    = Ok (mkCapacityConfig cf fs (Some zero) (Some x) pm)
  ∧ new_IronOreCapacityModelConfig cf fs (Some zero) (Some x) pm
    = Ok (mkCapacityConfig cf fs (Some zero) (Some x) pm).
Proof.
  intros Hz. unfold new_IronOreCapacityModelConfig.
  by destruct (new_config_falsy_and_set cf fs pm zero x Hz) as [-> _].
Qed.

(** C10.  The validation tests truthiness.  A config whose supply quantity
    is zero and whose demand quantity is [None] is constructed without
    error; in the placeholder branch neither [if] statement runs for it, the
    locals stay unbound and the call fails instead of returning outputs; and
    a config with one quantity zero and the other set passes the check for
    both being set. *)
Theorem zero_quantity_passes_validation cf fs pm (zero : F) (σ : state) :
  f_truthy zero = false →
  placeholder_named pm σ →
  new_IronWinCapacityModelConfig cf fs (Some zero) None pm
    = Ok (mkCapacityConfig cf fs (Some zero) None pm)
  ∧ run_size_iron_win_plant_capacity (mkCapacityConfig cf fs (Some zero) None pm) σ
    = (Raise UnboundLocalError, σ)
  ∧ (∀ x, new_IronWinCapacityModelConfig cf fs (Some zero) (Some x) pm
            = Ok (mkCapacityConfig cf fs (Some zero) (Some x) pm)
          ∧ new_IronWinCapacityModelConfig cf fs (Some x) (Some zero) pm
            = Ok (mkCapacityConfig cf fs (Some x) (Some zero) pm)).
Proof.
  intros Hz Hp. split; [apply new_config_exactly_one|]. split.
  - rewrite run_size_placeholder by done.
    unfold placeholder_capacity. simpl. by rewrite Hz.
  - intros x. by apply new_config_falsy_and_set.
Qed.

(** *** Cost estimation *)

Lemma run_cost_placeholder_inv (config : IronWinCostModelConfig)
    (σ σ' : state) (out : IronWinCostModelOutputs) :
  placeholder_named (cost_model config) σ →
  run_iron_win_cost_model config σ = (Ok out, σ') →
  ∃ gas_price, out = placeholder_costs config gas_price ∧ σ' = σ.
Proof.
  intros Hp. unfold run_iron_win_cost_model.
  unfold mbind at 1, M_bind at 1.
  rewrite (subscript_name_placeholder _ _ Hp), py_eq_placeholder.
  unfold mbind, M_bind, subscript, lift, mret, M_ret.
  repeat case_match; intros; simplify_eq; eauto.
Qed.

(** C1.  In the placeholder branch [total_plant_cost] is the sum of the nine
    returned capital line items and [total_fixed_operating_cost] the sum of
    the four returned fixed-cost items, added in the order the source adds
    them; this holds for the iron-ore cost model as well. *)
Theorem cost_additivity (config : IronWinCostModelConfig) (σ σ' : state)
    (out : IronWinCostModelOutputs) :
  placeholder_named (cost_model config) σ →
  (run_iron_win_cost_model config σ = (Ok out, σ')
   ∨ run_iron_ore_cost_model config σ = (Ok out, σ')) →
  total_plant_cost out = capital_items_sum out
  ∧ total_fixed_operating_cost out = fixed_items_sum out.
Proof.
  intros Hp Hrun.
  assert (run_iron_win_cost_model config σ = (Ok out, σ')) as Hr by (by destruct Hrun).
  destruct (run_cost_placeholder_inv _ _ _ _ Hp Hr) as (gas & -> & _).
  split; reflexivity.
Qed.

Lemma installation_cost_inputs (c1 c2 : IronWinCostModelConfig) (g1 g2 : F) :
  same_installation_inputs c1 c2 →
  installation_cost (placeholder_costs c1 g1)
  = installation_cost (placeholder_costs c2 g2).
Proof.
  intros (Hc & Ho & Hm & Hw1 & Hw2 & Hl1 & Hl2 & Hc1 & Hc2 & Hi1 & Hi2).
  unfold placeholder_costs, fuel_consumables_60day_supply_cost,
    consumables_unit_cost; simpl.
  by rewrite Hc, Ho, Hm, Hw1, Hw2, Hl1, Hl2, Hc1, Hc2, Hi1, Hi2.
Qed.

(** C7.  In the placeholder branch [installation_cost] is the sum of the
    five-month labor cost (5/12 of operating, maintenance and administrative
    labor), 2% of [total_plant_cost], the 60-day supply of non-fuel
    consumables, [spare_parts_cost] (0.5% of [total_plant_cost]) and
    [misc_owners_costs] (15% of [total_plant_cost]).  The one-month costs are
    no part of it: a run that differs in whatever enters only those (unit
    cost of maintenance materials, slag, hydrogen, natural gas, electricity,
    LCOH, year) returns the same [installation_cost]. *)
Theorem installation_cost_composition (config : IronWinCostModelConfig)
    (σ σ' : state) (out : IronWinCostModelOutputs) :
  placeholder_named (cost_model config) σ →
  run_iron_win_cost_model config σ = (Ok out, σ') →
  installation_cost out
    = labor_cost_fivemonth out + #0.02 * total_plant_cost out
      + fuel_consumables_60day_supply_cost config
      + spare_parts_cost out + misc_owners_costs out
  ∧ labor_cost_fivemonth out
    = #5 / #12 * (labor_cost_annual_operation out + labor_cost_maintenance out
                  + labor_cost_admin_support out)
  ∧ fuel_consumables_60day_supply_cost config
    = plant_capacity_mtpy config
      * (raw_water_consumption (cost_feedstocks config)
           * raw_water_unitcost (cost_feedstocks config)
         + lime_consumption (cost_feedstocks config)
           * lime_unitcost (cost_feedstocks config)
         + carbon_consumption (cost_feedstocks config)
           * carbon_unitcost (cost_feedstocks config)
         + iron_ore_consumption (cost_feedstocks config)
           * iron_ore_pellet_unitcost (cost_feedstocks config))
      / #365 * #60
  ∧ spare_parts_cost out = #0.005 * total_plant_cost out
  ∧ misc_owners_costs out = #0.15 * total_plant_cost out
  ∧ ∀ config2 σ2 σ2' out2,
      placeholder_named (cost_model config2) σ2 →
      same_installation_inputs config config2 →
      run_iron_win_cost_model config2 σ2 = (Ok out2, σ2') →
      installation_cost out2 = installation_cost out.
Proof.
  intros Hp Hr.
  destruct (run_cost_placeholder_inv _ _ _ _ Hp Hr) as (gas & -> & _).
  repeat split.
  intros config2 σ2 σ2' out2 Hp2 Hsame Hr2.
  destruct (run_cost_placeholder_inv _ _ _ _ Hp2 Hr2) as (gas2 & -> & _).
  symmetry. by apply installation_cost_inputs.
Qed.

(** *** Effects of the capacity stage on its configuration *)

Section Steps.
Variable R : state → state → Prop.
Hypothesis R_refl : ∀ σ, R σ σ.
Hypothesis R_trans : ∀ σ1 σ2 σ3, R σ1 σ2 → R σ2 σ3 → R σ1 σ3.

Lemma steps_bind {A B} (m : M A) (k : A → M B) :
  steps R m → (∀ a, steps R (k a)) → steps R (m ≫= k).
Proof using R_trans.
  intros Hm Hk σ. unfold mbind, M_bind. specialize (Hm σ).
  destruct (m σ) as [[a|e] σ1]; simpl in *; [|done].
  eapply R_trans; [done|apply Hk].
Qed.

Lemma steps_ret {A} (a : A) : steps R (mret a).
Proof using R_refl. intros σ. apply R_refl. Qed.

Lemma steps_raise {A} (e : exn) : steps R (raise (A:=A) e).
Proof using R_refl. intros σ. apply R_refl. Qed.

Lemma steps_lift {A} (r : result A) : steps R (lift r).
Proof using R_refl. intros σ. apply R_refl. Qed.

Lemma steps_external {A} (call : heap → option A) : steps R (external call).
Proof using R_refl. intros σ. unfold external. case_match; apply R_refl. Qed.

Lemma steps_subscript (v : val) (k : string) : steps R (subscript v k).
Proof using R_refl. intros σ. unfold subscript. repeat case_match; apply R_refl. Qed.

End Steps.

Lemma patched_refl (descr : val) (σ : state) : patched descr σ σ.
Proof. repeat split. intros l d Hl. exists d. split; [done|]. by left. Qed.

Lemma patched_trans (descr : val) (σ1 σ2 σ3 : state) :
  patched descr σ1 σ2 → patched descr σ2 σ3 → patched descr σ1 σ3.
Proof.
  intros (Ht1 & Hd1 & H1) (Ht2 & Hd2 & H2).
  split; [congruence|]. split; [congruence|].
  intros l d Hl.
  destruct (H1 l d Hl) as (d2 & Hl2 & Hk2).
  destruct (H2 l d2 Hl2) as (d3 & Hl3 & Hk3).
  exists d3. split; [done|]. intros k.
  destruct (Hk3 k) as [E3|(Hv & Hin & v & Hsome & Hb)];
    destruct (Hk2 k) as [E2|Hch]; auto.
  - left. congruence.
  - right. repeat split; auto. exists v. rewrite <- E2. done.
Qed.

Lemma resolve_path_patched (descr : val) (kind : string) (name : val)
    (entry_fp entry : string) :
  entry_fp ∈ path_entries →
  steps (patched descr) (resolve_path descr kind name entry_fp entry).
Proof.
  clear performance_model_main cost_model_main.
  intros Hin σ. unfold resolve_path, mbind, M_bind, subscript, store_item, lift, mret, M_ret.
  destruct descr as [| | | | |l|]; try apply patched_refl.
  destruct (st_heap σ !! l) as [d|] eqn:Hl; [|apply patched_refl].
  destruct (d !! entry_fp) as [fp|] eqn:Hfp; [|apply patched_refl].
  destruct (py_eq fp (VStr EmptyString)) eqn:Hb; [|apply patched_refl].
  destruct (model_locs_lookup kind name entry) as [p|]; [|apply patched_refl].
  rewrite Hl. simpl. split; [done|]. split.
  { simpl. rewrite dom_insert_L. apply elem_of_dom_2 in Hl. set_solver. }
  simpl.
  intros l' d0 Hl'. destruct (decide (l' = l)) as [->|Hne].
  - rewrite lookup_insert_eq. eexists; split; [done|]. simplify_eq.
    intros k. destruct (decide (k = entry_fp)) as [->|Hk].
    + right. repeat split; auto. by exists fp.
    + left. by rewrite lookup_insert_ne.
  - rewrite lookup_insert_ne by done. exists d0. split; [done|]. by left.
Qed.

Lemma run_size_patched (config : IronWinCapacityModelConfig) :
  steps (patched (performance_model config)) (run_size_iron_win_plant_capacity config).
Proof.
  clear cost_model_main.
  pose proof (patched_refl (performance_model config)) as Hrefl.
  pose proof (patched_trans (performance_model config)) as Htrans.
  unfold run_size_iron_win_plant_capacity.
  apply steps_bind; auto using steps_subscript. intros name.
  destruct (py_eq name _); [by apply steps_lift|].
  apply steps_bind; auto using steps_subscript. intros perf.
  do 3 (apply steps_bind;
        [done|by apply resolve_path_patched; set_solver|intros _]).
  apply steps_bind; auto using steps_subscript. intros fp.
  apply steps_bind; auto using steps_external. intros outs.
  repeat case_match; auto using steps_ret, steps_raise.
Qed.

Lemma bind_ok {A B} (m : M A) (k : A → M B) (σ σ' : state) (a : A) :
  m σ = (Ok a, σ') → (m ≫= k) σ = k a σ'.
Proof. intros Hm. unfold mbind, M_bind. by rewrite Hm. Qed.

Lemma resolve_entry_lookup (paths : gmap string string) (entry_fp key k : string)
    (d : dict) :
  resolve_entry paths entry_fp key d !! k
  = if decide (k = entry_fp) then
      match d !! entry_fp, paths !! key with
      | Some v, Some p => if py_eq v (VStr EmptyString) then Some (VStr p) else Some v
      | o, _ => o
      end
    else d !! k.
Proof.
  unfold resolve_entry.
  destruct (d !! entry_fp) as [v|] eqn:Hv, (paths !! key) as [p|];
    try destruct (py_eq v _);
    destruct (decide (k = entry_fp)) as [->|]; try done.
  - by rewrite lookup_insert_eq.
  - by rewrite lookup_insert_ne.
Qed.

Lemma resolve_path_exact (l : loc) (d : dict) (h : heap) (t : list stage)
    (kind n : string) (by_name : gmap string (gmap string string))
    (paths : gmap string string) (entry_fp key : string) :
  h !! l = Some d → is_Some (d !! entry_fp) →
  model_locs !! kind = Some by_name → by_name !! n = Some paths →
  is_Some (paths !! key) →
  resolve_path (VRef l) kind (VStr n) entry_fp key (mkState h t)
  = (Ok tt, mkState (<[l := resolve_entry paths entry_fp key d]> h) t).
Proof.
  clear performance_model_main cost_model_main.
  intros Hl [v Hv] Hk Hn [p Hp].
  unfold resolve_path, resolve_entry, mbind, M_bind, subscript.
  cbn [st_heap]. rewrite Hl, Hv, Hp.
  destruct (py_eq v (VStr EmptyString)).
  - unfold lift, model_locs_lookup, store_item. rewrite Hk, Hn, Hp.
    cbn [st_heap st_trace]. by rewrite Hl.
  - unfold mret, M_ret. by rewrite insert_id.
Qed.

Lemma run_size_resolves (config : IronWinCapacityModelConfig) (l : loc) (d : dict)
    (h : heap) (t : list stage) (n : string)
    (by_name : gmap string (gmap string string)) (paths : gmap string string) :
  performance_model config = VRef l → h !! l = Some d →
  d !! "name" = Some (VStr n) → n ≠ "placeholder" →
  model_locs !! "performance" = Some by_name → by_name !! n = Some paths →
  (∀ k, k ∈ path_entries → is_Some (d !! k)) →
  (∀ k, k ∈ path_keys.*2 → is_Some (paths !! k)) →
  (run_size_iron_win_plant_capacity config (mkState h t)).2
  = mkState (<[l := resolved paths d]> h) t.
Proof.
  clear cost_model_main.
  intros Hpm Hl Hname Hn Hk Hby Hd Hpaths.
  unfold run_size_iron_win_plant_capacity. rewrite Hpm.
  assert (subscript (VRef l) "name" (mkState h t) = (Ok (VStr n), mkState h t))
    as Hsub.
  { unfold subscript. cbn [st_heap]. by rewrite Hl, Hname. }
  rewrite (bind_ok _ _ _ _ _ Hsub).
  assert (py_eq (VStr n) (VStr "placeholder") = false) as ->.
  { unfold py_eq. cbn. by apply bool_decide_eq_false_2. }
  rewrite (bind_ok _ _ _ _ _ Hsub).
  set (d1 := resolve_entry paths "model_fp" "model" d).
  set (d2 := resolve_entry paths "inputs_fp" "inputs" d1).
  rewrite (bind_ok _ _ _ _ _
             (resolve_path_exact l d h t "performance" n by_name paths
                "model_fp" "model" Hl
                (Hd "model_fp" ltac:(unfold path_entries; set_solver)) Hk Hby
                (Hpaths "model" ltac:(cbn; set_solver)))).
  fold d1.
  assert (is_Some (d1 !! "inputs_fp")) as H1.
  { unfold d1. rewrite resolve_entry_lookup. rewrite decide_False by done.
    apply Hd. unfold path_entries. set_solver. }
  rewrite (bind_ok _ _ _ _ _
             (resolve_path_exact l d1 _ t "performance" n by_name paths
                "inputs_fp" "inputs" (lookup_insert_eq _ _ _) H1 Hk Hby
                (Hpaths "inputs" ltac:(cbn; set_solver)))).
  rewrite insert_insert_eq. fold d2.
  assert (is_Some (d2 !! "coeffs_fp")) as H2.
  { unfold d2, d1. rewrite !resolve_entry_lookup. rewrite !decide_False by done.
    apply Hd. unfold path_entries. set_solver. }
  rewrite (bind_ok _ _ _ _ _
             (resolve_path_exact l d2 _ t "performance" n by_name paths
                "coeffs_fp" "coeffs" (lookup_insert_eq _ _ _) H2 Hk Hby
                (Hpaths "coeffs" ltac:(cbn; set_solver)))).
  rewrite insert_insert_eq. fold (resolved paths d).
  unfold mbind, M_bind, subscript, external, mret, M_ret, raise.
  cbn [st_heap]. rewrite lookup_insert_eq.
  repeat case_match; simplify_eq; done.
Qed.

(** C8, as the code has it.  A call of [run_size_iron_win_plant_capacity]
    leaves the store as it was in the placeholder branch.  In the branch of a
    named performance model it fills the blank path entries of the
    [performance_model] mapping in place: every other entry of that mapping
    and every other dict is as before.  When the registry knows the model and
    the descriptor has its three path entries, the store after the call is
    the store before with the descriptor replaced by [resolved paths d]: each
    blank path entry holds the registry's path for it, each path entry that
    was not blank and every other entry holds what it held. *)
Theorem run_size_effects (config : IronWinCapacityModelConfig) (σ : state) :
  patched (performance_model config) σ (run_size_iron_win_plant_capacity config σ).2
  ∧ (placeholder_named (performance_model config) σ →
     (run_size_iron_win_plant_capacity config σ).2 = σ)
  ∧ (∀ l d n by_name paths,
       performance_model config = VRef l → st_heap σ !! l = Some d →
       d !! "name" = Some (VStr n) → n ≠ "placeholder" →
       model_locs !! "performance" = Some by_name → by_name !! n = Some paths →
       (∀ k, k ∈ path_entries → is_Some (d !! k)) →
       (∀ k, k ∈ path_keys.*2 → is_Some (paths !! k)) →
       (run_size_iron_win_plant_capacity config σ).2
         = mkState (<[l := resolved paths d]> (st_heap σ)) (st_trace σ)
       ∧ (∀ entry_fp key, (entry_fp, key) ∈ path_keys →
            (blank_entry (d !! entry_fp) →
               resolved paths d !! entry_fp = VStr <$> paths !! key)
            ∧ (¬ blank_entry (d !! entry_fp) →
               resolved paths d !! entry_fp = d !! entry_fp))
       ∧ (∀ k, k ∉ path_entries → resolved paths d !! k = d !! k)).
Proof.
  split; [apply run_size_patched|]. split.
  { intros Hp. by rewrite run_size_placeholder. }
  intros l d n by_name paths Hpm Hl Hname Hn Hk Hby Hd Hpaths.
  split; [|split].
  - destruct σ as [h t]. by eapply run_size_resolves.
  - intros entry_fp key Hin.
    assert (is_Some (d !! entry_fp)) as [v Hv].
    { apply Hd. unfold path_keys, path_entries in *. set_solver. }
    assert (is_Some (paths !! key)) as [p Hp].
    { apply Hpaths. apply (list_elem_of_fmap_2 snd _ _ Hin). }
    assert (blank_entry (Some v) ↔ py_eq v (VStr EmptyString) = true) as Hb.
    { split; [by intros (? & [= <-] & ?)|by exists v]. }
    assert (resolved paths d !! entry_fp
            = if py_eq v (VStr EmptyString) then Some (VStr p) else Some v) as ->.
    { unfold resolved. rewrite !resolve_entry_lookup.
      unfold path_keys in Hin.
      apply elem_of_cons in Hin as [[= -> ->]|Hin];
        [|apply elem_of_cons in Hin as [[= -> ->]|Hin];
          [|apply list_elem_of_singleton in Hin as [= -> ->]]];
        repeat (rewrite decide_False by done);
        repeat (rewrite decide_True by done);
        repeat (rewrite decide_False by done);
        by rewrite Hv, Hp. }
    rewrite Hp, Hv. cbn [fmap option_fmap option_map].
    split; intros Hblank.
    + apply Hb in Hblank. by rewrite Hblank.
    + destruct (py_eq v (VStr EmptyString)); [|done].
      exfalso. by apply Hblank, Hb.
  - intros k Hk'. unfold resolved. rewrite !resolve_entry_lookup.
    unfold path_entries in Hk'.
    rewrite !decide_False; [done|set_solver..].
Qed.

(** *** The store and [copy.deepcopy] *)

Lemma top_above (h : heap) (l : loc) : is_Some (h !! l) → (l ≤ top h)%positive.
Proof.
  unfold top. revert l.
  apply (map_fold_weak_ind (λ r (m : heap), ∀ l, is_Some (m !! l) → (l ≤ r)%positive)).
  - intros l [x Hx]. by rewrite lookup_empty in Hx.
  - intros i x m r Hm IH l Hl. destruct (decide (l = i)) as [->|Hne]; [lia|].
    rewrite lookup_insert_ne in Hl by done. specialize (IH l Hl). lia.
Qed.

Lemma relocate_above (h : heap) (l : loc) : h !! relocate (top h) l = None.
Proof.
  destruct (h !! relocate (top h) l) as [d|] eqn:E; [|done].
  pose proof (top_above h _ (mk_is_Some _ _ E)). unfold relocate in *. lia.
Qed.

Lemma copy_objects_lookup (h : heap) (S : gset loc) (l : loc) (d : dict) :
  h !! l = Some d → l ∈ S →
  copy_objects h S !! relocate (top h) l = Some (val_relocate (top h) <$> d).
Proof.
  intros Hl Hin. unfold copy_objects.
  rewrite lookup_kmap by apply _. rewrite lookup_fmap.
  by rewrite (proj2 (map_lookup_filter_Some _ h l d) (conj Hl Hin)).
Qed.

Lemma copy_objects_Some (h : heap) (S : gset loc) (l : loc) (d' : dict) :
  copy_objects h S !! l = Some d' →
  ∃ l0 d0, l = relocate (top h) l0 ∧ h !! l0 = Some d0
           ∧ d' = val_relocate (top h) <$> d0.
Proof.
  unfold copy_objects. rewrite lookup_kmap_Some by apply _.
  intros (l0 & -> & Hl0). rewrite lookup_fmap in Hl0.
  destruct (filter _ h !! l0) as [d0|] eqn:E; simplify_eq/=.
  apply map_lookup_filter_Some in E as [E _]. eauto.
Qed.

Lemma copy_objects_old (h : heap) (S : gset loc) (l : loc) :
  is_Some (h !! l) → copy_objects h S !! l = None.
Proof.
  intros Hl. destruct (copy_objects h S !! l) as [d'|] eqn:E; [|done].
  apply copy_objects_Some in E as (l0 & d0 & -> & _ & _).
  rewrite relocate_above in Hl. by destruct Hl.
Qed.

Lemma reach_step_incl (h : heap) (S : gset loc) : S ⊆ reach_step h S.
Proof. unfold reach_step. set_solver. Qed.

Lemma reach_iter_incl (h : heap) (S : gset loc) (n : nat) :
  S ⊆ Nat.iter n (reach_step h) S.
Proof.
  induction n as [|n IH]; simpl; [done|].
  etrans; [exact IH|apply reach_step_incl].
Qed.

Lemma dict_refs_elem (d : dict) (k : string) (v : val) (l : loc) :
  d !! k = Some v → l ∈ val_refs v → l ∈ dict_refs d.
Proof.
  intros Hk Hl. unfold dict_refs. apply elem_of_union_list.
  exists (val_refs v). split; [|done].
  apply list_elem_of_fmap. exists (k, v). split; [done|].
  by apply elem_of_map_to_list.
Qed.

Lemma reach_step_child (h : heap) (S : gset loc) (l c : loc) (d : dict) :
  l ∈ S → h !! l = Some d → c ∈ dict_refs d → c ∈ reach_step h S.
Proof.
  intros Hl Hd Hc. unfold reach_step. apply elem_of_union_r, elem_of_union_list.
  exists (dict_refs d). split; [|done].
  apply list_elem_of_fmap. exists l. rewrite Hd. split; [done|].
  by apply elem_of_elements.
Qed.

Lemma reachable_root (h : heap) (l : loc) : l ∈ reachable h {[ l ]}.
Proof. apply reach_iter_incl. set_solver. Qed.

Lemma reachable_child (h : heap) (l c : loc) (d : dict) :
  h !! l = Some d → c ∈ dict_refs d → c ∈ reachable h {[ l ]}.
Proof.
  intros Hd Hc. unfold reachable.
  destruct (size h) as [|n] eqn:Hn.
  { apply map_size_empty_inv in Hn. subst h. by rewrite lookup_empty in Hd. }
  simpl. eapply reach_step_child; [|done..].
  apply reach_iter_incl. set_solver.
Qed.

(** [reachable] is closed under following references: [size h] rounds
    suffice, since every round that adds something adds a dict of [h]. *)
Lemma elem_of_reach_step (h : heap) (S : gset loc) (c : loc) :
  c ∈ reach_step h S ↔
  c ∈ S ∨ ∃ l d, l ∈ S ∧ h !! l = Some d ∧ c ∈ dict_refs d.
Proof.
  unfold reach_step. rewrite elem_of_union, elem_of_union_list. split.
  - intros [?|(X & HX & Hc)]; [by left|right].
    apply list_elem_of_fmap in HX as (l & -> & Hl%elem_of_elements).
    destruct (h !! l) as [d|] eqn:Hd; simpl in Hc; [eauto|set_solver].
  - intros [?|(l & d & Hl & Hd & Hc)]; [by left|right].
    exists (dict_refs d). split; [|done].
    apply list_elem_of_fmap. exists l. rewrite Hd. split; [done|].
    by apply elem_of_elements.
Qed.

Lemma reach_iter_stable (h : heap) (S : gset loc) (n : nat) :
  Nat.iter (Datatypes.S n) (reach_step h) S = Nat.iter n (reach_step h) S
  ∨ n < size (Nat.iter n (reach_step h) S ∩ dom h).
Proof.
  induction n as [|n IH].
  - destruct (decide (reach_step h S = S)) as [|Hne]; [by left|right].
    simpl. apply Nat.lt_nge. intros Hle.
    assert (S ∩ dom h = ∅) as Hempty.
    { apply leibniz_equiv, size_empty_iff. lia. }
    apply Hne. apply set_eq. intros c. rewrite elem_of_reach_step.
    split; [|by left]. intros [?|(l & d & Hl & Hd & _)]; [done|].
    apply elem_of_dom_2 in Hd. set_solver.
  - set (Rn := Nat.iter n (reach_step h) S) in *.
    destruct IH as [Hfix|Hlt].
    { left. simpl in *. fold Rn in Hfix |- *. by rewrite Hfix. }
    destruct (decide (reach_step h (reach_step h Rn) = reach_step h Rn))
      as [|Hne]; [by left|right].
    simpl. fold Rn.
    assert (Rn ∩ dom h ⊂ reach_step h Rn ∩ dom h) as Hsub.
    { split; [pose proof (reach_step_incl h Rn); set_solver|].
      intros Hback. apply Hne. apply set_eq. intros c.
      rewrite (elem_of_reach_step h (reach_step h Rn)).
      split; [|by left]. intros [?|(l & d & Hl & Hd & Hc)]; [done|].
      apply elem_of_reach_step. right. exists l, d. split; [|done].
      apply elem_of_dom_2 in Hd. set_solver. }
    apply subset_size in Hsub. lia.
Qed.

Lemma reachable_closed (h : heap) (roots : gset loc) (l c : loc) (d : dict) :
  l ∈ reachable h roots → h !! l = Some d → c ∈ dict_refs d →
  c ∈ reachable h roots.
Proof.
  intros Hl Hd Hc. unfold reachable in *.
  destruct (reach_iter_stable h roots (size h)) as [Hfix|Hlt].
  - rewrite <- Hfix. simpl. apply elem_of_reach_step. right. eauto.
  - assert (size (Nat.iter (size h) (reach_step h) roots ∩ dom h) ≤ size h)%nat.
    { rewrite <- size_dom. apply subseteq_size. set_solver. }
    lia.
Qed.

(** A reference held by a copied dict leads to the copy of its target. *)
Lemma deepcopy_closed (h : heap) (roots : gset loc) (l c : loc) (d dc : dict)
    (k : string) :
  l ∈ reachable h roots → h !! l = Some d → d !! k = Some (VRef c) →
  h !! c = Some dc →
  (h ∪ copy_objects h (reachable h roots)) !! relocate (top h) c
  = Some (val_relocate (top h) <$> dc).
Proof.
  intros Hl Hd Hk Hc.
  rewrite lookup_union_r by apply relocate_above.
  apply copy_objects_lookup; [done|].
  eapply reachable_closed; [done..|].
  eapply dict_refs_elem; [done|]. simpl. set_solver.
Qed.

(** *** Isolation of the caller's configuration *)

Section Isolation.
Variable h0 : heap.

Lemma keeps_bind {A B} (m : M A) (k : A → M B) (Φ : A → Prop) (Ψ : B → Prop) :
  keeps h0 m Φ → (∀ a, Φ a → keeps h0 (k a) Ψ) → keeps h0 (m ≫= k) Ψ.
Proof.
  intros Hm Hk σ Hσ. unfold mbind, M_bind.
  destruct (Hm σ Hσ) as [Hiso Hval].
  destruct (m σ) as [[a|e] σ1]; simpl in *; [|done].
  apply Hk; auto.
Qed.

Lemma keeps_weaken {A} (m : M A) (Φ Ψ : A → Prop) :
  keeps h0 m Φ → (∀ a, Φ a → Ψ a) → keeps h0 m Ψ.
Proof. intros Hm HΦ σ Hσ. destruct (Hm σ Hσ). split; auto. Qed.

Lemma keeps_ret {A} (a : A) (Φ : A → Prop) : Φ a → keeps h0 (mret a) Φ.
Proof. intros Ha σ Hσ. split; [done|]. by intros ? [= <-]. Qed.

Lemma keeps_raise {A} (e : exn) (Φ : A → Prop) : keeps h0 (raise e) Φ.
Proof. by intros σ Hσ. Qed.

Lemma keeps_lift {A} (r : result A) (Φ : A → Prop) :
  (∀ a, r = Ok a → Φ a) → keeps h0 (lift r) Φ.
Proof. intros Hr σ Hσ. split; [done|]. apply Hr. Qed.

Lemma keeps_invoke (s : stage) : keeps h0 (invoke s) (λ _, True).
Proof. intros σ [H1 H2]. by repeat split. Qed.

Lemma keeps_external {A} (call : heap → option A) :
  keeps h0 (external call) (λ _, True).
Proof. intros σ Hσ. unfold external. by case_match. Qed.

Lemma keeps_subscript (v : val) (k : string) :
  keeps h0 (subscript v k) (λ _, True).
Proof. intros σ Hσ. unfold subscript. by repeat case_match. Qed.

Lemma keeps_subscript_fresh (v : val) (k : string) :
  fresh_in h0 v → keeps h0 (subscript v k) (fresh_in h0).
Proof.
  intros Hv σ Hσ. unfold subscript.
  repeat case_match; simpl; (split; [done|]); try done.
  intros a [= <-]. destruct Hσ as [_ Hnew].
  eapply Hnew; [|done..]. apply Hv. simpl. set_solver.
Qed.

Lemma keeps_kwargs_of (v : val) :
  fresh_in h0 v →
  keeps h0 (kwargs_of v) (λ kw, ∀ k x, kw !! k = Some x → fresh_in h0 x).
Proof.
  intros Hv σ Hσ. unfold kwargs_of.
  repeat case_match; simpl; (split; [done|]); try done.
  intros a [= <-] k x Hk. destruct Hσ as [_ Hnew].
  eapply Hnew; [|done..]. apply Hv. simpl. set_solver.
Qed.

Lemma keeps_store_item (v x : val) (k : string) :
  fresh_in h0 v → fresh_in h0 x → keeps h0 (store_item v k x) (λ _, True).
Proof.
  intros Hv Hx σ Hσ. unfold store_item.
  destruct v as [| | | | |l|]; try done.
  destruct (st_heap σ !! l) as [d|] eqn:Hl; [|done].
  assert (h0 !! l = None) as Hfresh by (apply Hv; simpl; set_solver).
  destruct Hσ as [Hold Hnew]. split; [|done]. split; simpl.
  - intros l' Hl'. rewrite lookup_insert_ne; [by apply Hold|].
    intros ->. rewrite Hfresh in Hl'. by destruct Hl'.
  - intros l' d' k' v' Hl' Hd' Hk'.
    destruct (decide (l' = l)) as [->|Hne].
    + rewrite lookup_insert_eq in Hd'. simplify_eq.
      destruct (decide (k' = k)) as [->|Hk].
      * rewrite lookup_insert_eq in Hk'. by simplify_eq.
      * rewrite lookup_insert_ne in Hk' by done. by eapply Hnew.
    + rewrite lookup_insert_ne in Hd' by done. by eapply Hnew.
Qed.

Lemma relocated_fresh (σ : state) (v : val) :
  isolated h0 σ → fresh_in h0 (val_relocate (top (st_heap σ)) v).
Proof.
  intros [Hold _] l Hl.
  assert (∃ l', l = relocate (top (st_heap σ)) l') as [l' ->].
  { destruct v; simpl in Hl; try set_solver. }
  destruct (h0 !! relocate _ l') as [d|] eqn:E; [|done].
  rewrite <- Hold, relocate_above in E by done. done.
Qed.

Lemma keeps_deepcopy (v : val) : keeps h0 (deepcopy v) (fresh_in h0).
Proof.
  intros σ Hσ. unfold deepcopy. simpl. split.
  - destruct Hσ as [Hold Hnew]. split; simpl.
    + intros l Hl. rewrite lookup_union_l'; [by apply Hold|].
      by rewrite Hold.
    + intros l d k x Hl Hd Hk.
      apply lookup_union_Some_raw in Hd as [Hd|[_ Hd]]; [by eapply Hnew|].
      apply copy_objects_Some in Hd as (l0 & d0 & -> & _ & ->).
      rewrite lookup_fmap in Hk.
      destruct (d0 !! k) as [x0|]; simplify_eq/=.
      by apply relocated_fresh.
  - intros a [= <-]. by apply relocated_fresh.
Qed.

Lemma keeps_resolve_path (descr : val) (kind : string) (name : val)
    (entry_fp entry : string) :
  fresh_in h0 descr →
  keeps h0 (resolve_path descr kind name entry_fp entry) (λ _, True).
Proof.
  clear performance_model_main cost_model_main.
  intros Hd. unfold resolve_path.
  eapply keeps_bind; [apply keeps_subscript|]. intros fp _.
  destruct (py_eq fp _); [|by apply keeps_ret].
  eapply keeps_bind; [apply (keeps_lift _ (λ p, ∃ s, p = VStr s))|].
  { intros p. unfold model_locs_lookup. repeat case_match; naive_solver. }
  intros p [s ->]. apply keeps_store_item; [done|].
  intros l. simpl. set_solver.
Qed.

Lemma keeps_run_size (config : IronWinCapacityModelConfig) :
  fresh_in h0 (performance_model config) →
  keeps h0 (run_size_iron_win_plant_capacity config) (λ _, True).
Proof.
  intros Hpm. unfold run_size_iron_win_plant_capacity.
  eapply keeps_bind; [apply keeps_subscript|]. intros name _.
  destruct (py_eq name _); [by apply keeps_lift|].
  eapply keeps_bind; [apply keeps_subscript|]. intros perf _.
  do 3 (eapply keeps_bind; [by apply keeps_resolve_path|intros _ _]).
  eapply keeps_bind; [apply keeps_subscript|]. intros fp _.
  eapply keeps_bind; [apply keeps_external|]. intros outs _.
  repeat case_match; by (apply keeps_ret || apply keeps_raise).
Qed.

Lemma keeps_run_cost (config : IronWinCostModelConfig) :
  fresh_in h0 (cost_model config) →
  keeps h0 (run_iron_win_cost_model config) (λ _, True).
Proof.
  intros Hcm. unfold run_iron_win_cost_model.
  eapply keeps_bind; [apply keeps_subscript|]. intros name _.
  destruct (py_eq name _).
  { eapply keeps_bind; [apply keeps_subscript|]. intros gas _.
    eapply keeps_bind; [by apply (keeps_lift _ (λ _, True))|]. intros price _.
    by apply keeps_ret. }
  eapply keeps_bind; [apply keeps_subscript|]. intros cm _.
  do 3 (eapply keeps_bind; [by apply keeps_resolve_path|intros _ _]).
  eapply keeps_bind; [apply keeps_subscript|]. intros fp _.
  eapply keeps_bind; [apply keeps_external|]. intros outs _.
  repeat case_match; by (apply keeps_ret || apply keeps_raise).
Qed.

End Isolation.

Lemma new_Feedstocks_fresh (h0 : heap) (kw : dict) (fs : Feedstocks) :
  (∀ k x, kw !! k = Some x → fresh_in h0 x) →
  new_Feedstocks kw = Ok fs → fresh_in h0 (VFeedstocks fs).
Proof.
  intros Hkw. unfold new_Feedstocks.
  destruct (negb _); [done|]. unfold mbind, result_bind.
  destruct (kw_dict kw "natural_gas_prices") as [l|] eqn:E; [|done].
  assert (h0 !! l = None) as Hl.
  { unfold kw_dict in E. repeat case_match; simplify_eq.
    eapply Hkw; [done|]. simpl. set_solver. }
  repeat (match goal with |- context [kw_float ?a ?b ?c] =>
            destruct (kw_float a b c); [|done] end).
  intros [= <-] l'. simpl. set_solver.
Qed.

Lemma keeps_run_full (h0 : heap) (greenheart_config : val)
    (save_plots show_plots : bool) (output_dir : string) (design_scenario_id : Z) :
  keeps h0 (run_iron_win_full_model greenheart_config save_plots show_plots output_dir
              design_scenario_id) (λ _, True).
Proof.
  unfold run_iron_win_full_model.
  eapply keeps_bind; [apply keeps_subscript|]. intros iron _.
  eapply keeps_bind; [apply keeps_deepcopy|]. intros iron_win_config Hcfg.
  eapply keeps_bind; [by apply keeps_subscript_fresh|]. intros cost_entry Hce.
  eapply keeps_bind; [apply keeps_subscript|]. intros cost_lcoh _.
  eapply keeps_bind; [by apply keeps_subscript_fresh|]. intros fin_entry Hfe.
  eapply keeps_bind; [apply keeps_subscript|]. intros fin_lcoh _.
  destruct (negb _); [apply keeps_raise|].
  eapply keeps_bind; [by apply keeps_subscript_fresh|]. intros costs Hcosts.
  eapply keeps_bind; [by apply keeps_subscript_fresh|]. intros capacity Hcap.
  eapply keeps_bind; [by apply keeps_subscript_fresh|]. intros fs_entry Hfse.
  eapply keeps_bind; [by apply keeps_kwargs_of|]. intros fs_kw Hfs_kw.
  eapply keeps_bind; [apply (keeps_lift _ _ (λ fs, fresh_in h0 (VFeedstocks fs)))|].
  { intros fs. by apply new_Feedstocks_fresh. }
  intros fs Hfs.
  eapply keeps_bind; [apply keeps_kwargs_of; done|]. intros cap_kw _.
  eapply keeps_bind; [by apply (keeps_lift _ _ (λ _, True))|]. intros cap_config _.
  eapply keeps_bind; [by apply keeps_subscript_fresh|]. intros pm Hpm.
  eapply keeps_bind; [apply keeps_invoke|]. intros _ _.
  eapply keeps_bind; [by apply keeps_run_size|]. intros cap_out _.
  eapply keeps_bind; [by apply keeps_store_item|]. intros _ _.
  eapply keeps_bind; [apply keeps_kwargs_of; done|]. intros cost_kw _.
  eapply keeps_bind; [by apply (keeps_lift _ _ (λ _, True))|]. intros cost_config _.
  eapply keeps_bind; [by apply keeps_subscript_fresh|]. intros cm Hcm.
  eapply keeps_bind; [apply keeps_invoke|]. intros _ _.
  eapply keeps_bind; [by apply keeps_run_cost|]. intros cost_out _.
  eapply keeps_bind; [by apply keeps_subscript_fresh|]. intros fin Hfin.
  eapply keeps_bind; [by apply keeps_store_item|]. intros _ _.
  eapply keeps_bind; [apply keeps_kwargs_of; done|]. intros fin_kw _.
  eapply keeps_bind; [by apply (keeps_lift _ _ (λ _, True))|]. intros fin_config _.
  eapply keeps_bind; [apply keeps_invoke|]. intros _ _.
  eapply keeps_bind; [apply keeps_external|]. intros fin_out _.
  by apply keeps_ret.
Qed.

Lemma isolated_start (σ : state) : isolated (st_heap σ) σ.
Proof.
  split; [done|]. intros l d k v Hnone Hsome. congruence.
Qed.

(** C9.  Running the orchestrator, once or any number of times in a row,
    leaves every dict of the caller's store as it was: the technology
    sub-configuration is deep-copied first and every later update acts on
    the copy. *)
Theorem deep_copy_isolation (greenheart_config : val)
    (save_plots show_plots : bool) (output_dir : string) (design_scenario_id : Z)
    (σ : state) (runs : nat) (l : loc) :
  is_Some (st_heap σ !! l) →
  st_heap (Nat.iter runs
             (λ s, (run_iron_win_full_model greenheart_config save_plots
                      show_plots output_dir design_scenario_id s).2) σ) !! l
  = st_heap σ !! l.
Proof.
  intros Hl.
  assert (isolated (st_heap σ)
            (Nat.iter runs
               (λ s, (run_iron_win_full_model greenheart_config save_plots show_plots
                        output_dir design_scenario_id s).2) σ)) as [Hold _].
  { induction runs as [|n IH]; simpl; [apply isolated_start|].
    by apply keeps_run_full. }
  by apply Hold.
Qed.

(** *** The LCOH consistency gate *)

Lemma subscript_entry (σ : state) (v x : val) (k : string) :
  entry (st_heap σ) v k = Some x → subscript v k σ = (Ok x, σ).
Proof.
  unfold entry, subscript. destruct v; try done.
  destruct (st_heap σ !! l) as [d|]; simpl; [|done]. by intros ->.
Qed.

Lemma entry_deepcopy (h : heap) (S : gset loc) (l : loc) (k : string) (x : val) :
  entry h (VRef l) k = Some x → l ∈ S →
  entry (h ∪ copy_objects h S) (VRef (relocate (top h) l)) k
  = Some (val_relocate (top h) x).
Proof.
  unfold entry. destruct (h !! l) as [d|] eqn:Hl; simpl; [|done].
  intros Hk Hin.
  rewrite lookup_union_r by apply relocate_above.
  rewrite (copy_objects_lookup _ _ _ _ Hl Hin). simpl.
  by rewrite lookup_fmap, Hk.
Qed.

Lemma entry_ref_reachable (h : heap) (i c : loc) (k : string) :
  entry h (VRef i) k = Some (VRef c) → c ∈ reachable h {[ i ]}.
Proof.
  unfold entry. destruct (h !! i) as [d|] eqn:Hi; simpl; [|done].
  intros Hk. eapply reachable_child; [done|].
  eapply dict_refs_elem; [done|]. simpl. set_solver.
Qed.

Lemma py_eq_relocate (b : loc) (x y : val) :
  py_eq (val_relocate b x) (val_relocate b y) = py_eq x y.
Proof.
  assert (∀ l m, bool_decide (relocate b l = relocate b m) = bool_decide (l = m))
    as Hloc by (intros; apply bool_decide_ext; unfold relocate; lia).
  destruct x as [| | | | |l|f], y as [| | | | |m|g]; try reflexivity.
  - apply Hloc.
  - unfold py_eq, fs_eqb.
    cbn [val_relocate as_int as_float fs_relocate natural_gas_prices].
    by rewrite Hloc.
Qed.

Lemma no_mismatch_bind {A B} (r : result A) (k : A → result B) :
  no_mismatch r → (∀ a, no_mismatch (k a)) → no_mismatch (r ≫= k).
Proof.
  unfold no_mismatch, mbind, result_bind. intros Hr Hk.
  destruct r as [a|e]; [apply Hk|]. intros [= ->]. by apply Hr.
Qed.

Lemma avoids_bind {A B} (m : M A) (k : A → M B) :
  avoids_mismatch m → (∀ a, avoids_mismatch (k a)) → avoids_mismatch (m ≫= k).
Proof.
  intros Hm Hk σ. unfold mbind, M_bind. specialize (Hm σ).
  destruct (m σ) as [[a|e] σ1]; simpl in *; [apply Hk|].
  unfold no_mismatch in *. intros [= ->]. by apply Hm.
Qed.

Lemma avoids_lift {A} (r : result A) : no_mismatch r → avoids_mismatch (lift r).
Proof. by intros Hr σ. Qed.

Lemma avoids_ret {A} (a : A) : avoids_mismatch (mret a).
Proof. by intros σ. Qed.

Lemma avoids_subscript (v : val) (k : string) : avoids_mismatch (subscript v k).
Proof. intros σ. unfold subscript. by repeat case_match. Qed.

Lemma avoids_store_item (v x : val) (k : string) :
  avoids_mismatch (store_item v k x).
Proof. intros σ. unfold store_item. by repeat case_match. Qed.

Lemma avoids_kwargs_of (v : val) : avoids_mismatch (kwargs_of v).
Proof. intros σ. unfold kwargs_of. by repeat case_match. Qed.

Lemma avoids_invoke (s : stage) : avoids_mismatch (invoke s).
Proof. by intros σ. Qed.

Lemma avoids_external {A} (call : heap → option A) :
  avoids_mismatch (external call).
Proof. intros σ. unfold external. by case_match. Qed.

Lemma avoids_resolve_path (descr : val) (kind : string) (name : val)
    (entry_fp entry : string) :
  avoids_mismatch (resolve_path descr kind name entry_fp entry).
Proof.
  unfold resolve_path. apply avoids_bind; [apply avoids_subscript|]. intros fp.
  destruct (py_eq fp _); [|apply avoids_ret].
  apply avoids_bind; [|intros; apply avoids_store_item].
  apply avoids_lift. unfold model_locs_lookup. by repeat case_match.
Qed.

Ltac no_mismatch_leaf :=
  unfold no_mismatch, kw_float, kw_optional_float, kw_int, kw_bool, kw_dict,
    mbind, result_bind;
  unfold py_div, as_float;
  repeat (case_match; simplify_eq); done.

Lemma placeholder_capacity_no_mismatch (config : IronWinCapacityModelConfig) :
  no_mismatch (placeholder_capacity config).
Proof.
  unfold placeholder_capacity.
  repeat (apply no_mismatch_bind; [|intros ?]); no_mismatch_leaf.
Qed.

Lemma avoids_run_size (config : IronWinCapacityModelConfig) :
  avoids_mismatch (run_size_iron_win_plant_capacity config).
Proof.
  unfold run_size_iron_win_plant_capacity.
  apply avoids_bind; [apply avoids_subscript|]. intros name.
  destruct (py_eq name _).
  { apply avoids_lift, placeholder_capacity_no_mismatch. }
  apply avoids_bind; [apply avoids_subscript|]. intros perf.
  do 3 (apply avoids_bind; [apply avoids_resolve_path|intros _]).
  apply avoids_bind; [apply avoids_subscript|]. intros fp.
  apply avoids_bind; [apply avoids_external|]. intros outs.
  by repeat case_match.
Qed.

Lemma avoids_run_cost (config : IronWinCostModelConfig) :
  avoids_mismatch (run_iron_win_cost_model config).
Proof.
  unfold run_iron_win_cost_model.
  apply avoids_bind; [apply avoids_subscript|]. intros name.
  destruct (py_eq name _).
  { apply avoids_bind; [apply avoids_subscript|]. intros gas.
    apply avoids_bind; [|intros; apply avoids_ret].
    apply avoids_lift. no_mismatch_leaf. }
  apply avoids_bind; [apply avoids_subscript|]. intros cm.
  do 3 (apply avoids_bind; [apply avoids_resolve_path|intros _]).
  apply avoids_bind; [apply avoids_subscript|]. intros fp.
  apply avoids_bind; [apply avoids_external|]. intros outs.
  by repeat case_match.
Qed.

Lemma new_Feedstocks_no_mismatch (kw : dict) : no_mismatch (new_Feedstocks kw).
Proof.
  unfold new_Feedstocks. destruct (negb _); [done|].
  repeat (apply no_mismatch_bind; [|intros ?]); no_mismatch_leaf.
Qed.

Lemma capacity_config_no_mismatch (fs : Feedstocks) (kw : dict) :
  no_mismatch (capacity_config_of_kwargs fs kw).
Proof.
  unfold capacity_config_of_kwargs. destruct (negb _); [done|].
  repeat (apply no_mismatch_bind; [|intros ?]); try no_mismatch_leaf.
  unfold new_IronWinCapacityModelConfig, attrs_post_init. simpl.
  no_mismatch_leaf.
Qed.

Lemma cost_config_no_mismatch (capacity : F) (kw : dict) :
  no_mismatch (cost_config_of_kwargs capacity kw).
Proof.
  unfold cost_config_of_kwargs. destruct (negb _); [done|].
  repeat (apply no_mismatch_bind; [|intros ?]); no_mismatch_leaf.
Qed.

Lemma finance_config_no_mismatch (c cf p : F) (costs : IronWinCostModelOutputs)
    (show_plots save_plots : bool) (output_dir : string) (id : Z) (kw : dict) :
  no_mismatch (finance_config_of_kwargs c cf p costs show_plots save_plots
                 output_dir id kw).
Proof.
  unfold finance_config_of_kwargs. destruct (negb _); [done|].
  repeat (apply no_mismatch_bind; [|intros ?]); no_mismatch_leaf.
Qed.

(** The orchestrator up to its check: with both LCOH entries present it
    reaches the comparison having only copied the configuration, and what
    follows the comparison cannot raise the consistency error. *)
Lemma run_full_gate (greenheart_config : val) (save_plots show_plots : bool)
    (output_dir : string) (design_scenario_id : Z) (σ : state) (a b : val) :
  cost_stage_lcoh (st_heap σ) greenheart_config = Some a →
  finance_stage_lcoh (st_heap σ) greenheart_config = Some b →
  ∃ rest σ1,
    run_iron_win_full_model greenheart_config save_plots show_plots output_dir
      design_scenario_id σ
    = (if negb (py_eq a b) then raise (ValueError LcohMismatch) else rest) σ1
    ∧ st_trace σ1 = st_trace σ
    ∧ avoids_mismatch rest.
Proof.
  unfold cost_stage_lcoh, finance_stage_lcoh.
  destruct (entry (st_heap σ) greenheart_config "iron") as [iron|] eqn:Hiron;
    simpl; [|done].
  destruct (entry (st_heap σ) iron "costs") as [costs|] eqn:Hcosts; simpl; [|done].
  destruct (entry (st_heap σ) iron "finances") as [fin|] eqn:Hfin; simpl; [|done].
  intros Ha Hb.
  destruct iron as [| | | | |i|]; try done.
  destruct costs as [| | | | |c|]; try done.
  destruct fin as [| | | | |f|]; try done.
  set (h := st_heap σ) in *.
  set (S := reachable h {[ i ]}).
  set (σ1 := mkState (h ∪ copy_objects h S) (st_trace σ)).
  assert (i ∈ S) as Hi by apply reachable_root.
  assert (c ∈ S) as Hc by (by eapply entry_ref_reachable).
  assert (f ∈ S) as Hf by (by eapply entry_ref_reachable).
  unfold run_iron_win_full_model.
  erewrite bind_ok by (by apply subscript_entry).
  erewrite bind_ok by reflexivity. fold h S σ1. simpl val_relocate.
  erewrite bind_ok by (by apply subscript_entry, entry_deepcopy).
  simpl val_relocate.
  erewrite bind_ok by (by apply subscript_entry, entry_deepcopy).
  erewrite bind_ok by (by apply subscript_entry, entry_deepcopy).
  simpl val_relocate.
  erewrite bind_ok by (by apply subscript_entry, entry_deepcopy).
  rewrite py_eq_relocate.
  eexists _, σ1. split; [reflexivity|]. split; [done|].
  repeat first
    [ apply avoids_run_size | apply avoids_run_cost | apply avoids_subscript
    | apply avoids_store_item | apply avoids_kwargs_of | apply avoids_invoke
    | apply avoids_external | apply avoids_ret
    | apply avoids_lift;
      first [ apply new_Feedstocks_no_mismatch | apply capacity_config_no_mismatch
            | apply cost_config_no_mismatch | apply finance_config_no_mismatch ]
    | apply avoids_bind; [|intros ?] ].
Qed.

(** C5.  When the configuration holds a cost-stage LCOH and a finance-stage
    LCOH that differ, the orchestrator (of either module) raises the
    consistency error with no stage invoked; when they are equal it does not
    raise that error. *)
Theorem lcoh_consistency_gate (greenheart_config : val)
    (save_plots show_plots : bool) (output_dir : string) (design_scenario_id : Z)
    (σ : state) (cost_lcoh finance_lcoh : val) :
  cost_stage_lcoh (st_heap σ) greenheart_config = Some cost_lcoh →
  finance_stage_lcoh (st_heap σ) greenheart_config = Some finance_lcoh →
  ∀ run, run = run_iron_win_full_model ∨ run = run_iron_ore_full_model →
    let outcome := run greenheart_config save_plots show_plots output_dir
                     design_scenario_id σ in
    (py_eq cost_lcoh finance_lcoh = false →
       outcome.1 = Raise (ValueError LcohMismatch)
       ∧ st_trace outcome.2 = st_trace σ)
    ∧ (py_eq cost_lcoh finance_lcoh = true →
       outcome.1 ≠ Raise (ValueError LcohMismatch)).
Proof.
  intros Ha Hb run Hrun.
  assert (run = run_iron_win_full_model) as -> by (by destruct Hrun).
  destruct (run_full_gate greenheart_config save_plots show_plots output_dir
              design_scenario_id σ _ _ Ha Hb) as (rest & σ1 & Hgate & Htr & Hrest).
  simpl. rewrite Hgate. split; intros Heq; rewrite Heq; simpl.
  - done.
  - apply Hrest.
Qed.

(** ** Further properties of the stages *)

(** *** Capacity sizing: descriptor, unbound locals, division *)

(** X1.  Both stage functions read [name] off their model descriptor first:
    with the default descriptor [None] the call is a [TypeError], with a
    dict that has no entry [name] a [KeyError]; the store is as before. *)
Theorem descriptor_errors (capacity_config : IronWinCapacityModelConfig)
    (cost_config : IronWinCostModelConfig) (σ : state) :
  (performance_model capacity_config = VNone →
     run_size_iron_win_plant_capacity capacity_config σ = (Raise TypeError, σ))
  ∧ (cost_model cost_config = VNone →
     run_iron_win_cost_model cost_config σ = (Raise TypeError, σ))
  ∧ (∀ l d, performance_model capacity_config = VRef l →
       st_heap σ !! l = Some d → d !! "name" = None →
       run_size_iron_win_plant_capacity capacity_config σ = (Raise KeyError, σ))
  ∧ (∀ l d, cost_model cost_config = VRef l →
       st_heap σ !! l = Some d → d !! "name" = None →
       run_iron_win_cost_model cost_config σ = (Raise KeyError, σ)).
Proof.
  unfold run_size_iron_win_plant_capacity, run_iron_win_cost_model.
  repeat split.
  - by intros ->.
  - by intros ->.
  - intros l d -> Hl Hd. unfold mbind, M_bind, subscript at 1. by rewrite Hl, Hd.
  - intros l d -> Hl Hd. unfold mbind, M_bind, subscript at 1. by rewrite Hl, Hd.
Qed.

Lemma placeholder_capacity_cases (config : IronWinCapacityModelConfig) :
  let supply := opt_truthy (hydrogen_amount_kgpy config) in
  let demand := opt_truthy (desired_iron_win_mtpy config) in
  let rate := f_truthy (hydrogen_consumption (feedstocks config)) in
  let factor := f_truthy (input_capacity_factor_estimate config) in
  match placeholder_capacity config with
  | Ok _ => (supply = true ∨ demand = true)
            ∧ (supply = true → rate = true) ∧ (demand = true → factor = true)
  | Raise e =>
      (e = UnboundLocalError ∧ supply = false ∧ demand = false)
      ∨ (e = ZeroDivisionError
         ∧ ((supply = true ∧ rate = false) ∨ (demand = true ∧ factor = false)))
  end.
Proof.
  unfold placeholder_capacity, py_div, opt_truthy.
  destruct (hydrogen_amount_kgpy config) as [s|],
           (desired_iron_win_mtpy config) as [d|]; simpl;
    repeat (case_match; simpl; simplify_eq); naive_solver.
Qed.

(** X2.  In the placeholder branch the call fails with [UnboundLocalError]
    exactly when neither quantity is truthy, and with [ZeroDivisionError]
    exactly when the supply is truthy and the hydrogen consumption rate is
    zero, or the demand is truthy and the capacity factor is zero; in every
    other case it returns outputs. *)
Theorem placeholder_sizing_outcome (config : IronWinCapacityModelConfig) (σ : state) :
  placeholder_named (performance_model config) σ →
  let supply := opt_truthy (hydrogen_amount_kgpy config) in
  let demand := opt_truthy (desired_iron_win_mtpy config) in
  let rate := f_truthy (hydrogen_consumption (feedstocks config)) in
  let factor := f_truthy (input_capacity_factor_estimate config) in
  ((run_size_iron_win_plant_capacity config σ).1 = Raise UnboundLocalError
     ↔ supply = false ∧ demand = false)
  ∧ ((run_size_iron_win_plant_capacity config σ).1 = Raise ZeroDivisionError
     ↔ (supply = true ∧ rate = false) ∨ (demand = true ∧ factor = false))
  ∧ ((∃ out, (run_size_iron_win_plant_capacity config σ).1 = Ok out)
     ↔ (supply = true ∨ demand = true)
       ∧ (supply = true → rate = true) ∧ (demand = true → factor = true)).
Proof.
  intros Hp supply demand rate factor.
  rewrite run_size_placeholder by done. simpl.
  pose proof (placeholder_capacity_cases config) as Hc. simpl in Hc.
  fold supply demand rate factor in Hc.
  destruct (placeholder_capacity config) as [out|e].
  - destruct Hc as (Hsome & Hrate & Hfactor).
    split; [|split].
    + split; [done|]. intros [Hs Hd]. destruct Hsome; congruence.
    + split; [done|]. intros [[Hs Hr]|[Hd Hf]].
      * rewrite Hrate in Hr; done.
      * rewrite Hfactor in Hf; done.
    + split; [done|]. eauto.
  - split; [|split].
    + split.
      * intros [= ->]. destruct Hc as [(_ & ? & ?)|(? & _)]; done.
      * intros [Hs Hd]. destruct Hc as [(-> & _)|(_ & [[? _]|[? _]])];
          [done|congruence..].
    + split.
      * intros [= ->]. destruct Hc as [(? & _)|(_ & ?)]; done.
      * intros Hz. destruct Hc as [(_ & Hs & Hd)|(-> & _)]; [|done].
        destruct Hz as [[? _]|[? _]]; congruence.
    + split; [by intros [out ?]|].
      intros (Hsome & Hrate & Hfactor).
      destruct Hc as [(_ & Hs & Hd)|(_ & [[Hs Hr]|[Hd Hf]])].
      * destruct Hsome; congruence.
      * rewrite Hrate in Hr; done.
      * rewrite Hfactor in Hf; done.
Qed.

(** X3.  A configuration object can be changed after it is validated.  When
    both quantities are truthy the second [if] statement rebinds both locals:
    the call returns what demand mode alone returns, and the supply is not
    echoed. *)
Theorem demand_overrides_supply (config : IronWinCapacityModelConfig) (σ : state)
    (supply demand : F) :
  placeholder_named (performance_model config) σ →
  hydrogen_amount_kgpy config = Some supply → f_truthy supply = true →
  desired_iron_win_mtpy config = Some demand → f_truthy demand = true →
  f_truthy (hydrogen_consumption (feedstocks config)) = true →
  f_truthy (input_capacity_factor_estimate config) = true →
  run_size_iron_win_plant_capacity config σ
  = (Ok (mkCapacityOutputs
           (demand / input_capacity_factor_estimate config)
           (demand * #1000 * hydrogen_consumption (feedstocks config)
            / input_capacity_factor_estimate config)), σ).
Proof.
  intros Hp Hs Hts Hd Htd Hr Hf.
  rewrite run_size_placeholder by done.
  unfold placeholder_capacity, py_div. by rewrite Hs, Hts, Hd, Htd, Hr, Hf.
Qed.

(** *** Delegated models *)

Lemma bind_raise {A B} (m : M A) (k : A → M B) (σ σ' : state) (e : exn) :
  m σ = (Raise e, σ') → (m ≫= k) σ = (Raise e, σ').
Proof. intros Hm. unfold mbind, M_bind. by rewrite Hm. Qed.

Lemma subscript_name_model (descr : val) (n : string) (d : dict) (σ : state) :
  model_named descr n d σ →
  subscript descr "name" σ = (Ok (VStr n), σ)
  ∧ py_eq (VStr n) (VStr "placeholder") = false.
Proof.
  intros (l & -> & Hl & Hn & Hne). split.
  - unfold subscript. by rewrite Hl, Hn.
  - simpl. by apply bool_decide_eq_false.
Qed.

Lemma resolve_path_explicit (descr : val) (n : string) (d : dict) (σ : state)
    (kind : string) (name : val) (entry_fp entry : string) :
  model_named descr n d σ → explicit_entry (d !! entry_fp) →
  resolve_path descr kind name entry_fp entry σ = (Ok tt, σ).
Proof.
  intros (l & -> & Hl & _) (v & Hv & Hb).
  unfold resolve_path, mbind, M_bind, subscript. by rewrite Hl, Hv, Hb.
Qed.

Lemma resolve_path_miss (descr : val) (n : string) (d : dict) (σ : state)
    (kind entry_fp entry : string) :
  model_named descr n d σ → blank_entry (d !! entry_fp) →
  (∀ by_name, model_locs !! kind = Some by_name → by_name !! n = None) →
  resolve_path descr kind (VStr n) entry_fp entry σ = (Raise KeyError, σ).
Proof.
  intros (l & -> & Hl & _) (v & Hv & Hb) Hmiss.
  unfold resolve_path, mbind, M_bind, subscript. rewrite Hl, Hv, Hb.
  unfold lift, model_locs_lookup.
  destruct (model_locs !! kind) as [by_name|] eqn:Hk; [|done].
  by rewrite (Hmiss _ eq_refl).
Qed.

(** X4.  A delegated model whose descriptor has a blank [model_fp] and whose
    name the registry does not list under the stage's kind makes either
    stage function fail with [KeyError]; the descriptor is as before. *)
Theorem unregistered_model (capacity_config : IronWinCapacityModelConfig)
    (cost_config : IronWinCostModelConfig) (descr : val) (n : string)
    (d : dict) (σ : state) :
  performance_model capacity_config = descr →
  cost_model cost_config = descr →
  model_named descr n d σ →
  blank_entry (d !! "model_fp") →
  (∀ kind by_name, model_locs !! kind = Some by_name → by_name !! n = None) →
  run_size_iron_win_plant_capacity capacity_config σ = (Raise KeyError, σ)
  ∧ run_iron_win_cost_model cost_config σ = (Raise KeyError, σ).
Proof.
  intros Hperf Hcost Hd Hblank Hmiss.
  destruct (subscript_name_model _ _ _ _ Hd) as [Hname Hne].
  unfold run_size_iron_win_plant_capacity, run_iron_win_cost_model.
  rewrite Hperf, Hcost.
  rewrite !(bind_ok _ _ _ _ _ Hname), Hne, !(bind_ok _ _ _ _ _ Hname).
  split; apply bind_raise, (resolve_path_miss _ _ _ _ _ _ _ Hd Hblank (Hmiss _)).
Qed.

(** X5.  With a delegated model all of whose three paths are given, the
    sizing function leaves the store as it is, calls the model at the
    descriptor's own [model_fp], and returns the two values the model gives,
    in that order; a result of any other length is a [ValueError], and a
    failure of the model is passed on. *)
Theorem delegated_sizing (config : IronWinCapacityModelConfig) (n : string)
    (d : dict) (fp : val) (σ : state) :
  model_named (performance_model config) n d σ →
  (∀ k, k ∈ path_entries → explicit_entry (d !! k)) →
  d !! "model_fp" = Some fp →
  run_size_iron_win_plant_capacity config σ
  = (match performance_model_main fp config (st_heap σ) with
     | Some [capacity; hydrogen] => Ok (mkCapacityOutputs capacity hydrogen)
     | Some _ => Raise (ValueError UnpackMismatch)
     | None => Raise ExternalFailure
     end, σ).
Proof.
  clear cost_model_main.
  intros Hd Hex Hfp.
  destruct (subscript_name_model _ _ _ _ Hd) as [Hname Hne].
  unfold run_size_iron_win_plant_capacity.
  rewrite (bind_ok _ _ _ _ _ Hname), Hne, (bind_ok _ _ _ _ _ Hname).
  do 3 (erewrite bind_ok; [|apply (resolve_path_explicit _ _ _ _ _ _ _ _ Hd), Hex;
                             set_solver]).
  destruct Hd as (l & Hl & Hh & _). rewrite Hl.
  unfold mbind, M_bind, subscript, external. rewrite Hh, Hfp.
  destruct (performance_model_main fp config (st_heap σ)) as [vs|]; [|done].
  by do 3 (destruct vs as [|? vs]; [done|]).
Qed.

(** X6.  With a delegated cost model all of whose paths are given, the cost
    function returns outputs exactly when the model gives 24 values, which
    it assigns by position in the order of its unpacking statement (the
    total plant cost tenth, the land cost third from last); it does not
    compare the totals with the items.  A result of any other length is a
    [ValueError].  The store is as before. *)
Theorem delegated_costs (config : IronWinCostModelConfig) (n : string)
    (d : dict) (fp : val) (σ : state) (values : list F) :
  model_named (cost_model config) n d σ →
  (∀ k, k ∈ path_entries → explicit_entry (d !! k)) →
  d !! "model_fp" = Some fp →
  cost_model_main fp config (st_heap σ) = Some values →
  (∀ out, values = unpack_order out →
     run_iron_win_cost_model config σ = (Ok out, σ))
  ∧ (length values ≠ 24%nat →
     run_iron_win_cost_model config σ = (Raise (ValueError UnpackMismatch), σ))
  ∧ (∀ out, (run_iron_win_cost_model config σ).1 = Ok out →
     values = unpack_order out).
Proof.
  clear performance_model_main.
  intros Hd Hex Hfp Hmain.
  destruct (subscript_name_model _ _ _ _ Hd) as [Hname Hne].
  unfold run_iron_win_cost_model.
  rewrite (bind_ok _ _ _ _ _ Hname), Hne, (bind_ok _ _ _ _ _ Hname).
  do 3 (erewrite bind_ok; [|apply (resolve_path_explicit _ _ _ _ _ _ _ _ Hd), Hex;
                             set_solver]).
  destruct Hd as (l & Hl & Hh & _). rewrite Hl.
  unfold mbind, M_bind, subscript, external. rewrite Hh, Hfp, Hmain.
  split; [|split].
  - intros [] ->. reflexivity.
  - intros Hlen. do 25 (destruct values as [|? values]; [done|]). done.
  - do 24 (destruct values as [|? values]; [done|]).
    destruct values; [|done]. intros out [= <-]. reflexivity.
Qed.

(** *** The placeholder cost model: price table and inputs *)

(** X7.  The placeholder cost model reads one entry of the price table of
    natural gas, under the decimal string of the operational year.  It fails
    with [KeyError] exactly when the table has no such entry, returns the
    outputs computed with the price when the entry is a number, and leaves
    the store as it is in every case. *)
Theorem placeholder_cost_outcome (config : IronWinCostModelConfig) (σ : state)
    (prices : dict) :
  placeholder_named (cost_model config) σ →
  st_heap σ !! natural_gas_prices (cost_feedstocks config) = Some prices →
  ((run_iron_win_cost_model config σ).1 = Raise KeyError
     ↔ prices !! pretty (operational_year config) = None)
  ∧ (∀ gas_price,
       prices !! pretty (operational_year config) = Some (VNum gas_price) →
       (run_iron_win_cost_model config σ).1 = Ok (placeholder_costs config gas_price))
  ∧ (run_iron_win_cost_model config σ).2 = σ.
Proof.
  intros Hp Hprices. unfold run_iron_win_cost_model.
  rewrite (bind_ok _ _ _ _ _ (subscript_name_placeholder _ _ Hp)), py_eq_placeholder.
  unfold mbind, M_bind, subscript, lift, mret, M_ret. rewrite Hprices.
  destruct (prices !! pretty (operational_year config)) as [v|]; [|done].
  split; [|split].
  - split; [|done]. destruct v; done.
  - by intros gas_price [= ->].
  - destruct v; done.
Qed.

(** X8.  In the placeholder branch prices and consumption rates reach only
    the one-month costs and the installation cost: two runs with the same
    plant capacity, integration flag and miscellaneous capex return the same
    capital items, total plant cost, fixed costs, five-month labor cost,
    spare parts, land and owner's costs, whatever their feedstocks, LCOH,
    year, price tables and emission attributes are. *)
Theorem capital_and_fixed_costs_inputs (config1 config2 : IronWinCostModelConfig)
    (σ1 σ1' σ2 σ2' : state) (out1 out2 : IronWinCostModelOutputs) :
  placeholder_named (cost_model config1) σ1 →
  placeholder_named (cost_model config2) σ2 →
  plant_capacity_mtpy config1 = plant_capacity_mtpy config2 →
  o2_heat_integration config1 = o2_heat_integration config2 →
  capex_misc_in config1 = capex_misc_in config2 →
  run_iron_win_cost_model config1 σ1 = (Ok out1, σ1') →
  run_iron_win_cost_model config2 σ2 = (Ok out2, σ2') →
  capital_and_fixed_outputs out1 = capital_and_fixed_outputs out2.
Proof.
  intros Hp1 Hp2 Hc Ho Hm Hr1 Hr2.
  destruct (run_cost_placeholder_inv _ _ _ _ Hp1 Hr1) as (g1 & -> & _).
  destruct (run_cost_placeholder_inv _ _ _ _ Hp2 Hr2) as (g2 & -> & _).
  unfold capital_and_fixed_outputs, placeholder_costs; simpl.
  by rewrite Hc, Ho, Hm.
Qed.

(** *** Path resolution is idempotent *)

Lemma settled_run (descr : val) (kind : string) (name : val)
    (entry_fp key : string) (σ : state) :
  settled descr kind name entry_fp key σ →
  resolve_path descr kind name entry_fp key σ = (Ok tt, σ).
Proof.
  intros (fp & Hfp & Hreg). unfold entry in Hfp.
  destruct descr as [| | | | |l|]; try done.
  destruct (st_heap σ !! l) as [d|] eqn:Hl; [|done]. simpl in Hfp.
  unfold resolve_path, mbind, M_bind, subscript. rewrite Hl, Hfp.
  destruct (py_eq fp (VStr EmptyString)) eqn:Hb; [|done].
  rewrite (Hreg eq_refl). unfold lift, store_item. rewrite Hl.
  rewrite (insert_id d), (insert_id (st_heap σ)) by done. by destruct σ.
Qed.

Lemma resolve_path_step (descr : val) (kind : string) (name : val)
    (entry_fp key : string) (σ : state) :
  match resolve_path descr kind name entry_fp key σ with
  | (Ok _, σ') =>
      settled descr kind name entry_fp key σ'
      ∧ ∀ k, k ≠ entry_fp →
          entry (st_heap σ') descr k = entry (st_heap σ) descr k
  | (Raise _, σ') => σ' = σ
  end.
Proof.
  unfold resolve_path, mbind, M_bind, subscript, settled, entry.
  destruct descr as [| | | | |l|]; try done.
  destruct (st_heap σ !! l) as [d|] eqn:Hl; [|done].
  destruct (d !! entry_fp) as [fp|] eqn:Hfp; [|done].
  destruct (py_eq fp (VStr EmptyString)) eqn:Hb.
  - unfold lift, store_item.
    destruct (model_locs_lookup kind name key) as [p|] eqn:Hreg; [|done].
    rewrite Hl. cbn [st_heap]. rewrite lookup_insert_eq. simpl. split.
    + exists p. by rewrite lookup_insert_eq.
    + intros k Hk. by rewrite lookup_insert_ne.
  - unfold mret, M_ret. rewrite Hl. simpl. split; [|done].
    exists fp. split; [done|]. congruence.
Qed.

Lemma resolve_all_rerun {B} (descr : val) (kind : string) (name : val)
    (rest : M B) (entries : list (string * string)) :
  (∀ σ, (rest σ).2 = σ) → NoDup entries.*1 →
  ∀ σ, let σ' := (resolve_all descr kind name entries rest σ).2 in
       resolve_all descr kind name entries rest σ'
       = resolve_all descr kind name entries rest σ
       ∧ ∀ k, k ∉ entries.*1 →
           entry (st_heap σ') descr k = entry (st_heap σ) descr k.
Proof.
  intros Hrest. induction entries as [|[entry_fp e] entries IH]; intros Hnd σ.
  - simpl. by rewrite Hrest.
  - apply NoDup_cons in Hnd as [Hfresh Hnd]. specialize (IH Hnd).
    cbn [resolve_all] in *. cbv zeta.
    pose proof (resolve_path_step descr kind name entry_fp e σ) as Hstep.
    destruct (resolve_path descr kind name entry_fp e σ) as [[[]|err] σ1] eqn:Hr.
    + destruct Hstep as [(fp & Hfp & Hreg) Hframe].
      rewrite (bind_ok _ _ _ _ _ Hr).
      destruct (IH σ1) as [Hrerun Hkeep]. simpl in Hrerun, Hkeep.
      split.
      * erewrite bind_ok; [exact Hrerun|].
        apply settled_run. exists fp. by rewrite Hkeep.
      * intros k Hk. apply not_elem_of_cons in Hk as [Hk1 Hk2].
        rewrite Hkeep by done. by apply Hframe.
    + subst σ1. rewrite (bind_raise _ _ _ _ _ Hr). simpl.
      by rewrite (bind_raise _ _ _ _ _ Hr).
Qed.

Lemma stage_rerun {B} (descr : val) (kind : string) (builtin rest : M B)
    (σ : state) :
  (∀ σ, (builtin σ).2 = σ) → (∀ σ, (rest σ).2 = σ) →
  let stage : M B :=
    name ← subscript descr "name";
    if py_eq name (VStr "placeholder") then builtin
    else
      model ← subscript descr "name";
      resolve_all descr kind model
        [("model_fp", "model"); ("inputs_fp", "inputs"); ("coeffs_fp", "coeffs")]
        rest in
  stage (stage σ).2 = stage σ.
Proof.
  clear performance_model_main cost_model_main.
  intros Hbuiltin Hrest stage. unfold stage. clear stage.
  set (es := [("model_fp", "model"); ("inputs_fp", "inputs");
              ("coeffs_fp", "coeffs")]).
  destruct (subscript descr "name" σ) as [[name|err] σ1] eqn:Hname.
  - assert (σ1 = σ ∧ entry (st_heap σ) descr "name" = Some name) as [-> Hentry].
    { unfold subscript, entry in *. repeat case_match; simplify_eq; done. }
    rewrite (bind_ok _ _ _ _ _ Hname).
    destruct (py_eq name (VStr "placeholder")) eqn:Hb.
    + rewrite Hbuiltin. by rewrite (bind_ok _ _ _ _ _ Hname), Hb.
    + rewrite (bind_ok _ _ _ _ _ Hname).
      assert (NoDup es.*1) as Hnd.
      { simpl. repeat constructor; set_solver. }
      destruct (resolve_all_rerun descr kind name rest es Hrest Hnd σ)
        as [Hrerun Hkeep].
      set (σ' := (resolve_all descr kind name es rest σ).2) in *.
      assert (subscript descr "name" σ' = (Ok name, σ')) as Hname'.
      { apply subscript_entry. rewrite Hkeep; [done|]. set_solver. }
      rewrite (bind_ok _ _ _ _ _ Hname'), Hb, (bind_ok _ _ _ _ _ Hname').
      exact Hrerun.
  - assert (σ1 = σ) as ->.
    { unfold subscript in *. repeat case_match; simplify_eq; done. }
    rewrite (bind_raise _ _ _ _ _ Hname). simpl.
    by rewrite (bind_raise _ _ _ _ _ Hname).
Qed.

(** X9.  Calling a stage function a second time, in the store the first call
    left, gives the result of the first call and leaves that store as it
    is: the descriptor is patched at most once. *)
Theorem stage_functions_idempotent (capacity_config : IronWinCapacityModelConfig)
    (cost_config : IronWinCostModelConfig) (σ : state) :
  run_size_iron_win_plant_capacity capacity_config
    (run_size_iron_win_plant_capacity capacity_config σ).2
  = run_size_iron_win_plant_capacity capacity_config σ
  ∧ run_iron_win_cost_model cost_config
      (run_iron_win_cost_model cost_config σ).2
    = run_iron_win_cost_model cost_config σ.
Proof.
  split.
  - apply (stage_rerun (performance_model capacity_config) "performance"
             (lift (placeholder_capacity capacity_config))); [done|].
    intros σ1. unfold mbind, M_bind, subscript, external, mret, M_ret, raise.
    repeat case_match; simplify_eq; done.
  - apply (stage_rerun (cost_model cost_config) "cost").
    + intros σ1. unfold mbind, M_bind, subscript, lift, mret, M_ret.
      repeat case_match; simplify_eq; done.
    + intros σ1. unfold mbind, M_bind, subscript, external, mret, M_ret, raise.
      repeat case_match; simplify_eq; done.
Qed.

(** *** The orchestrator: order of the stages *)

Lemma order_bind {A B} (m : M A) (k : A → M B) (stages : list stage) :
  stage_order [] m → (∀ a, stage_order stages (k a)) →
  stage_order stages (m ≫= k).
Proof.
  intros Hm Hk σ. unfold mbind, M_bind. specialize (Hm σ).
  destruct (m σ) as [[a|e] σ1].
  - specialize (Hk a σ1). rewrite app_nil_r in Hm. by rewrite Hm in Hk.
  - destruct Hm as (entered & Hpre & Htr). exists [].
    apply prefix_nil_inv in Hpre as ->. split; [apply prefix_nil|done].
Qed.

Lemma order_invoke {B} (s : stage) (k : M B) (stages : list stage) :
  stage_order stages k → stage_order (s :: stages) (invoke s;; k).
Proof.
  intros Hk σ. unfold mbind, M_bind, invoke.
  specialize (Hk (mkState (st_heap σ) (st_trace σ ++ [s]))).
  destruct (k _) as [[b|e] σ1]; simpl in Hk.
  - by rewrite Hk, <- app_assoc.
  - destruct Hk as (entered & Hpre & Htr). exists (s :: entered).
    split; [by apply prefix_cons|]. by rewrite Htr, <- app_assoc.
Qed.

Lemma order_raise {A} (e : exn) (stages : list stage) :
  stage_order stages (raise (A:=A) e).
Proof.
  intros σ. exists []. split; [apply prefix_nil|]. simpl. by rewrite app_nil_r.
Qed.

Lemma order_unchanged {A} (m : M A) :
  (∀ σ, (m σ).2 = σ) → stage_order [] m.
Proof.
  intros Hm σ. specialize (Hm σ). destruct (m σ) as [[a|e] σ1]; simpl in Hm; subst.
  - by rewrite app_nil_r.
  - exists []. by rewrite app_nil_r.
Qed.

Lemma order_heap_only {A} (m : M A) :
  (∀ σ, st_trace (m σ).2 = st_trace σ) → stage_order [] m.
Proof.
  intros Hm σ. specialize (Hm σ). destruct (m σ) as [[a|e] σ1]; simpl in Hm.
  - by rewrite app_nil_r.
  - exists []. by rewrite app_nil_r.
Qed.

Lemma order_subscript (v : val) (k : string) : stage_order [] (subscript v k).
Proof.
  apply order_unchanged. intros σ. unfold subscript. by repeat case_match.
Qed.

Lemma order_kwargs_of (v : val) : stage_order [] (kwargs_of v).
Proof.
  apply order_unchanged. intros σ. unfold kwargs_of. by repeat case_match.
Qed.

Lemma order_lift {A} (r : result A) : stage_order [] (lift r).
Proof. by apply order_unchanged. Qed.

Lemma order_ret {A} (a : A) : stage_order [] (mret a).
Proof. by apply order_unchanged. Qed.

Lemma order_external {A} (call : heap → option A) : stage_order [] (external call).
Proof.
  apply order_unchanged. intros σ. unfold external. by case_match.
Qed.

Lemma order_store_item (v x : val) (k : string) :
  stage_order [] (store_item v k x).
Proof.
  apply order_heap_only. intros σ. unfold store_item. by repeat case_match.
Qed.

Lemma order_deepcopy (v : val) : stage_order [] (deepcopy v).
Proof. by apply order_heap_only. Qed.

Lemma order_resolve_path (descr : val) (kind : string) (name : val)
    (entry_fp key : string) :
  stage_order [] (resolve_path descr kind name entry_fp key).
Proof.
  unfold resolve_path. apply order_bind; [apply order_subscript|]. intros fp.
  destruct (py_eq fp _); [|apply order_ret].
  apply order_bind; [apply order_lift|]. intros p. apply order_store_item.
Qed.

Lemma order_run_size (config : IronWinCapacityModelConfig) :
  stage_order [] (run_size_iron_win_plant_capacity config).
Proof.
  clear cost_model_main.
  unfold run_size_iron_win_plant_capacity.
  apply order_bind; [apply order_subscript|]. intros name.
  destruct (py_eq name _); [apply order_lift|].
  apply order_bind; [apply order_subscript|]. intros model.
  do 3 (apply order_bind; [apply order_resolve_path|]; intros _).
  apply order_bind; [apply order_subscript|]. intros fp.
  apply order_bind; [apply order_external|]. intros vs.
  repeat case_match; first [apply order_ret|apply order_raise].
Qed.

Lemma order_run_cost (config : IronWinCostModelConfig) :
  stage_order [] (run_iron_win_cost_model config).
Proof.
  clear performance_model_main.
  unfold run_iron_win_cost_model.
  apply order_bind; [apply order_subscript|]. intros name.
  destruct (py_eq name _).
  { apply order_bind; [apply order_subscript|]. intros gas.
    apply order_bind; [apply order_lift|]. intros price. apply order_ret. }
  apply order_bind; [apply order_subscript|]. intros model.
  do 3 (apply order_bind; [apply order_resolve_path|]; intros _).
  apply order_bind; [apply order_subscript|]. intros fp.
  apply order_bind; [apply order_external|]. intros vs.
  do 24 (destruct vs as [|? vs]; [apply order_raise|]).
  destruct vs; [apply order_ret|apply order_raise].
Qed.

Lemma order_run_full (greenheart_config : val) (save_plots show_plots : bool)
    (output_dir : string) (design_scenario_id : Z) :
  stage_order [CapacityStage; CostStage; FinanceStage]
    (run_iron_win_full_model greenheart_config save_plots show_plots output_dir
       design_scenario_id).
Proof.
  unfold run_iron_win_full_model.
  do 6 (apply order_bind;
        [first [apply order_subscript|apply order_deepcopy]|]; intros ?).
  destruct (negb _); [apply order_raise|].
  repeat first
    [ apply order_invoke
    | apply order_bind;
      [first [ apply order_subscript | apply order_kwargs_of | apply order_lift
             | apply order_store_item | apply order_run_size
             | apply order_run_cost | apply order_external ]|]; intros ?
    | apply order_ret ].
Qed.

(** X14.  The orchestrator enters the stages in the order capacity, cost,
    finance, each one only after the one before it returned: whatever the
    configuration, the stages entered by a run are a prefix of these three,
    and all three when the run returns. *)
Theorem stages_run_in_order (greenheart_config : val)
    (save_plots show_plots : bool) (output_dir : string) (design_scenario_id : Z)
    (σ : state) :
  let outcome := run_iron_win_full_model greenheart_config save_plots show_plots
                   output_dir design_scenario_id σ in
  ∃ entered,
    st_trace outcome.2 = (st_trace σ ++ entered)%list
    ∧ entered `prefix_of` [CapacityStage; CostStage; FinanceStage]
    ∧ (∀ out, outcome.1 = Ok out →
         entered = [CapacityStage; CostStage; FinanceStage]).
Proof.
  pose proof (order_run_full greenheart_config save_plots show_plots output_dir
                design_scenario_id σ) as Horder.
  simpl. destruct (run_iron_win_full_model _ _ _ _ _ σ) as [[out|e] σ'].
  - eexists. split; [exact Horder|]. split; [done|]. done.
  - destruct Horder as (entered & Hpre & Htr). exists entered.
    split; [done|]. split; [done|]. by intros out.
Qed.

(** *** The orchestrator: a configuration without LCOH *)

Lemma subscript_copy_missing (h : heap) (S : gset loc) (l : loc) (d : dict)
    (k : string) (trace : list stage) :
  h !! l = Some d → d !! k = None → l ∈ S →
  subscript (VRef (relocate (top h) l)) k (mkState (h ∪ copy_objects h S) trace)
  = (Raise KeyError, mkState (h ∪ copy_objects h S) trace).
Proof.
  intros Hl Hk Hin. unfold subscript. cbn [st_heap].
  rewrite lookup_union_r by apply relocate_above.
  rewrite (copy_objects_lookup _ _ _ _ Hl Hin).
  by rewrite lookup_fmap, Hk.
Qed.

(** X15.  The error message of the consistency check says that the LCOH may
    be left out of both sections.  The check itself subscripts both: when
    the cost section or the finance section has no entry [lcoh], the
    orchestrator raises [KeyError], and no stage is entered. *)
Theorem missing_lcoh_is_key_error (greenheart_config : val)
    (save_plots show_plots : bool) (output_dir : string) (design_scenario_id : Z)
    (σ : state) (iron costs finances : loc) (cost_section finance_section : dict) :
  entry (st_heap σ) greenheart_config "iron" = Some (VRef iron) →
  entry (st_heap σ) (VRef iron) "costs" = Some (VRef costs) →
  entry (st_heap σ) (VRef iron) "finances" = Some (VRef finances) →
  st_heap σ !! costs = Some cost_section →
  st_heap σ !! finances = Some finance_section →
  cost_section !! "lcoh" = None ∨ finance_section !! "lcoh" = None →
  let outcome := run_iron_win_full_model greenheart_config save_plots show_plots
                   output_dir design_scenario_id σ in
  outcome.1 = Raise KeyError ∧ st_trace outcome.2 = st_trace σ.
Proof.
  intros Hiron Hcosts Hfin Hc Hf Hmissing.
  set (h := st_heap σ) in *.
  set (S := reachable h {[ iron ]}).
  set (σ1 := mkState (h ∪ copy_objects h S) (st_trace σ)).
  assert (iron ∈ S) as Hi by apply reachable_root.
  assert (costs ∈ S) as Hcs by (by eapply entry_ref_reachable).
  assert (finances ∈ S) as Hfs by (by eapply entry_ref_reachable).
  cbv zeta. unfold run_iron_win_full_model.
  erewrite bind_ok by (by apply subscript_entry).
  erewrite bind_ok by reflexivity. fold h S σ1. simpl val_relocate.
  erewrite bind_ok by (by apply subscript_entry, entry_deepcopy).
  simpl val_relocate.
  destruct (cost_section !! "lcoh") as [x|] eqn:Hx.
  - destruct Hmissing as [|Hy]; [done|].
    erewrite bind_ok.
    2:{ apply subscript_entry, entry_deepcopy; [|done].
        unfold entry. fold h. rewrite Hc. exact Hx. }
    erewrite bind_ok by (by apply subscript_entry, entry_deepcopy).
    simpl val_relocate.
    erewrite bind_raise by (by eapply subscript_copy_missing).
    done.
  - erewrite bind_raise by (by eapply subscript_copy_missing).
    done.
Qed.

(** *** The orchestrator: what each stage is handed *)

Lemma bind_inv {A B} (m : M A) (k : A → M B) (σ σ' : state) (b : B) :
  (m ≫= k) σ = (Ok b, σ') → ∃ a σ1, m σ = (Ok a, σ1) ∧ k a σ1 = (Ok b, σ').
Proof.
  unfold mbind, M_bind. destruct (m σ) as [[a|e] σ1]; [eauto|done].
Qed.

Lemma store_then_kwargs (v x : val) (k : string) (σ σ1 σ2 : state) (kw : dict) :
  store_item v k x σ = (Ok tt, σ1) → kwargs_of v σ1 = (Ok kw, σ2) →
  kw !! k = Some x.
Proof.
  unfold store_item, kwargs_of. destruct v as [| | | | |l|]; try done.
  destruct (st_heap σ !! l) as [d|]; [|done]. intros [= <-]. cbn [st_heap].
  rewrite lookup_insert_eq. intros [= <- _]. by rewrite lookup_insert_eq.
Qed.

Lemma capacity_config_of_kwargs_inv (fs : Feedstocks) (kw : dict)
    (config : IronWinCapacityModelConfig) :
  capacity_config_of_kwargs fs kw = Ok config → feedstocks config = fs.
Proof.
  unfold capacity_config_of_kwargs, new_IronWinCapacityModelConfig,
    mbind, result_bind.
  repeat case_match; intros; simplify_eq; done.
Qed.

Lemma cost_config_of_kwargs_inv (capacity : F) (kw : dict) (fs : Feedstocks)
    (config : IronWinCostModelConfig) :
  cost_config_of_kwargs capacity kw = Ok config →
  kw !! "feedstocks" = Some (VFeedstocks fs) →
  cost_feedstocks config = fs.
Proof.
  unfold cost_config_of_kwargs, mbind, result_bind. intros Hc Hfs.
  rewrite Hfs in Hc. repeat case_match; simplify_eq; done.
Qed.

Lemma finance_config_of_kwargs_inv (capacity capacity_factor production : F)
    (outputs : IronWinCostModelOutputs) (show save : bool) (dir : string)
    (scenario : Z) (kw : dict) (fs : Feedstocks)
    (config : IronWinFinanceModelConfig) :
  finance_config_of_kwargs capacity capacity_factor production outputs show save
    dir scenario kw = Ok config →
  kw !! "feedstocks" = Some (VFeedstocks fs) →
  fin_plant_capacity_mtpy config = capacity
  ∧ plant_capacity_factor config = capacity_factor
  ∧ iron_win_production_mtpy config = production
  ∧ costs config = outputs
  ∧ fin_feedstocks config = fs
  ∧ save_plots config = save ∧ show_plots config = show
  ∧ output_dir config = dir ∧ design_scenario_id config = scenario.
Proof.
  unfold finance_config_of_kwargs, mbind, result_bind. intros Hc Hfs.
  rewrite Hfs in Hc. repeat case_match; simplify_eq; done.
Qed.

(** X16.  When the orchestrator returns, its three results fit together:
    the capacity outputs are those of the sizing function on a
    configuration built from the capacity section; the cost outputs are
    those of the cost function at the sized capacity and the same
    feedstocks; and the finance outputs are those of the solver on a
    configuration holding the sized capacity, the capacity factor estimate,
    their product as production, these cost outputs, the same feedstocks
    and the caller's plot options, output directory and scenario id. *)
Theorem full_model_hand_over (greenheart_config : val) (save show : bool)
    (dir : string) (scenario : Z) (σ : state)
    (capacity : IronWinCapacityModelOutputs) (outputs : IronWinCostModelOutputs)
    (finance : IronWinFinanceModelOutputs) :
  (run_iron_win_full_model greenheart_config save show dir scenario σ).1
    = Ok (capacity, outputs, finance) →
  ∃ capacity_config cost_config finance_config σ1 σ2 σ3,
    (run_size_iron_win_plant_capacity capacity_config σ1).1 = Ok capacity
    ∧ (run_iron_win_cost_model cost_config σ2).1 = Ok outputs
    ∧ profast_solve finance_config (st_heap σ3) = Some finance
    ∧ plant_capacity_mtpy cost_config = iron_win_plant_capacity_mtpy capacity
    ∧ cost_feedstocks cost_config = feedstocks capacity_config
    ∧ fin_plant_capacity_mtpy finance_config
      = iron_win_plant_capacity_mtpy capacity
    ∧ plant_capacity_factor finance_config
      = input_capacity_factor_estimate capacity_config
    ∧ iron_win_production_mtpy finance_config
      = run_iron_win_model (iron_win_plant_capacity_mtpy capacity)
          (input_capacity_factor_estimate capacity_config)
    ∧ costs finance_config = outputs
    ∧ fin_feedstocks finance_config = feedstocks capacity_config
    ∧ save_plots finance_config = save ∧ show_plots finance_config = show
    ∧ output_dir finance_config = dir
    ∧ design_scenario_id finance_config = scenario.
Proof.
  destruct (run_iron_win_full_model _ _ _ _ _ σ) as [res σ'] eqn:H.
  simpl. intros ->. unfold run_iron_win_full_model in H.
  do 6 (apply bind_inv in H as (? & ? & _ & H)).
  destruct (negb _); [done|].
  do 4 (apply bind_inv in H as (? & ? & _ & H)).
  apply bind_inv in H as (fs & ? & _ & H).
  apply bind_inv in H as (capacity_kw & ? & _ & H).
  apply bind_inv in H as (capacity_config & ? & [= Hcap _] & H).
  apply bind_inv in H as (pm & ? & _ & H).
  apply bind_inv in H as ([] & ? & _ & H).
  apply bind_inv in H as (cap & σ1 & Hsize & H).
  apply bind_inv in H as ([] & ? & Hstore1 & H).
  apply bind_inv in H as (cost_kw & ? & Hkw1 & H).
  apply bind_inv in H as (cost_config & ? & [= Hcost _] & H).
  apply bind_inv in H as (cm & ? & _ & H).
  apply bind_inv in H as ([] & ? & _ & H).
  apply bind_inv in H as (out & σ2 & Hrun & H).
  apply bind_inv in H as (fin_entry & ? & _ & H).
  apply bind_inv in H as ([] & ? & Hstore2 & H).
  apply bind_inv in H as (fin_kw & ? & Hkw2 & H).
  apply bind_inv in H as (finance_config & ? & [= Hfin _] & H).
  apply bind_inv in H as ([] & σ3 & _ & H).
  apply bind_inv in H as (fin & ? & Hsolve & H).
  injection H as <- <- <- _.
  apply capacity_config_of_kwargs_inv in Hcap.
  pose proof (store_then_kwargs _ _ _ _ _ _ _ Hstore1 Hkw1) as Hfs1.
  pose proof (store_then_kwargs _ _ _ _ _ _ _ Hstore2 Hkw2) as Hfs2.
  apply (cost_config_of_kwargs_inv _ _ fs) in Hcost; [|done].
  apply (finance_config_of_kwargs_inv _ _ _ _ _ _ _ _ _ fs) in Hfin
    as (? & ? & ? & ? & ? & ? & ? & ? & ?); [|done].
  unfold run_iron_win_finance_model, external in Hsolve.
  destruct (profast_solve finance_config _) as [fin'|] eqn:Hs; [|done].
  injection Hsolve as <- <-.
  eexists _, _, finance_config, _, _, _.
  split; [by rewrite Hsize|]. split; [by rewrite Hrun|].
  split; [exact Hs|]. simpl. by rewrite Hcap.
Qed.

(** *** Stepping through a run *)

Lemma run_cost_placeholder (config : IronWinCostModelConfig) (σ : state)
    (prices : dict) (gas_price : F) :
  placeholder_named (cost_model config) σ →
  st_heap σ !! natural_gas_prices (cost_feedstocks config) = Some prices →
  prices !! pretty (operational_year config) = Some (VNum gas_price) →
  run_iron_win_cost_model config σ = (Ok (placeholder_costs config gas_price), σ).
Proof.
  intros Hp Hprices Hyear. unfold run_iron_win_cost_model.
  rewrite (bind_ok _ _ _ _ _ (subscript_name_placeholder _ _ Hp)), py_eq_placeholder.
  unfold mbind, M_bind, subscript, lift, mret, M_ret.
  by rewrite Hprices, Hyear.
Qed.

Lemma kwargs_of_present (l : loc) (h : heap) (trace : list stage) :
  bool_decide (is_Some (h !! l)) = true →
  kwargs_of (VRef l) (mkState h trace) = (Ok (kwargs_at h l), mkState h trace).
Proof.
  intros [d Hd]%bool_decide_eq_true. unfold kwargs_of, kwargs_at. cbn [st_heap].
  by rewrite Hd.
Qed.

Lemma store_item_present (l : loc) (k : string) (x : val) (h h' : heap)
    (trace : list stage) :
  bool_decide (is_Some (h !! l)) = true →
  h' = st_heap (store_item (VRef l) k x (mkState h [])).2 →
  store_item (VRef l) k x (mkState h trace) = (Ok tt, mkState h' trace).
Proof.
  intros [d Hd]%bool_decide_eq_true ->. unfold store_item. cbn [st_heap].
  by rewrite Hd.
Qed.

Lemma subscript_present (l : loc) (k : string) (x : val) (h : heap)
    (trace : list stage) :
  entry h (VRef l) k = Some x →
  subscript (VRef l) k (mkState h trace) = (Ok x, mkState h trace).
Proof. intros Hx. by apply subscript_entry. Qed.

(** *** The calls of the finance function *)

Lemma last_param_app (before after : list pf_call) (name : string) :
  last_param (before ++ after) name
  = match last_param after name with
    | Some value => Some value
    | None => last_param before name
    end.
Proof.
  induction before as [|call before IH]; simpl.
  - by destruct (last_param after name).
  - rewrite IH. by destruct (last_param after name).
Qed.

Lemma last_param_makedirs (paths : list string) (name : string) :
  last_param (makedirs <$> paths) name = None.
Proof.
  induction paths as [|p paths IH]; [done|].
  rewrite fmap_cons. cbn [last_param]. by rewrite IH.
Qed.

Lemma last_param_plot_calls (rt : runtime) (config : IronWinFinanceModelConfig)
    (name : string) :
  last_param (plot_calls rt config) name = None.
Proof.
  unfold plot_calls. destruct (_ || _); [|done].
  by rewrite last_param_app, last_param_makedirs.
Qed.

Lemma last_param_assumptions (rt : runtime) (d : dict) (name : string) :
  last_param (assumption_calls rt d) name
  = if bool_decide (name ∈ dict_keys rt d)
    then Some (PPassed (default VNone (d !! name))) else None.
Proof.
  unfold assumption_calls.
  induction (dict_keys rt d) as [|k keys IH]; [done|].
  rewrite fmap_cons. cbn [last_param].
  rewrite IH. destruct (decide (k = name)) as [->|Hne].
  - rewrite (bool_decide_eq_true_2 (name ∈ name :: keys)) by set_solver.
    by destruct (bool_decide (name ∈ keys)).
  - destruct (bool_decide (name ∈ keys)) eqn:Hin.
    + apply bool_decide_eq_true in Hin.
      by rewrite (bool_decide_eq_true_2 (name ∈ k :: keys)) by set_solver.
    + apply bool_decide_eq_false in Hin.
      by rewrite (bool_decide_eq_false_2 (name ∈ k :: keys)) by set_solver.
Qed.

Lemma finance_model_calls_inv (rt : runtime) (config : IronWinFinanceModelConfig)
    (h : heap) (calls : list pf_call) :
  finance_model_calls rt config h = inr calls →
  ∃ assumptions grid start,
    match financial_assumptions config with
    | None => assumptions = ∅
    | Some l => h !! l = Some assumptions
    end
    ∧ h !! grid_prices config = Some grid
    ∧ analysis_start rt config grid = inr start
    ∧ calls = (assumption_calls rt assumptions
               ++ parameter_calls config start
               ++ capital_item_calls (costs config)
               ++ fixed_cost_calls config
               ++ feedstock_calls config
               ++ [solve_price; get_summary_vals; get_cost_breakdown]
               ++ plot_calls rt config)%list.
Proof.
  unfold finance_model_calls. intros Hcalls.
  destruct (financial_assumptions config) as [l|].
  - destruct (h !! l) as [assumptions|]; [|done].
    destruct (h !! grid_prices config) as [grid|]; [|done].
    destruct (analysis_start rt config grid) as [e|start] eqn:Hstart; [done|].
    injection Hcalls as <-. by exists assumptions, grid, start.
  - destruct (h !! grid_prices config) as [grid|]; [|done].
    destruct (analysis_start rt config grid) as [e|start] eqn:Hstart; [done|].
    injection Hcalls as <-. by exists ∅, grid, start.
Qed.

Lemma last_param_after_parameters (rt : runtime)
    (config : IronWinFinanceModelConfig) (name : string) :
  last_param (capital_item_calls (costs config)
              ++ fixed_cost_calls config
              ++ feedstock_calls config
              ++ [solve_price; get_summary_vals; get_cost_breakdown]
              ++ plot_calls rt config) name = None.
Proof.
  rewrite !last_param_app, last_param_plot_calls. done.
Qed.

Lemma last_param_own (config : IronWinFinanceModelConfig) (start : Z)
    (name : string) :
  name ∈ own_parameters →
  is_Some (last_param (parameter_calls config start) name).
Proof.
  unfold own_parameters. rewrite !elem_of_cons, elem_of_nil.
  intros H. repeat (destruct H as [->|H]; [by eexists|]). done.
Qed.

Lemma last_param_not_own (config : IronWinFinanceModelConfig) (start : Z)
    (name : string) :
  name ∉ own_parameters →
  last_param (parameter_calls config start) name = None.
Proof.
  unfold own_parameters. rewrite !not_elem_of_cons. intros H.
  unfold parameter_calls. cbn [last_param].
  destruct_and!.
  repeat (rewrite decide_False by congruence).
  done.
Qed.

(** X17.  The caller's financial assumptions are applied first and the
    function's own parameters after them.  So, [set_params] keeping the
    last value, each of the 22 parameters the function sets has the
    function's value whatever the assumptions hold (the general inflation
    rate is [gen_inflation], not an assumption of that name), and an
    assumption under any other name stands. *)
Theorem own_parameters_win (rt : runtime) (config : IronWinFinanceModelConfig)
    (h : heap) (calls : list pf_call) :
  finance_model_calls rt config h = inr calls →
  ∃ start,
    analysis_start rt config (default ∅ (h !! grid_prices config)) = inr start
    ∧ (∀ name, name ∈ own_parameters →
         is_Some (last_param calls name)
         ∧ last_param calls name
           = last_param (parameter_calls config start) name)
    ∧ last_param calls "general inflation rate"
      = Some (PScalar (PNum (gen_inflation config)))
    ∧ (∀ l assumptions name value,
         financial_assumptions config = Some l →
         h !! l = Some assumptions →
         name ∈ dict_keys rt assumptions → name ∉ own_parameters →
         assumptions !! name = Some value →
         last_param calls name = Some (PPassed value)).
Proof.
  clear model_locs performance_model_main cost_model_main profast_solve.
  intros (assumptions & grid & start & Ha & Hgrid & Hstart & ->)%finance_model_calls_inv.
  exists start. rewrite Hgrid. split; [done|].
  assert (∀ name, name ∈ own_parameters →
            is_Some (last_param (parameter_calls config start) name)
            ∧ last_param (assumption_calls rt assumptions
                          ++ parameter_calls config start
                          ++ capital_item_calls (costs config)
                          ++ fixed_cost_calls config
                          ++ feedstock_calls config
                          ++ [solve_price; get_summary_vals; get_cost_breakdown]
                          ++ plot_calls rt config) name
              = last_param (parameter_calls config start) name) as Hown.
  { intros name Hname.
    pose proof (last_param_own config start name Hname) as [value Hvalue].
    split; [by eexists|].
    rewrite last_param_app, (last_param_app (parameter_calls config start)).
    by rewrite last_param_after_parameters, Hvalue. }
  split; [|split].
  - intros name Hname. destruct (Hown name Hname) as [Hsome Heq].
    split; [by rewrite Heq|done].
  - assert ("general inflation rate" ∈ own_parameters) as Hin
      by (by apply (list_elem_of_lookup_2 _ 19%nat)).
    by rewrite (proj2 (Hown _ Hin)).
  - intros l d name value Hl Hd Hin Hnot Hvalue. rewrite Hl in Ha.
    assert (d = assumptions) as -> by congruence.
    rewrite last_param_app, (last_param_app (parameter_calls config start)).
    rewrite last_param_after_parameters, last_param_not_own by done.
    rewrite last_param_assumptions, bool_decide_eq_true_2 by done.
    by rewrite Hvalue.
Qed.

(** X18.  The finance function does not read the production, the
    integration flag, the electricity unit cost of the feedstocks (the
    electricity feedstock is priced by the grid price table), nor the
    totals and one-month costs of the cost outputs: with any other values
    for them it makes the same calls.  The production that the orchestrator
    computes reaches the solver only through capacity and capacity
    factor. *)
Theorem unread_attributes (rt : runtime) (production : F) (flag : bool)
    (electricity : F) (totals : IronWinCostModelOutputs)
    (config : IronWinFinanceModelConfig) (h : heap) :
  finance_model_calls rt
    (with_unread_attributes production flag electricity totals config) h
  = finance_model_calls rt config h.
Proof. reflexivity. Qed.


Lemma writes_files_assumptions (rt : runtime) (d : dict) :
  Forall (λ call, writes_files call = false) (assumption_calls rt d).
Proof. unfold assumption_calls. by apply Forall_fmap, Forall_true. Qed.

(** X20.  Directories are made and files written only on request, and on
    either request: with [save_plots] and [show_plots] both false no call
    touches the file system; with either one true, also [show_plots] alone,
    each of the four save paths that does not exist is created, the cash
    flow is written to a CSV file and the three plots are drawn with a file
    to write to. *)
Theorem files_on_request (rt : runtime) (config : IronWinFinanceModelConfig)
    (h : heap) (calls : list pf_call) :
  finance_model_calls rt config h = inr calls →
  (save_plots config || show_plots config = false →
     Forall (λ call, writes_files call = false) calls)
  ∧ (save_plots config || show_plots config = true →
     (∀ savepath, savepath ∈ savepaths config →
        path_exists rt savepath = false → makedirs savepath ∈ calls)
     ∧ to_csv (output_dir config +:+ "data/" +:+ "iron_win_cash_flow_"
               +:+ pretty (design_scenario_id config) +:+ ".csv") ∈ calls
     ∧ plot_capital_expenses
         (output_dir config +:+ "figures/capex/"
          +:+ "iron_win_capital_expense_"
          +:+ pretty (design_scenario_id config) +:+ ".pdf")
         (show_plots config) ∈ calls
     ∧ plot_cashflow
         (output_dir config +:+ "figures/annual_cash_flow/"
          +:+ "iron_win_cash_flow_"
          +:+ pretty (design_scenario_id config) +:+ ".png")
         (show_plots config) ∈ calls
     ∧ plot_costs
         (output_dir config +:+ "figures/lcos_breakdown/" +:+ "lcos_"
          +:+ pretty (design_scenario_id config))
         (show_plots config) ∈ calls).
Proof.
  clear model_locs performance_model_main cost_model_main profast_solve.
  intros (assumptions & grid & start & _ & _ & _ & ->)%finance_model_calls_inv.
  split; intros Hrequest.
  - unfold plot_calls. rewrite Hrequest, app_nil_r.
    apply Forall_app. split; [apply writes_files_assumptions|].
    unfold parameter_calls, capital_item_calls, fixed_cost_calls,
      feedstock_calls. cbn [app]. by repeat constructor.
  - assert (∀ call, call ∈ plot_calls rt config →
              call ∈ (assumption_calls rt assumptions
                      ++ parameter_calls config start
                      ++ capital_item_calls (costs config)
                      ++ fixed_cost_calls config
                      ++ feedstock_calls config
                      ++ [solve_price; get_summary_vals; get_cost_breakdown]
                      ++ plot_calls rt config)%list) as Hin.
    { intros call Hcall. rewrite !elem_of_app. by do 6 right. }
    split; [|split; [|split; [|split]]].
    + intros savepath Hpath Hmissing. apply Hin.
      unfold plot_calls. rewrite Hrequest. apply elem_of_app. left.
      by apply list_elem_of_fmap_2, list_elem_of_filter.
    + apply Hin. unfold plot_calls. rewrite Hrequest.
      apply elem_of_app. right. by apply (list_elem_of_lookup_2 _ 2%nat).
    + apply Hin. unfold plot_calls. rewrite Hrequest.
      apply elem_of_app. right. by apply (list_elem_of_lookup_2 _ 0%nat).
    + apply Hin. unfold plot_calls. rewrite Hrequest.
      apply elem_of_app. right. by apply (list_elem_of_lookup_2 _ 1%nat).
    + apply Hin. unfold plot_calls. rewrite Hrequest.
      apply elem_of_app. right. by apply (list_elem_of_lookup_2 _ 3%nat).
Qed.

Lemma capital_costs_assumptions (rt : runtime) (d : dict) :
  capital_costs (assumption_calls rt d) = []
  ∧ fixed_costs (assumption_calls rt d) = [].
Proof.
  unfold assumption_calls, capital_costs, fixed_costs.
  induction (dict_keys rt d) as [|k keys [IH1 IH2]]; [done|].
  rewrite fmap_cons. cbn [omap list_omap]. done.
Qed.

Lemma capital_costs_plots (rt : runtime) (config : IronWinFinanceModelConfig) :
  capital_costs (plot_calls rt config) = []
  ∧ fixed_costs (plot_calls rt config) = [].
Proof.
  unfold plot_calls, capital_costs, fixed_costs.
  destruct (_ || _); [|done]. rewrite !omap_app.
  induction (filter _ _) as [|p paths [IH1 IH2]]; [done|].
  rewrite fmap_cons. cbn [omap list_omap app] in *. done.
Qed.

Lemma finance_cost_items (rt : runtime) (config : IronWinFinanceModelConfig)
    (h : heap) (calls : list pf_call) :
  finance_model_calls rt config h = inr calls →
  capital_costs calls
  = [capex_eaf_casting (costs config); capex_shaft_furnace (costs config);
     capex_oxygen_supply (costs config); capex_h2_preheating (costs config);
     capex_cooling_tower (costs config); capex_piping (costs config);
     capex_elec_instr (costs config);
     capex_buildings_storage_water (costs config); capex_misc (costs config)]
  ∧ fixed_costs calls
    = [labor_cost_annual_operation (costs config);
       labor_cost_maintenance (costs config);
       labor_cost_admin_support (costs config);
       property_tax_insurance (costs config)].
Proof.
  clear model_locs performance_model_main cost_model_main profast_solve.
  intros (assumptions & grid & start & _ & _ & _ & ->)%finance_model_calls_inv.
  destruct (capital_costs_assumptions rt assumptions) as [Ha1 Ha2].
  destruct (capital_costs_plots rt config) as [Hp1 Hp2].
  unfold capital_costs, fixed_costs in *.
  rewrite !omap_app, Ha1, Ha2, Hp1, Hp2. done.
Qed.

(** X21.  What the cost stage totals is what the solver is given piece by
    piece: with the outputs of the placeholder cost model as [costs], the
    costs of the nine capital items registered with the solver, added from
    the left in the order of registration, are [total_plant_cost], and those
    of the four fixed costs [total_fixed_operating_cost], in the arithmetic
    of the code; neither total is passed itself. *)
Theorem registered_costs_add_up (rt : runtime)
    (cost_config : IronWinCostModelConfig) (σ σ' : state)
    (config : IronWinFinanceModelConfig) (h : heap) (calls : list pf_call) :
  placeholder_named (cost_model cost_config) σ →
  run_iron_win_cost_model cost_config σ = (Ok (costs config), σ') →
  finance_model_calls rt config h = inr calls →
  (∃ first rest,
     capital_costs calls = first :: rest ∧ length rest = 8%nat
     ∧ foldl f_add first rest = total_plant_cost (costs config))
  ∧ (∃ first rest,
     fixed_costs calls = first :: rest ∧ length rest = 3%nat
     ∧ foldl f_add first rest = total_fixed_operating_cost (costs config)).
Proof.
  clear performance_model_main profast_solve.
  intros Hp Hrun [Hcapital Hfixed]%finance_cost_items.
  rewrite Hcapital, Hfixed.
  apply run_cost_placeholder_inv in Hrun as (gas & -> & _); [|done].
  split; eexists _, _; (split; [reflexivity|]); split; reflexivity.
Qed.

Lemma ledger_run (outputs : IronWinCostModelOutputs) :
  finance_model_calls ledger_runtime (ledger_config outputs) ledger_heap
  = inr (ledger_calls outputs).
Proof.
  unfold finance_model_calls, analysis_start.
  cbn [financial_assumptions grid_prices ledger_config].
  assert (ledger_heap !! 2%positive = Some (kwargs_at ledger_heap 2)) as ->.
  { unfold kwargs_at. by destruct (ledger_heap !! 2%positive) eqn:H. }
  assert (ledger_heap !! 1%positive = Some (kwargs_at ledger_heap 1)) as ->.
  { unfold kwargs_at. by destruct (ledger_heap !! 1%positive) eqn:H. }
  assert (dict_keys ledger_runtime (kwargs_at ledger_heap 1) = ["2035"]) as ->
    by (vm_compute; reflexivity).
  reflexivity.
Qed.

End Model.

(** * Exact real arithmetic *)

Section RealArithmetic.
Variable model_locs : gmap string (gmap string (gmap string string)).
Variable performance_model_main :
  @val R → @IronWinCapacityModelConfig R → gmap loc (gmap string (@val R))
  → option (list R).
Variable cost_model_main :
  @val R → @IronWinCostModelConfig R → gmap loc (gmap string (@val R))
  → option (list R).
Local Open Scope R_scope.

Lemma truthy_nonzero (x : R) : x ≠ 0 → f_truthy x = true.
Proof. intros Hx. simpl. by destruct (Req_dec_T x 0). Qed.

Lemma falsy_zero : f_truthy 0 = false.
Proof. simpl. by destruct (Req_dec_T 0 0). Qed.

Lemma Q2R_1000 : Q2R 1000 = 1000.
Proof. unfold Q2R. simpl. lra. Qed.

(** Both directions of the placeholder sizing, and what the second returns
    when fed the production [capacity * capacity_factor] of the first. *)
Lemma round_trip_values (cf : R) (fs : Feedstocks) (pm : val) (σ : state)
    (supply : R) :
  placeholder_named pm σ →
  0 < hydrogen_consumption fs → 0 < cf → supply ≠ 0 →
  let capacity := supply / 1000 / hydrogen_consumption fs * cf in
  run_size_iron_win_plant_capacity model_locs performance_model_main
    (mkCapacityConfig cf fs (Some supply) None pm) σ
  = (Ok (mkCapacityOutputs capacity supply), σ)
  ∧ ∃ out,
      run_size_iron_win_plant_capacity model_locs performance_model_main
        (mkCapacityConfig cf fs None (Some (capacity * cf)) pm) σ
      = (Ok out, σ)
      ∧ iron_win_plant_capacity_mtpy out = capacity
      ∧ hydrogen_amount_kgpy_out out = supply * cf.
Proof.
  intros Hp Hh Hcf Hs capacity.
  assert (capacity ≠ 0) as Hc.
  { unfold capacity, Rdiv.
    repeat apply Rmult_integral_contrapositive_currified; try lra.
    apply Rinv_neq_0_compat. lra. }
  assert (f_truthy supply = true) as Hts by (by apply truthy_nonzero).
  assert (f_truthy (hydrogen_consumption fs) = true) as Hth
    by (apply truthy_nonzero; lra).
  assert (f_truthy cf = true) as Htc by (apply truthy_nonzero; lra).
  assert (f_truthy (capacity * cf) = true) as Htd.
  { apply truthy_nonzero, Rmult_integral_contrapositive_currified; lra. }
  split.
  - rewrite run_size_placeholder by done.
    rewrite (placeholder_capacity_supply
               (mkCapacityConfig cf fs (Some supply) None pm) supply
               eq_refl Hts eq_refl Hth).
    cbn [f_div f_mul f_lit R_PyFloat feedstocks input_capacity_factor_estimate].
    by rewrite Q2R_1000.
  - eexists. rewrite run_size_placeholder by done.
    rewrite (placeholder_capacity_demand
               (mkCapacityConfig cf fs None (Some (capacity * cf)) pm)
               (capacity * cf) eq_refl Htd eq_refl Htc).
    split; [done|].
    cbn [f_div f_mul f_lit R_PyFloat feedstocks input_capacity_factor_estimate
         iron_win_plant_capacity_mtpy hydrogen_amount_kgpy_out].
    rewrite Q2R_1000. unfold capacity. split; field; lra.
Qed.

Lemma sample_placeholder : placeholder_named (F:=R) (VRef 6) sample_state.
Proof. eexists 6%positive, _. repeat split; reflexivity. Qed.

Lemma sample_rates :
  0 < hydrogen_consumption (default_feedstocks (F:=R) 9) ∧ 0 < Q2R 0.9.
Proof. simpl. unfold Q2R. simpl. lra. Qed.

(** C2, as the code has it.  For a positive hydrogen consumption rate and
    capacity factor, sizing in supply mode from a hydrogen amount [supply]
    and then in demand mode from the product quantity
    [capacity * capacity_factor] returns the same plant capacity, and the
    hydrogen amount [supply * capacity_factor]: the supply itself only when
    the capacity factor is 1. *)
Theorem sizing_round_trip (cf : R) (fs : Feedstocks) (pm : val) (σ : state)
    (supply : R) :
  placeholder_named pm σ →
  0 < hydrogen_consumption fs → 0 < cf → supply ≠ 0 →
  ∃ first second,
    run_size_iron_win_plant_capacity model_locs performance_model_main
      (mkCapacityConfig cf fs (Some supply) None pm) σ = (Ok first, σ)
    ∧ run_size_iron_win_plant_capacity model_locs performance_model_main
        (mkCapacityConfig cf fs None
           (Some (iron_win_plant_capacity_mtpy first * cf)) pm) σ
      = (Ok second, σ)
    ∧ iron_win_plant_capacity_mtpy second = iron_win_plant_capacity_mtpy first
    ∧ hydrogen_amount_kgpy_out second = supply * cf
    ∧ (hydrogen_amount_kgpy_out second = supply ↔ cf = 1).
Proof.
  intros Hp Hh Hcf Hs.
  destruct (round_trip_values cf fs pm σ supply Hp Hh Hcf Hs)
    as (Hfirst & second & Hsecond & Hcap & Hhyd).
  eexists _, second. split; [exact Hfirst|]. split; [exact Hsecond|].
  split; [exact Hcap|]. split; [exact Hhyd|].
  rewrite Hhyd. split.
  - intros Heq. apply (Rmult_eq_reg_l supply); [lra|done].
  - intros ->. lra.
Qed.


(** ** The placeholder cost curves *)

Lemma Rpower_scale (x y e : R) :
  0 < x < y → 0 < e < 1 →
  0 < Rpower x e < Rpower y e ∧ Rpower y e * / y < Rpower x e * / x.
Proof.
  intros [Hx Hxy] [He0 He1]. split.
  - split; [apply exp_pos|by apply Rlt_Rpower_l].
  - assert (∀ z, 0 < z → Rpower z e * / z = / Rpower z (1 - e)) as Hdiv.
    { intros z Hz. rewrite <- Rpower_Ropp.
      replace (- (1 - e)) with (e + - (1)) by lra.
      by rewrite Rpower_plus, Rpower_Ropp, Rpower_1. }
    rewrite !Hdiv by lra.
    apply Rinv_lt_contravar.
    + apply Rmult_lt_0_compat; apply exp_pos.
    + apply Rlt_Rpower_l; lra.
Qed.

(** The labor curve is a power law through the reference plant. *)
Lemma labor_curve (c : R) :
  0 < c →
  Q2R 69375996.9 * Rpower (c / Q2R 365 * Q2R 1000) (Q2R 0.25242)
    / Rpower (Q2R 1162077 / Q2R 365 * Q2R 1000) (Q2R 0.25242)
  = Q2R 69375996.9 * Rpower (c / Q2R 1162077) (Q2R 0.25242).
Proof.
  intros Hc.
  assert (0 < Q2R 365 ∧ 0 < Q2R 1000 ∧ 0 < Q2R 1162077) as (H1 & H2 & H3).
  { unfold Q2R; simpl; lra. }
  assert (0 < Q2R 1162077 / Q2R 365 * Q2R 1000) as Href.
  { apply Rmult_lt_0_compat; [apply Rdiv_lt_0_compat|]; lra. }
  replace (c / Q2R 365 * Q2R 1000)
    with (c / Q2R 1162077 * (Q2R 1162077 / Q2R 365 * Q2R 1000)) by (field; lra).
  rewrite <- Rpower_mult_distr; [|apply Rdiv_lt_0_compat; lra|done].
  field. apply Rgt_not_eq, exp_pos.
Qed.

(** X10.  The fixed-cost formulas of the placeholder model, read over the
    real numbers (the binary64 results of the code agree with them up to
    rounding only): for a positive plant capacity the
    labor cost is the power law 69375996.9 (capacity / 1162077) ^ 0.25242,
    and the total fixed operating cost is 1.25 times the labor cost plus
    3.07875% of the total plant cost. *)
Theorem fixed_cost_closed_form (config : IronWinCostModelConfig)
    (σ σ' : state) (out : IronWinCostModelOutputs) :
  0 < plant_capacity_mtpy config →
  placeholder_named (cost_model config) σ →
  run_iron_win_cost_model model_locs cost_model_main config σ = (Ok out, σ') →
  labor_cost_annual_operation out
    = 69375996.9 * Rpower (plant_capacity_mtpy config / 1162077) 0.25242
  ∧ total_fixed_operating_cost out
    = 1.25 * labor_cost_annual_operation out + 0.0307875 * total_plant_cost out.
Proof.
  intros Hcap Hp Hrun.
  apply run_cost_placeholder_inv in Hrun as (gas & -> & _); [|done].
  unfold placeholder_costs.
  cbn [labor_cost_annual_operation total_fixed_operating_cost total_plant_cost
       f_add f_sub f_mul f_div f_pow f_lit R_PyFloat].
  rewrite (labor_curve _ Hcap).
  assert (Q2R 1162077 = 1162077) as -> by (unfold Q2R; simpl; lra).
  split; [done|].
  repeat match goal with
         | |- context [Rpower ?x ?y] => generalize (Rpower x y); intros ?
         end.
  unfold Q2R; simpl Qnum; simpl Qden.
  destruct (o2_heat_integration config); lra.
Qed.

(** X11.  Economies of scale of the cost curves, read over the real numbers
    (in binary64 rounding can absorb a difference).
    Two placeholder runs that differ in the plant capacity, with a
    miscellaneous capex that is not negative: the larger plant has the
    larger total plant cost and total fixed operating cost, and the smaller
    cost of both per tonne of capacity, every exponent of the cost curves
    being below one. *)
Theorem costs_scale_with_capacity (config1 config2 : IronWinCostModelConfig)
    (σ1 σ1' σ2 σ2' : state) (out1 out2 : IronWinCostModelOutputs) :
  placeholder_named (cost_model config1) σ1 →
  placeholder_named (cost_model config2) σ2 →
  o2_heat_integration config1 = o2_heat_integration config2 →
  capex_misc_in config1 = capex_misc_in config2 →
  0 <= capex_misc_in config1 →
  0 < plant_capacity_mtpy config1 < plant_capacity_mtpy config2 →
  run_iron_win_cost_model model_locs cost_model_main config1 σ1 = (Ok out1, σ1') →
  run_iron_win_cost_model model_locs cost_model_main config2 σ2 = (Ok out2, σ2') →
  0 < total_plant_cost out1 < total_plant_cost out2
  ∧ 0 < total_fixed_operating_cost out1 < total_fixed_operating_cost out2
  ∧ total_plant_cost out2 / plant_capacity_mtpy config2
    < total_plant_cost out1 / plant_capacity_mtpy config1
  ∧ total_fixed_operating_cost out2 / plant_capacity_mtpy config2
    < total_fixed_operating_cost out1 / plant_capacity_mtpy config1.
Proof.
  intros Hp1 Hp2 Hflag Hmisc Hm Hcap Hr1 Hr2.
  apply run_cost_placeholder_inv in Hr1 as (g1 & -> & _); [|done].
  apply run_cost_placeholder_inv in Hr2 as (g2 & -> & _); [|done].
  unfold placeholder_costs.
  cbn [total_fixed_operating_cost total_plant_cost
       f_add f_sub f_mul f_div f_pow f_lit R_PyFloat].
  rewrite !labor_curve by lra. rewrite <- Hflag, <- Hmisc.
  set (x := plant_capacity_mtpy config1) in *.
  set (y := plant_capacity_mtpy config2) in *.
  set (m := capex_misc_in config1) in *.
  assert (0 < Q2R 1162077) as Href by (unfold Q2R; simpl; lra).
  assert (0 < / Q2R 1162077) as Hinv by (by apply Rinv_0_lt_compat).
  assert (∀ e, 0 < e < 1 →
            Rpower (x / Q2R 1162077) e = Rpower x e * Rpower (/ Q2R 1162077) e
            ∧ Rpower (y / Q2R 1162077) e = Rpower y e * Rpower (/ Q2R 1162077) e)
    as Hsplit.
  { intros e He. unfold Rdiv. rewrite <- !Rpower_mult_distr; (done || lra). }
  destruct (Hsplit (Q2R 0.25242)) as [-> ->]; [unfold Q2R; simpl; lra|].
  pose proof (exp_pos (Q2R 0.25242 * ln (/ Q2R 1162077))) as Hk.
  fold (Rpower (/ Q2R 1162077) (Q2R 0.25242)) in Hk.
  set (k := Rpower (/ Q2R 1162077) (Q2R 0.25242)) in *.
  assert (0 < / x ∧ / y < / x) as [Hix Hiy].
  { split; [apply Rinv_0_lt_compat; lra|apply Rinv_lt_contravar; [nra|lra]]. }
  assert (m * / y <= m * / x) as Hmy by nra.
  assert (∀ e, 0 < e < 1 →
            0 < k * Rpower x e < k * Rpower y e
            ∧ k * Rpower y e * / y < k * Rpower x e * / x) as Hlabor.
  { intros e He. destruct (Rpower_scale x y e Hcap He) as [[? ?] ?].
    split; [split|]; nra. }
  destruct (Hlabor (Q2R 0.25242)) as [[Hl1 Hl2] Hl3]; [unfold Q2R; simpl; lra|].
  clear Hlabor Hsplit.
  destruct (Rpower_scale x y (Q2R 0.456) Hcap) as [[? ?] ?]; [unfold Q2R; simpl; lra|].
  destruct (Rpower_scale x y (Q2R 0.88741) Hcap) as [[? ?] ?]; [unfold Q2R; simpl; lra|].
  destruct (Rpower_scale x y (Q2R 0.64574) Hcap) as [[? ?] ?]; [unfold Q2R; simpl; lra|].
  destruct (Rpower_scale x y (Q2R 0.86564) Hcap) as [[? ?] ?]; [unfold Q2R; simpl; lra|].
  destruct (Rpower_scale x y (Q2R 0.63325) Hcap) as [[? ?] ?]; [unfold Q2R; simpl; lra|].
  destruct (Rpower_scale x y (Q2R 0.59983) Hcap) as [[? ?] ?]; [unfold Q2R; simpl; lra|].
  destruct (Rpower_scale x y (Q2R 0.8) Hcap) as [[? ?] ?]; [unfold Q2R; simpl; lra|].
  repeat match goal with
         | |- context [?a / y] => change (a / y) with (a * / y)
         | |- context [?a / x] => change (a / x) with (a * / x)
         end.
  repeat match goal with
         | |- context [Rpower ?a ?b] =>
             let p := fresh "p" in set (p := Rpower a b) in *; clearbody p
         end.
  generalize dependent (/ x). generalize dependent (/ y). intros iy ix.
  unfold Q2R; simpl Qnum; simpl Qden. intros.
  destruct (o2_heat_integration config1); repeat split; lra.
Qed.

(** X12.  The integration flag and the totals, read over the real numbers
    (in binary64 the equation holds up to rounding and rounding can absorb a
    decrease).  With the flag the total plant cost
    is lower by 40% of the hydrogen preheating item and 30% of the cooling
    tower item of the run without it, and the totals that are fractions of
    it follow: the total fixed operating cost and the installation cost are
    lower too, while the labor cost of operation and the land cost are the
    same. *)
Theorem integration_flag_totals (config : IronWinCostModelConfig)
    (σ σ_on σ_off : state) (on off : IronWinCostModelOutputs) :
  0 < plant_capacity_mtpy config →
  placeholder_named (cost_model config) σ →
  run_iron_win_cost_model model_locs cost_model_main
    (with_o2_heat_integration true config) σ = (Ok on, σ_on) →
  run_iron_win_cost_model model_locs cost_model_main
    (with_o2_heat_integration false config) σ = (Ok off, σ_off) →
  total_plant_cost on
    = total_plant_cost off - 0.4 * capex_h2_preheating off
      - 0.3 * capex_cooling_tower off
  ∧ total_plant_cost on < total_plant_cost off
  ∧ total_fixed_operating_cost on < total_fixed_operating_cost off
  ∧ installation_cost on < installation_cost off
  ∧ labor_cost_annual_operation on = labor_cost_annual_operation off
  ∧ land_cost on = land_cost off.
Proof.
  intros Hcap Hp Hon Hoff.
  apply run_cost_placeholder_inv in Hon as (g_on & -> & _); [|done].
  apply run_cost_placeholder_inv in Hoff as (g_off & -> & _); [|done].
  unfold placeholder_costs, fuel_consumables_60day_supply_cost.
  cbn [total_plant_cost total_fixed_operating_cost installation_cost
       labor_cost_annual_operation land_cost capex_h2_preheating
       capex_cooling_tower with_o2_heat_integration
       o2_heat_integration plant_capacity_mtpy capex_misc_in cost_feedstocks
       f_add f_sub f_mul f_div f_pow f_lit R_PyFloat].
  pose proof (exp_pos (Q2R 0.86564 * ln (plant_capacity_mtpy config))) as Hp1.
  pose proof (exp_pos (Q2R 0.63325 * ln (plant_capacity_mtpy config))) as Hp2.
  fold (Rpower (plant_capacity_mtpy config) (Q2R 0.86564)) in Hp1.
  fold (Rpower (plant_capacity_mtpy config) (Q2R 0.63325)) in Hp2.
  repeat match goal with
         | |- context [Rpower ?a ?b] =>
             let p := fresh "p" in set (p := Rpower a b) in *; clearbody p
         end.
  generalize (consumables_unit_cost (cost_feedstocks config)); intros u.
  generalize dependent (plant_capacity_mtpy config); intros c _.
  unfold Q2R; simpl Qnum; simpl Qden. intros.
  repeat split; lra.
Qed.

(** X13.  Sizing and production together, for positive consumption rate
    and capacity factor, read over the real numbers (the code computes
    [demand / capacity_factor * capacity_factor] in binary64, which is the
    demand up to rounding only).  In demand mode the
    production
    [capacity * capacity_factor] computed from the sized plant is the
    demand, and the hydrogen amount returned is what the plant consumes at
    full capacity.  In supply mode the capacity factor enters twice: the
    production is [supply / 1000 / rate * capacity_factor ^ 2], and the
    plant at full capacity consumes [supply * capacity_factor]. *)
Theorem sizing_then_production (cf : R) (fs : Feedstocks) (pm : val)
    (σ : state) (quantity : R) :
  placeholder_named pm σ →
  0 < hydrogen_consumption fs → 0 < cf → quantity ≠ 0 →
  (∃ out,
     run_size_iron_win_plant_capacity model_locs performance_model_main
       (mkCapacityConfig cf fs None (Some quantity) pm) σ = (Ok out, σ)
     ∧ run_iron_win_model (iron_win_plant_capacity_mtpy out) cf = quantity
     ∧ hydrogen_amount_kgpy_out out
       = iron_win_plant_capacity_mtpy out * 1000 * hydrogen_consumption fs)
  ∧ (∃ out,
     run_size_iron_win_plant_capacity model_locs performance_model_main
       (mkCapacityConfig cf fs (Some quantity) None pm) σ = (Ok out, σ)
     ∧ run_iron_win_model (iron_win_plant_capacity_mtpy out) cf
       = quantity / 1000 / hydrogen_consumption fs * cf * cf
     ∧ iron_win_plant_capacity_mtpy out * 1000 * hydrogen_consumption fs
       = hydrogen_amount_kgpy_out out * cf).
Proof.
  intros Hp Hh Hcf Hq.
  assert (f_truthy quantity = true) as Htq by (by apply truthy_nonzero).
  assert (f_truthy (hydrogen_consumption fs) = true) as Hth
    by (apply truthy_nonzero; lra).
  assert (f_truthy cf = true) as Htc by (apply truthy_nonzero; lra).
  split; eexists; rewrite run_size_placeholder by done.
  - rewrite (placeholder_capacity_demand
               (mkCapacityConfig cf fs None (Some quantity) pm)
               quantity eq_refl Htq eq_refl Htc).
    split; [done|]. unfold run_iron_win_model.
    cbn [f_div f_mul f_lit R_PyFloat feedstocks input_capacity_factor_estimate
         iron_win_plant_capacity_mtpy hydrogen_amount_kgpy_out].
    rewrite Q2R_1000. split; field; lra.
  - rewrite (placeholder_capacity_supply
               (mkCapacityConfig cf fs (Some quantity) None pm) quantity
               eq_refl Htq eq_refl Hth).
    split; [done|]. unfold run_iron_win_model.
    cbn [f_div f_mul f_lit R_PyFloat feedstocks input_capacity_factor_estimate
         iron_win_plant_capacity_mtpy hydrogen_amount_kgpy_out].
    rewrite Q2R_1000. split; field; lra.
Qed.

End RealArithmetic.

(** * The theorems at the sample configuration *)

Local Open Scope R_scope.

Lemma sample_cost_run (flag : bool) :
  run_iron_win_cost_model (F:=R) no_registry no_model
    (with_o2_heat_integration flag sample_cost_config) sample_state
  = (Ok (sample_cost_outputs flag), sample_state).
Proof. reflexivity. Qed.

Lemma cost_additivity_witness :
  total_plant_cost (sample_cost_outputs (F:=R) true)
    = capital_items_sum (sample_cost_outputs true)
  ∧ total_fixed_operating_cost (sample_cost_outputs (F:=R) true)
    = fixed_items_sum (sample_cost_outputs true).
Proof.
  apply (cost_additivity no_registry no_model
           (with_o2_heat_integration true sample_cost_config)
           sample_state sample_state).
  - apply sample_placeholder.
  - left. apply sample_cost_run.
Defined.

Lemma sizing_round_trip_counterexample :
  ∃ first second,
    run_size_iron_win_plant_capacity (F:=R) no_registry no_model
      (sample_capacity_config (Some 65960) None) sample_state
    = (Ok first, sample_state)
    ∧ run_size_iron_win_plant_capacity no_registry no_model
        (sample_capacity_config None
           (Some (iron_win_plant_capacity_mtpy first * Q2R 0.9))) sample_state
      = (Ok second, sample_state)
    ∧ hydrogen_amount_kgpy_out second = 59364
    ∧ hydrogen_amount_kgpy_out second ≠ 65960.
Proof.
  destruct sample_rates as [Hh Hcf].
  destruct (round_trip_values no_registry no_model (Q2R 0.9)
              (default_feedstocks 9) (VRef 6) sample_state 65960
              sample_placeholder Hh Hcf) as (Hfirst & second & Hsecond & _ & Hhyd).
  { lra. }
  eexists _, second. split; [exact Hfirst|]. split; [exact Hsecond|].
  rewrite Hhyd. unfold Q2R. simpl. lra.
Qed.

Lemma sizing_round_trip_witness :
  ∃ first second,
    run_size_iron_win_plant_capacity (F:=R) no_registry no_model
      (sample_capacity_config (Some 65960) None) sample_state
    = (Ok first, sample_state)
    ∧ run_size_iron_win_plant_capacity no_registry no_model
        (sample_capacity_config None
           (Some (iron_win_plant_capacity_mtpy first * Q2R 0.9))) sample_state
      = (Ok second, sample_state)
    ∧ iron_win_plant_capacity_mtpy second = iron_win_plant_capacity_mtpy first
    ∧ hydrogen_amount_kgpy_out second = 65960 * Q2R 0.9
    ∧ (hydrogen_amount_kgpy_out second = 65960 ↔ Q2R 0.9 = 1).
Proof.
  apply (sizing_round_trip no_registry no_model (Q2R 0.9)
           (default_feedstocks 9) (VRef 6) sample_state 65960).
  - apply sample_placeholder.
  - apply sample_rates.
  - apply sample_rates.
  - lra.
Defined.

Lemma both_set_one_zero_is_accepted_witness :
  new_IronWinCapacityModelConfig (F:=R) (Q2R 0.9) (default_feedstocks 9)
    (Some 0) (Some 1000) (VRef 6)
    = Ok (mkCapacityConfig (Q2R 0.9) (default_feedstocks 9) (Some 0)
            (Some 1000) (VRef 6))
  ∧ new_IronOreCapacityModelConfig (F:=R) (Q2R 0.9) (default_feedstocks 9)
      (Some 0) (Some 1000) (VRef 6)
    = Ok (mkCapacityConfig (Q2R 0.9) (default_feedstocks 9) (Some 0)
            (Some 1000) (VRef 6)).
Proof.
  apply (both_set_one_zero_is_accepted (Q2R 0.9) (default_feedstocks 9)
           (VRef 6) 0 1000).
  apply falsy_zero.
Defined.


Lemma lcoh_consistency_gate_witness :
  ((run_iron_win_full_model (F:=R) no_registry no_model no_model sample_solver
      (VRef 1) false false "./output/" 0 mismatched_state).1
     = Raise (ValueError LcohMismatch)
   ∧ st_trace (run_iron_win_full_model (F:=R) no_registry no_model no_model
                 sample_solver (VRef 1) false false "./output/" 0
                 mismatched_state).2
     = [])
  ∧ (run_iron_win_full_model (F:=R) no_registry no_model no_model sample_solver
       (VRef 1) false false "./output/" 0 sample_state).1
    ≠ Raise (ValueError LcohMismatch).
Proof.
  split.
  - apply (lcoh_consistency_gate no_registry no_model no_model sample_solver
             (VRef 1) false false "./output/" 0 mismatched_state
             (VNum (Q2R 4.5)) (VNum (Q2R 5))).
    + reflexivity.
    + reflexivity.
    + left. reflexivity.
    + cbv [py_eq as_int as_float f_eqb R_PyFloat].
      destruct (Req_dec_T (Q2R 4.5) (Q2R 5)) as [Heq|]; [|done].
      exfalso. revert Heq. unfold Q2R. simpl. lra.
  - apply (lcoh_consistency_gate no_registry no_model no_model sample_solver
             (VRef 1) false false "./output/" 0 sample_state
             (VNum (Q2R 4.5)) (VNum (Q2R 4.5))).
    + reflexivity.
    + reflexivity.
    + left. reflexivity.
    + cbv [py_eq as_int as_float f_eqb R_PyFloat].
      destruct (Req_dec_T (Q2R 4.5) (Q2R 4.5)); done.
Defined.



Lemma installation_cost_composition_witness :
  installation_cost (sample_cost_outputs (F:=R) true)
  = labor_cost_fivemonth (sample_cost_outputs true)
    + Q2R 0.02 * total_plant_cost (sample_cost_outputs true)
    + fuel_consumables_60day_supply_cost
        (with_o2_heat_integration true sample_cost_config)
    + spare_parts_cost (sample_cost_outputs true)
    + misc_owners_costs (sample_cost_outputs true).
Proof.
  exact (proj1 (installation_cost_composition no_registry no_model
                  (with_o2_heat_integration true sample_cost_config)
                  sample_state sample_state (sample_cost_outputs true)
                  sample_placeholder (sample_cost_run true))).
Defined.

Lemma run_size_effects_counterexample :
  entry (F:=R) (st_heap sample_state) (VRef 10) "model_fp"
    = Some (VStr EmptyString)
  ∧ entry (st_heap (run_size_iron_win_plant_capacity (F:=R) sample_model_locs
                      no_model sample_named_config sample_state).2)
      (VRef 10) "model_fp"
    = Some (VStr "models.regression")
  ∧ st_heap (run_size_iron_win_plant_capacity (F:=R) sample_model_locs
               no_model sample_named_config sample_state).2
    ≠ st_heap sample_state.
Proof.
  assert (entry (st_heap (run_size_iron_win_plant_capacity (F:=R)
                            sample_model_locs no_model sample_named_config
                            sample_state).2)
            (VRef 10) "model_fp" = Some (VStr "models.regression")) as Hafter
    by reflexivity.
  split; [reflexivity|]. split; [exact Hafter|].
  intros Heq. rewrite Heq in Hafter. discriminate Hafter.
Qed.

Lemma run_size_effects_witness :
  patched (F:=R) (VRef 6) sample_state
    (run_size_iron_win_plant_capacity no_registry no_model
       (sample_capacity_config (Some 65960) None) sample_state).2
  ∧ (run_size_iron_win_plant_capacity (F:=R) no_registry no_model
       (sample_capacity_config (Some 65960) None) sample_state).2
    = sample_state
  ∧ (run_size_iron_win_plant_capacity (F:=R) sample_model_locs no_model
       sample_named_config sample_state).2
    = mkState (<[10%positive := resolved sample_paths sample_descriptor]>
                 sample_heap) []
  ∧ resolved (F:=R) sample_paths sample_descriptor !! "model_fp"
    = Some (VStr "models.regression")
  ∧ resolved (F:=R) sample_paths sample_descriptor !! "inputs_fp"
    = Some (VStr "regression_inputs.yaml")
  ∧ resolved (F:=R) sample_paths sample_descriptor !! "coeffs_fp"
    = Some (VStr "coeffs.csv")
  ∧ resolved (F:=R) sample_paths sample_descriptor !! "name"
    = Some (VStr "regression").
Proof.
  destruct (run_size_effects no_registry no_model
              (sample_capacity_config (Some 65960) None) sample_state)
    as (Hpatched & Hsame & _).
  split; [exact Hpatched|]. split; [apply Hsame, sample_placeholder|].
  destruct (run_size_effects sample_model_locs no_model sample_named_config
              sample_state) as (_ & _ & Hnamed).
  destruct (Hnamed 10%positive sample_descriptor "regression"
              {[ "regression" := sample_paths ]} sample_paths)
    as (Hstate & Hentries & Hother).
  - reflexivity.
  - reflexivity.
  - reflexivity.
  - done.
  - reflexivity.
  - reflexivity.
  - intros k Hk. unfold path_entries in Hk.
    repeat (apply elem_of_cons in Hk as [->|Hk]); [..|by apply elem_of_nil in Hk];
      eexists; reflexivity.
  - intros k Hk. cbn in Hk.
    repeat (apply elem_of_cons in Hk as [->|Hk]); [..|by apply elem_of_nil in Hk];
      eexists; reflexivity.
  - split; [exact Hstate|].
    split; [|split; [|split]].
    + apply (Hentries "model_fp" "model");
        [apply (list_elem_of_lookup_2 _ 0%nat); reflexivity|].
      exists (VStr EmptyString). split; reflexivity.
    + apply (Hentries "inputs_fp" "inputs");
        [apply (list_elem_of_lookup_2 _ 1%nat); reflexivity|].
      exists (VStr EmptyString). split; reflexivity.
    + rewrite (proj2 (Hentries "coeffs_fp" "coeffs"
                        (list_elem_of_lookup_2 path_keys 2%nat _ eq_refl)));
        [reflexivity|].
      intros (v & Hv & Hb). vm_compute in Hv. injection Hv as <-.
      vm_compute in Hb. discriminate Hb.
    + rewrite Hother; [reflexivity|]. unfold path_entries.
      rewrite !not_elem_of_cons. repeat split; [done..|apply not_elem_of_nil].
Defined.

Lemma deep_copy_isolation_witness :
  st_heap (Nat.iter 2
             (λ s, (run_iron_win_full_model (F:=R) no_registry no_model no_model
                      sample_solver (VRef 1) false false "./output/" 0 s).2)
             sample_state) !! 3%positive
  = st_heap sample_state !! 3%positive.
Proof.
  apply (deep_copy_isolation no_registry no_model no_model sample_solver
           (VRef 1) false false "./output/" 0 sample_state 2 3%positive).
  eexists. reflexivity.
Defined.

Lemma zero_quantity_passes_validation_witness :
  new_IronWinCapacityModelConfig (F:=R) (Q2R 0.9) (default_feedstocks 9)
    (Some 0) None (VRef 6)
    = Ok (sample_capacity_config (Some 0) None)
  ∧ run_size_iron_win_plant_capacity no_registry no_model
      (sample_capacity_config (Some 0) None) sample_state
    = (Raise UnboundLocalError, sample_state)
  ∧ (∀ x, new_IronWinCapacityModelConfig (Q2R 0.9) (default_feedstocks 9)
            (Some 0) (Some x) (VRef 6)
          = Ok (sample_capacity_config (Some 0) (Some x))
          ∧ new_IronWinCapacityModelConfig (Q2R 0.9) (default_feedstocks 9)
              (Some x) (Some 0) (VRef 6)
            = Ok (sample_capacity_config (Some x) (Some 0))).
Proof.
  apply (zero_quantity_passes_validation no_registry no_model (Q2R 0.9)
           (default_feedstocks 9) (VRef 6) 0 sample_state).
  - apply falsy_zero.
  - apply sample_placeholder.
Defined.

(** ** The orchestrator on the sample configuration *)

(** Steps of a run: a subscript and a [**] unpacking, in the store [h]. *)
Ltac sub h t x :=
  rewrite (bind_ok _ _ (mkState (F:=R) h t) (mkState (F:=R) h t) x)
    by (apply subscript_present; vm_compute; reflexivity).
Ltac kw h t l :=
  rewrite (bind_ok _ _ (mkState (F:=R) h t) (mkState (F:=R) h t) (kwargs_at h l))
    by (apply kwargs_of_present; vm_compute; reflexivity).

Lemma f_eqb_refl (x : R) : f_eqb x x = true.
Proof. simpl. by destruct (Req_dec_T x x). Qed.

Lemma sample_full_run :
  run_iron_win_full_model (F:=R) no_registry no_model no_model sample_solver
    (VRef 1) false false "./output/" 0 sample_state
  = (Ok sample_full_outputs, financed_state).
Proof.
  unfold run_iron_win_full_model, sample_state.
  sub sample_heap (@nil stage) (VRef (F:=R) 2).
  rewrite (bind_ok _ _ (mkState sample_heap []) (mkState copied_heap []) (VRef 12)).
  2:{ unfold deepcopy. cbn [st_heap st_trace]. by f_equal. }
  sub copied_heap (@nil stage) (VRef (F:=R) 13).
  sub copied_heap (@nil stage) (VNum (Q2R 4.5)).
  sub copied_heap (@nil stage) (VRef (F:=R) 14).
  sub copied_heap (@nil stage) (VNum (Q2R 4.5)).
  change (py_eq (VNum (Q2R 4.5)) (VNum (Q2R 4.5))) with (f_eqb (Q2R 4.5) (Q2R 4.5)).
  rewrite f_eqb_refl. cbn [negb].
  sub copied_heap (@nil stage) (VRef (F:=R) 13).
  sub copied_heap (@nil stage) (VRef (F:=R) 15).
  sub copied_heap (@nil stage) (VRef (F:=R) 17).
  kw copied_heap (@nil stage) 17%positive.
  rewrite (bind_ok _ _ (mkState copied_heap []) (mkState copied_heap []) sample_feedstocks)
    by (unfold lift; f_equal; vm_compute; reflexivity).
  kw copied_heap (@nil stage) 15%positive.
  rewrite (bind_ok _ _ (mkState copied_heap []) (mkState copied_heap [])
             (mkCapacityConfig (Q2R 0.9) sample_feedstocks
                (Some (Q2R 65960)) None VNone)).
  2:{ unfold lift. f_equal. unfold capacity_config_of_kwargs.
      assert (kwargs_allowed
                ["input_capacity_factor_estimate"; "hydrogen_amount_kgpy";
                 "desired_iron_win_mtpy"; "performance_model"]
                (kwargs_at copied_heap 15) = true) as -> by (vm_compute; reflexivity).
      cbn [negb].
      assert (kw_float (kwargs_at copied_heap 15) "input_capacity_factor_estimate" None
              = Ok (Q2R 0.9)) as -> by (vm_compute; reflexivity).
      assert (kw_optional_float (kwargs_at copied_heap 15) "hydrogen_amount_kgpy"
              = Ok (Some (Q2R 65960))) as -> by (vm_compute; reflexivity).
      assert (kw_optional_float (kwargs_at copied_heap 15) "desired_iron_win_mtpy"
              = Ok None) as -> by (vm_compute; reflexivity).
      assert (kwargs_at copied_heap 15 !! "performance_model" = None) as ->
        by (vm_compute; reflexivity).
      cbn [mbind result_bind default from_option id].
      apply new_config_exactly_one. }
  sub copied_heap (@nil stage) (VRef (F:=R) 16).
  rewrite (bind_ok _ _ (mkState copied_heap []) (mkState copied_heap [CapacityStage]) tt)
    by reflexivity.
  rewrite (bind_ok _ _ (mkState copied_heap [CapacityStage]) (mkState copied_heap [CapacityStage])
             sample_sized).
  2:{ rewrite run_size_placeholder.
      2:{ exists 16%positive. eexists (kwargs_at copied_heap 16). split; [reflexivity|].
          split; vm_compute; reflexivity. }
      assert (f_truthy (Q2R 65960) = true) as Hsupply.
      { apply truthy_nonzero. unfold Q2R. simpl. lra. }
      unfold set_performance_model.
      cbn [input_capacity_factor_estimate feedstocks hydrogen_amount_kgpy
           desired_iron_win_mtpy].
      rewrite (placeholder_capacity_supply
                 (mkCapacityConfig (Q2R 0.9) sample_feedstocks
                    (Some (Q2R 65960)) None (VRef 16))
                 (Q2R 65960) eq_refl Hsupply eq_refl); [done|].
      apply truthy_nonzero. unfold Q2R. simpl. lra. }
  rewrite (bind_ok _ _ (mkState copied_heap [CapacityStage]) (mkState costed_heap [CapacityStage]) tt)
    by (apply store_item_present; [vm_compute; reflexivity|reflexivity]).
  kw costed_heap [CapacityStage] 13%positive.
  rewrite (bind_ok _ _ (mkState costed_heap [CapacityStage]) (mkState costed_heap [CapacityStage])
             (set_cost_model VNone sample_full_cost_config))
    by (unfold lift; f_equal; vm_compute; reflexivity).
  sub costed_heap [CapacityStage] (VRef (F:=R) 16).
  rewrite (bind_ok _ _ (mkState costed_heap [CapacityStage])
             (mkState costed_heap [CapacityStage; CostStage]) tt) by reflexivity.
  rewrite (bind_ok _ _ (mkState costed_heap [CapacityStage; CostStage])
             (mkState costed_heap [CapacityStage; CostStage])
             (placeholder_costs sample_full_cost_config (f_lit 3.76%Q))).
  2:{ apply (run_cost_placeholder no_registry no_model sample_full_cost_config
               _ (kwargs_at costed_heap 19)).
      - exists 16%positive. eexists (kwargs_at costed_heap 16). split; [reflexivity|].
        split; vm_compute; reflexivity.
      - vm_compute; reflexivity.
      - vm_compute; reflexivity. }
  unfold sample_full_outputs.
  generalize (placeholder_costs sample_full_cost_config (f_lit 3.76%Q)).
  intros outputs.
  sub costed_heap [CapacityStage; CostStage] (VRef (F:=R) 14).
  rewrite (bind_ok _ _ (mkState costed_heap [CapacityStage; CostStage])
             (mkState financed_heap [CapacityStage; CostStage]) tt)
    by (apply store_item_present; [vm_compute; reflexivity|reflexivity]).
  kw financed_heap [CapacityStage; CostStage] 14%positive.
  rewrite (bind_ok _ _ (mkState financed_heap [CapacityStage; CostStage])
             (mkState financed_heap [CapacityStage; CostStage])
             (sample_finance_config outputs))
    by (unfold lift; f_equal; vm_compute; reflexivity).
  rewrite (bind_ok _ _ (mkState financed_heap [CapacityStage; CostStage])
             financed_state tt) by reflexivity.
  reflexivity.
Qed.

Lemma full_model_hand_over_witness :
  ∃ capacity_config cost_config finance_config σ1 σ2 σ3,
    (run_size_iron_win_plant_capacity (F:=R) no_registry no_model
       capacity_config σ1).1 = Ok sample_sized
    ∧ (run_iron_win_cost_model no_registry no_model cost_config σ2).1
      = Ok (placeholder_costs sample_full_cost_config (Q2R 3.76))
    ∧ sample_solver finance_config (st_heap σ3) = Some (mkFinanceOutputs ∅ ∅ [])
    ∧ plant_capacity_mtpy cost_config = iron_win_plant_capacity_mtpy sample_sized
    ∧ cost_feedstocks cost_config = feedstocks capacity_config
    ∧ fin_plant_capacity_mtpy finance_config
      = iron_win_plant_capacity_mtpy sample_sized
    ∧ plant_capacity_factor finance_config
      = input_capacity_factor_estimate capacity_config
    ∧ iron_win_production_mtpy finance_config
      = run_iron_win_model (iron_win_plant_capacity_mtpy sample_sized)
          (input_capacity_factor_estimate capacity_config)
    ∧ costs finance_config = placeholder_costs sample_full_cost_config (Q2R 3.76)
    ∧ fin_feedstocks finance_config = feedstocks capacity_config
    ∧ save_plots finance_config = false ∧ show_plots finance_config = false
    ∧ output_dir finance_config = "./output/"
    ∧ design_scenario_id finance_config = 0%Z.
Proof.
  apply (full_model_hand_over no_registry no_model no_model sample_solver
           (VRef 1) false false "./output/" 0 sample_state).
  by rewrite sample_full_run.
Defined.
(** ** Witnesses of the further properties *)

Lemma placeholder_sizing_outcome_witness :
  ((run_size_iron_win_plant_capacity (F:=R) no_registry no_model
      (sample_capacity_config (Some 65960) None) sample_state).1
     = Raise UnboundLocalError
     ↔ opt_truthy (Some 65960) = false ∧ opt_truthy (F:=R) None = false)
  ∧ ((run_size_iron_win_plant_capacity (F:=R) no_registry no_model
        (sample_capacity_config (Some 65960) None) sample_state).1
       = Raise ZeroDivisionError
     ↔ (opt_truthy (Some 65960) = true ∧ f_truthy (Q2R 0.06596) = false)
       ∨ (opt_truthy (F:=R) None = true ∧ f_truthy (Q2R 0.9) = false))
  ∧ ((∃ out,
        (run_size_iron_win_plant_capacity (F:=R) no_registry no_model
           (sample_capacity_config (Some 65960) None) sample_state).1 = Ok out)
     ↔ (opt_truthy (Some 65960) = true ∨ opt_truthy (F:=R) None = true)
       ∧ (opt_truthy (Some 65960) = true → f_truthy (Q2R 0.06596) = true)
       ∧ (opt_truthy (F:=R) None = true → f_truthy (Q2R 0.9) = true)).
Proof.
  exact (placeholder_sizing_outcome no_registry no_model
           (sample_capacity_config (Some 65960) None) sample_state
           sample_placeholder).
Defined.

Lemma demand_overrides_supply_witness :
  run_size_iron_win_plant_capacity (F:=R) no_registry no_model
    (sample_capacity_config (Some 65960) (Some 1000)) sample_state
  = (Ok (mkCapacityOutputs (1000 / Q2R 0.9)
           (1000 * Q2R 1000 * Q2R 0.06596 / Q2R 0.9)), sample_state).
Proof.
  assert (f_truthy 65960 = true) as Hsupply by (apply truthy_nonzero; lra).
  assert (f_truthy 1000 = true) as Hdemand by (apply truthy_nonzero; lra).
  assert (f_truthy (Q2R 0.06596) = true) as Hrate.
  { apply truthy_nonzero. unfold Q2R. simpl. lra. }
  assert (f_truthy (Q2R 0.9) = true) as Hfactor.
  { apply truthy_nonzero. unfold Q2R. simpl. lra. }
  exact (demand_overrides_supply no_registry no_model
           (sample_capacity_config (Some 65960) (Some 1000)) sample_state
           65960 1000 sample_placeholder eq_refl Hsupply eq_refl Hdemand
           Hrate Hfactor).
Defined.

Lemma sample_model_named :
  model_named (F:=R) (VRef 10) "regression" (kwargs_at sample_heap 10)
    sample_state.
Proof. exists 10%positive. repeat split; reflexivity || done. Qed.

Lemma unregistered_model_witness :
  run_size_iron_win_plant_capacity (F:=R) no_registry no_model
    sample_named_config sample_state = (Raise KeyError, sample_state)
  ∧ run_iron_win_cost_model (F:=R) no_registry no_model
      (set_cost_model (VRef 10) sample_cost_config) sample_state
    = (Raise KeyError, sample_state).
Proof.
  apply (unregistered_model no_registry no_model no_model sample_named_config
           (set_cost_model (VRef 10) sample_cost_config) (VRef 10) "regression"
           (kwargs_at sample_heap 10) sample_state eq_refl eq_refl
           sample_model_named).
  - eexists. split; reflexivity.
  - intros kind by_name. unfold no_registry. by rewrite lookup_empty.
Defined.

Lemma explicit_model_named :
  model_named (F:=R) (VRef 1) "regression" (kwargs_at explicit_heap 1)
    explicit_state.
Proof. exists 1%positive. repeat split; reflexivity || done. Qed.

Lemma explicit_paths (k : string) :
  k ∈ path_entries → explicit_entry (F:=R) (kwargs_at explicit_heap 1 !! k).
Proof.
  unfold path_entries. rewrite !elem_of_cons, elem_of_nil.
  intros [->|[->|[->|[]]]]; eexists; split; reflexivity.
Qed.

Lemma delegated_sizing_witness :
  run_size_iron_win_plant_capacity (F:=R) no_registry
    (constant_model [100000; 65960]) explicit_capacity_config explicit_state
  = (Ok (mkCapacityOutputs 100000 65960), explicit_state).
Proof.
  exact (delegated_sizing no_registry (constant_model [100000; 65960])
           explicit_capacity_config "regression" (kwargs_at explicit_heap 1)
           (VStr "models.regression") explicit_state explicit_model_named
           explicit_paths eq_refl).
Defined.

Lemma delegated_costs_witness :
  run_iron_win_cost_model (F:=R) no_registry
    (constant_model (unpack_order (sample_cost_outputs true)))
    explicit_cost_config explicit_state
  = (Ok (sample_cost_outputs true), explicit_state).
Proof.
  exact (proj1 (delegated_costs no_registry
                  (constant_model (unpack_order (sample_cost_outputs true)))
                  explicit_cost_config "regression" (kwargs_at explicit_heap 1)
                  (VStr "models.regression") explicit_state
                  (unpack_order (sample_cost_outputs true))
                  explicit_model_named explicit_paths eq_refl eq_refl)
           (sample_cost_outputs true) eq_refl).
Defined.

Lemma placeholder_cost_outcome_witness :
  ((run_iron_win_cost_model (F:=R) no_registry no_model sample_cost_config
      sample_state).1 = Raise KeyError
     ↔ kwargs_at sample_heap 9 !! pretty 2035%Z = None)
  ∧ (∀ gas_price,
       kwargs_at sample_heap 9 !! pretty 2035%Z = Some (VNum gas_price) →
       (run_iron_win_cost_model (F:=R) no_registry no_model sample_cost_config
          sample_state).1 = Ok (placeholder_costs sample_cost_config gas_price))
  ∧ (run_iron_win_cost_model (F:=R) no_registry no_model sample_cost_config
       sample_state).2 = sample_state.
Proof.
  exact (placeholder_cost_outcome no_registry no_model sample_cost_config
           sample_state (kwargs_at sample_heap 9) sample_placeholder eq_refl).
Defined.

Lemma sample_dear_run :
  run_iron_win_cost_model (F:=R) no_registry no_model sample_dear_config
    sample_state
  = (Ok (placeholder_costs sample_dear_config (Q2R 3.76)), sample_state).
Proof.
  apply (run_cost_placeholder no_registry no_model sample_dear_config
           sample_state (kwargs_at sample_heap 9) (Q2R 3.76) sample_placeholder);
    reflexivity.
Qed.

Lemma capital_and_fixed_costs_inputs_witness :
  capital_and_fixed_outputs (F:=R) (sample_cost_outputs true)
  = capital_and_fixed_outputs (placeholder_costs sample_dear_config (Q2R 3.76)).
Proof.
  exact (capital_and_fixed_costs_inputs no_registry no_model
           (with_o2_heat_integration true sample_cost_config) sample_dear_config
           sample_state sample_state sample_state sample_state
           (sample_cost_outputs true)
           (placeholder_costs sample_dear_config (Q2R 3.76))
           sample_placeholder sample_placeholder eq_refl eq_refl eq_refl
           (sample_cost_run true) sample_dear_run).
Defined.

Lemma sample_capacity_positive : 0 < plant_capacity_mtpy (F:=R) sample_cost_config.
Proof. simpl. unfold Q2R. simpl. lra. Qed.

Lemma fixed_cost_closed_form_witness :
  labor_cost_annual_operation (F:=R) (sample_cost_outputs true)
    = 69375996.9 * Rpower (Q2R 100000 / 1162077) 0.25242
  ∧ total_fixed_operating_cost (F:=R) (sample_cost_outputs true)
    = 1.25 * labor_cost_annual_operation (sample_cost_outputs true)
      + 0.0307875 * total_plant_cost (sample_cost_outputs true).
Proof.
  exact (fixed_cost_closed_form no_registry no_model
           (with_o2_heat_integration true sample_cost_config)
           sample_state sample_state (sample_cost_outputs true)
           sample_capacity_positive sample_placeholder (sample_cost_run true)).
Defined.

Lemma sample_doubled_run :
  run_iron_win_cost_model (F:=R) no_registry no_model
    (set_plant_capacity_mtpy 200000 sample_cost_config) sample_state
  = (Ok (placeholder_costs (set_plant_capacity_mtpy 200000 sample_cost_config)
           (Q2R 3.76)), sample_state).
Proof.
  apply (run_cost_placeholder no_registry no_model
           (set_plant_capacity_mtpy 200000 sample_cost_config)
           sample_state (kwargs_at sample_heap 9) (Q2R 3.76) sample_placeholder);
    reflexivity.
Qed.

Lemma costs_scale_with_capacity_witness :
  0 < total_plant_cost (F:=R) (sample_cost_outputs true)
    < total_plant_cost
        (placeholder_costs (set_plant_capacity_mtpy 200000 sample_cost_config)
           (Q2R 3.76))
  ∧ 0 < total_fixed_operating_cost (F:=R) (sample_cost_outputs true)
      < total_fixed_operating_cost
          (placeholder_costs (set_plant_capacity_mtpy 200000 sample_cost_config)
             (Q2R 3.76))
  ∧ total_plant_cost
      (placeholder_costs (set_plant_capacity_mtpy 200000 sample_cost_config)
         (Q2R 3.76)) / 200000
    < total_plant_cost (F:=R) (sample_cost_outputs true) / Q2R 100000
  ∧ total_fixed_operating_cost
      (placeholder_costs (set_plant_capacity_mtpy 200000 sample_cost_config)
         (Q2R 3.76)) / 200000
    < total_fixed_operating_cost (F:=R) (sample_cost_outputs true) / Q2R 100000.
Proof.
  assert (0 <= capex_misc_in (F:=R)
                 (with_o2_heat_integration true sample_cost_config)) as Hmisc.
  { simpl. unfold Q2R. simpl. lra. }
  assert (0 < plant_capacity_mtpy (F:=R)
                (with_o2_heat_integration true sample_cost_config)
          < plant_capacity_mtpy
              (set_plant_capacity_mtpy 200000 sample_cost_config)) as Hcap.
  { simpl. unfold Q2R. simpl. lra. }
  exact (costs_scale_with_capacity no_registry no_model
           (with_o2_heat_integration true sample_cost_config)
           (set_plant_capacity_mtpy 200000 sample_cost_config)
           sample_state sample_state sample_state sample_state
           (sample_cost_outputs true)
           (placeholder_costs (set_plant_capacity_mtpy 200000 sample_cost_config)
              (Q2R 3.76))
           sample_placeholder sample_placeholder eq_refl eq_refl Hmisc Hcap
           (sample_cost_run true) sample_doubled_run).
Defined.

Lemma integration_flag_totals_witness :
  total_plant_cost (F:=R) (sample_cost_outputs true)
    = total_plant_cost (sample_cost_outputs false)
      - 0.4 * capex_h2_preheating (sample_cost_outputs false)
      - 0.3 * capex_cooling_tower (sample_cost_outputs false)
  ∧ total_plant_cost (F:=R) (sample_cost_outputs true)
    < total_plant_cost (sample_cost_outputs false)
  ∧ total_fixed_operating_cost (F:=R) (sample_cost_outputs true)
    < total_fixed_operating_cost (sample_cost_outputs false)
  ∧ installation_cost (F:=R) (sample_cost_outputs true)
    < installation_cost (sample_cost_outputs false)
  ∧ labor_cost_annual_operation (F:=R) (sample_cost_outputs true)
    = labor_cost_annual_operation (sample_cost_outputs false)
  ∧ land_cost (F:=R) (sample_cost_outputs true)
    = land_cost (sample_cost_outputs false).
Proof.
  exact (integration_flag_totals no_registry no_model sample_cost_config
           sample_state sample_state sample_state
           (sample_cost_outputs true) (sample_cost_outputs false)
           sample_capacity_positive sample_placeholder
           (sample_cost_run true) (sample_cost_run false)).
Defined.

Lemma sizing_then_production_witness :
  (∃ out,
     run_size_iron_win_plant_capacity (F:=R) no_registry no_model
       (mkCapacityConfig (Q2R 0.9) (default_feedstocks 9) None (Some 65960)
          (VRef 6)) sample_state = (Ok out, sample_state)
     ∧ run_iron_win_model (iron_win_plant_capacity_mtpy out) (Q2R 0.9) = 65960
     ∧ hydrogen_amount_kgpy_out out
       = iron_win_plant_capacity_mtpy out * 1000
         * hydrogen_consumption (default_feedstocks (F:=R) 9))
  ∧ (∃ out,
     run_size_iron_win_plant_capacity (F:=R) no_registry no_model
       (mkCapacityConfig (Q2R 0.9) (default_feedstocks 9) (Some 65960) None
          (VRef 6)) sample_state = (Ok out, sample_state)
     ∧ run_iron_win_model (iron_win_plant_capacity_mtpy out) (Q2R 0.9)
       = 65960 / 1000 / hydrogen_consumption (default_feedstocks (F:=R) 9)
         * Q2R 0.9 * Q2R 0.9
     ∧ iron_win_plant_capacity_mtpy out * 1000
       * hydrogen_consumption (default_feedstocks (F:=R) 9)
       = hydrogen_amount_kgpy_out out * Q2R 0.9).
Proof.
  assert (65960 ≠ 0) as Hq by lra.
  exact (sizing_then_production no_registry no_model (Q2R 0.9)
           (default_feedstocks 9) (VRef 6) sample_state 65960
           sample_placeholder (proj1 sample_rates) (proj2 sample_rates) Hq).
Defined.

Lemma missing_lcoh_is_key_error_witness :
  (run_iron_win_full_model (F:=R) no_registry no_model no_model sample_solver
     (VRef 1) false false "./output/" 0 no_lcoh_state).1 = Raise KeyError
  ∧ st_trace (run_iron_win_full_model (F:=R) no_registry no_model no_model
                sample_solver (VRef 1) false false "./output/" 0
                no_lcoh_state).2 = [].
Proof.
  apply (missing_lcoh_is_key_error no_registry no_model no_model sample_solver
           (VRef 1) false false "./output/" 0 no_lcoh_state
           2%positive 3%positive 4%positive
           (kwargs_at no_lcoh_heap 3) (kwargs_at no_lcoh_heap 4));
    try reflexivity.
  left. reflexivity.
Defined.

(** ** The sample configuration in binary64 *)

#[local] Existing Instance binary64.

Lemma sample_cost_run_binary64 (flag : bool) :
  run_iron_win_cost_model no_registry no_model
    (with_o2_heat_integration flag sample_cost_config) sample_state
  = (Ok (sample_cost_outputs flag), sample_state).
Proof. destruct flag; vm_compute; reflexivity. Qed.

Lemma sample_placeholder_binary64 :
  placeholder_named (F:=float) (VRef 6) sample_state.
Proof. eexists _, _. split; [reflexivity|]. split; vm_compute; reflexivity. Qed.




(** X22.  Binary64 at the sample configuration, where rounding separates the
    code from the identities over the real numbers.  Sizing for a demand of
    7.0 at a capacity factor of 0.3 gives a capacity of 23.333333333333336,
    whose production is 7.000000000000001, not the demand.  The total fixed
    operating cost of the sample is 49726137.76516461, where 1.25 times the
    labor cost plus 3.07875% of the total plant cost is 49726137.765164606.
    With a miscellaneous capex of 1e30 the preheating item is lower with the
    integration flag than without, and the total plant cost is 1e30 in both
    runs. *)
Theorem binary64_rounding :
  (∃ out,
     run_size_iron_win_plant_capacity no_registry no_model
       (mkCapacityConfig 0.3%float (default_feedstocks 9) None (Some 7%float)
          (VRef 6))
       sample_state = (Ok out, sample_state)
     ∧ iron_win_plant_capacity_mtpy out = 23.333333333333336%float
     ∧ run_iron_win_model (iron_win_plant_capacity_mtpy out) 0.3%float
       = 7.000000000000001%float)
  ∧ (∃ out,
     run_iron_win_cost_model no_registry no_model
       (with_o2_heat_integration true sample_cost_config) sample_state
       = (Ok out, sample_state)
     ∧ total_fixed_operating_cost out = 49726137.76516461%float
     ∧ (1.25 * labor_cost_annual_operation out
        + 0.0307875 * total_plant_cost out)%float
       = 49726137.765164606%float)
  ∧ (∃ on off,
     run_iron_win_cost_model no_registry no_model
       (sample_misc_config 1e30%float true) sample_state = (Ok on, sample_state)
     ∧ run_iron_win_cost_model no_registry no_model
         (sample_misc_config 1e30%float false) sample_state
       = (Ok off, sample_state)
     ∧ (capex_h2_preheating on <? capex_h2_preheating off)%float = true
     ∧ total_plant_cost on = 1e30%float
     ∧ total_plant_cost off = 1e30%float).
Proof.
  split; [|split].
  - eexists. split; [vm_compute; reflexivity|]. split; vm_compute; reflexivity.
  - eexists. split; [vm_compute; reflexivity|]. split; vm_compute; reflexivity.
  - eexists _, _. split; [vm_compute; reflexivity|].
    split; [vm_compute; reflexivity|]. repeat split; vm_compute; reflexivity.
Qed.

(** ** The calls of the finance function on the sample configuration *)

Lemma own_parameters_win_witness :
  last_param (ledger_calls (sample_cost_outputs true)) "general inflation rate"
    = Some (PScalar (PNum 0.02%float))
  ∧ last_param (ledger_calls (sample_cost_outputs true)) "total income tax rate"
    = Some (PPassed (VNum 0.2574%float))
  ∧ last_param (ledger_calls (sample_cost_outputs true)) "operating life"
    = Some (PScalar (PInt 30)).
Proof.
  destruct (own_parameters_win ledger_runtime
              (ledger_config (sample_cost_outputs true)) ledger_heap
              (ledger_calls (sample_cost_outputs true))
              (ledger_run (sample_cost_outputs true)))
    as (start & Hstart & Hown & Hinflation & Hpassed).
  split; [|split].
  - rewrite Hinflation. vm_compute. reflexivity.
  - rewrite (Hpassed 2%positive (kwargs_at ledger_heap 2)
               "total income tax rate" (VNum 0.2574%float)).
    + reflexivity.
    + reflexivity.
    + vm_compute. reflexivity.
    + vm_compute. apply (list_elem_of_lookup_2 _ 1%nat). reflexivity.
    + unfold own_parameters. rewrite !not_elem_of_cons.
      repeat split; [done..|apply not_elem_of_nil].
    + vm_compute. reflexivity.
  - rewrite (proj2 (Hown "operating life"
                      (list_elem_of_lookup_2 own_parameters 4%nat _ eq_refl))).
    vm_compute in Hstart. injection Hstart as <-. vm_compute. reflexivity.
Defined.


Lemma files_on_request_witness :
  (∃ calls,
     finance_model_calls ledger_runtime
       (quiet_config (sample_cost_outputs true)) ledger_heap = inr calls
     ∧ Forall (λ call, writes_files call = false) calls)
  ∧ makedirs "./output/data/" ∈ ledger_calls (sample_cost_outputs true)
  ∧ to_csv "./output/data/iron_win_cash_flow_7.csv"
    ∈ ledger_calls (sample_cost_outputs true)
  ∧ plot_capital_expenses "./output/figures/capex/iron_win_capital_expense_7.pdf"
      true ∈ ledger_calls (sample_cost_outputs true)
  ∧ plot_cashflow "./output/figures/annual_cash_flow/iron_win_cash_flow_7.png"
      true ∈ ledger_calls (sample_cost_outputs true)
  ∧ plot_costs "./output/figures/lcos_breakdown/lcos_7" true
    ∈ ledger_calls (sample_cost_outputs true).
Proof.
  split.
  - assert (∃ calls, finance_model_calls (F:=float) ledger_runtime
                       (quiet_config (sample_cost_outputs true)) ledger_heap
                     = inr calls) as [calls Hrun]
      by (eexists; vm_compute; reflexivity).
    exists calls. split; [exact Hrun|].
    apply (proj1 (files_on_request ledger_runtime
                    (quiet_config (sample_cost_outputs true)) ledger_heap
                    calls Hrun)).
    reflexivity.
  - destruct (proj2 (files_on_request ledger_runtime
                       (ledger_config (sample_cost_outputs true)) ledger_heap
                       (ledger_calls (sample_cost_outputs true))
                       (ledger_run (sample_cost_outputs true))) eq_refl)
      as (Hdirs & Hcsv & Hcapex & Hcash & Hcosts).
    split; [|split; [|split; [|split]]].
    + apply Hdirs; [|reflexivity].
      apply (list_elem_of_lookup_2 _ 3%nat). reflexivity.
    + exact Hcsv.
    + exact Hcapex.
    + exact Hcash.
    + exact Hcosts.
Defined.

Lemma registered_costs_add_up_witness :
  (∃ first rest,
     capital_costs (ledger_calls (sample_cost_outputs true)) = first :: rest
     ∧ length rest = 8%nat
     ∧ foldl f_add first rest = total_plant_cost (sample_cost_outputs true))
  ∧ (∃ first rest,
     fixed_costs (ledger_calls (sample_cost_outputs true)) = first :: rest
     ∧ length rest = 3%nat
     ∧ foldl f_add first rest
       = total_fixed_operating_cost (sample_cost_outputs true)).
Proof.
  exact (registered_costs_add_up no_registry no_model ledger_runtime
           (with_o2_heat_integration true sample_cost_config)
           sample_state sample_state
           (ledger_config (sample_cost_outputs true)) ledger_heap
           (ledger_calls (sample_cost_outputs true))
           sample_placeholder_binary64 (sample_cost_run_binary64 true)
           (ledger_run (sample_cost_outputs true))).
Defined.
